(** * Sandbox sessions, the command runner and the streaming bridge

    A shallow embedding of the session manager ([AgentSession]), the pool
    client ([ObjectPoolSdk]), the two command runners behind [execShell],
    the result poller [getShellResult] and the server-sent-event bridge
    ([GET] of the shell stream route), with the properties the
    specification states about them.

    Conventions.  An [await]ed call that can reject is a value of
    [result]; what a collaborator outside the modelled function answers
    (an HTTP response, a database row, the time a call takes) is an
    argument of the function that consumes it; what the function does to
    the outside (pool calls, record writes, events) is returned as a
    trace.  Time is in milliseconds, as [Date.now()] gives it. *)

From Stdlib Require Import ZArith NArith List String Ascii Bool Lia.
From Stdlib Require Import DecimalString.
Import ListNotations.

Open Scope string_scope.
Open Scope list_scope.
Open Scope Z_scope.

(** ** JavaScript values

    Strings are sequences of code units; [length] and [substring] count
    them, as [String.length] and [Js.substring] do here. *)

Module Js.

(** What a [throw] carries: an [Error] instance with its message, or
    any other value. *)
Inductive thrown : Type :=
| Error (message : string)
| NonError.

Inductive result (A : Type) : Type :=
| Ok (a : A)
| Throw (e : thrown).
Arguments Ok {A} a.
Arguments Throw {A} e.

Definition bind {A B : Type} (r : result A) (k : A -> result B) : result B :=
  match r with
  | Ok a => k a
  | Throw e => Throw e
  end.

(** [error instanceof Error ? error.message : fallback] *)
Definition messageOf (fallback : string) (e : thrown) : string :=
  match e with
  | Error m => m
  | NonError => fallback
  end.

(** Template-literal rendering of an integer. *)
Definition show (n : Z) : string := NilZero.string_of_int (Z.to_int n).

(** Truthiness of a nullable string: [null] and [''] are falsy. *)
Definition truthy (s : option string) : bool :=
  match s with
  | Some s => negb (String.eqb s "")
  | None => false
  end.

(** [s || null] on a nullable string. *)
Definition orNull (s : option string) : option string :=
  if truthy s then s else None.

(** The delay [setTimeout(f, ms)] installs on the server runtime (Node):
    a delay below 1 or above 2147483647 is set to 1.  It is the time
    [await new Promise((resolve) => setTimeout(resolve, ms))] takes. *)
Definition timerDelay (ms : Z) : Z :=
  if (1 <=? ms) && (ms <=? 2147483647) then ms else 1.

(** [s.substring(n)]: the code units from index [n] on. *)
Fixpoint substring (n : nat) (s : string) : string :=
  match n, s with
  | O, _ => s
  | S n', String _ s' => substring n' s'
  | S _, EmptyString => EmptyString
  end.

End Js.
Import Js.

(** ** HTTP responses as [fetch] resolves them *)

Module Http.

Record response (A : Type) : Type := mkResponse {
  status : Z;
  statusText : string;
  json : result A
}.
Arguments mkResponse {A} _ _ _.
Arguments status {A} _.
Arguments statusText {A} _.
Arguments json {A} _.

(** [response.ok] *)
Definition ok {A : Type} (r : response A) : bool :=
  (200 <=? status r) && (status r <=? 299).

Definition describe {A : Type} (r : response A) : string :=
  (show (status r) ++ " " ++ statusText r)%string.

End Http.

(** ** Loops bounded by a wall-clock budget

    [while (Date.now() - startTime < timeoutMs) { ...; await sleep(interval) }]
    is the shape of every waiting loop of the program.  The body is given
    the iteration index, the clock and the loop state; it answers with
    the time its awaits took and with how the iteration ended. *)

Module Poll.

Inductive step (St R : Type) : Type :=
| Continue (s : St)
| Break (r : R) (s : St)
| Raise (e : thrown) (s : St).
Arguments Continue {St R} s.
Arguments Break {St R} r s.
Arguments Raise {St R} e s.

Inductive exit (St R : Type) : Type :=
| Expired (s : St) (now : Z)
| Broke (r : R) (s : St) (now : Z)
| Raised (e : thrown) (s : St) (now : Z).
Arguments Expired {St R} s now.
Arguments Broke {St R} r s now.
Arguments Raised {St R} e s now.

Section Loop.
Context {St R : Type}.
Variable body : nat -> Z -> St -> N * step St R.
Variables startTime timeoutMs interval : Z.

Fixpoint loop (fuel : nat) (i : nat) (now : Z) (s : St) : option (exit St R) :=
  if now - startTime <? timeoutMs then
    match fuel with
    | O => None
    | S fuel' =>
        let '(took, o) := body i now s in
        let now' := now + Z.of_N took in
        match o with
        | Continue s' => loop fuel' (S i) (now' + interval) s'
        | Break r s' => Some (Broke r s' now')
        | Raise e s' => Some (Raised e s' now')
        end
    end
  else Some (Expired s now).

(** Iterations that fit in the budget when every one sleeps
    [interval]. *)
Definition fuelFor : nat := S (Z.to_nat (timeoutMs / interval)).

Definition run (now : Z) (s : St) : option (exit St R) :=
  loop fuelFor O now s.

End Loop.

End Poll.

(** ** Pool client (object-pool-sdk) *)

Record SandboxItem : Type := mkItem {
  execUrl : string;
  id : string
}.

Record SandboxBorrowOutput : Type := mkBorrowOutput {
  bo_item : SandboxItem;
  borrow_token : string
}.

Record BorrowedSandbox : Type := mkBorrowed {
  bs_item : SandboxItem;
  bs_borrowToken : string;
  bs_sessionId : string
}.

Record OperationRef : Type := mkOperationRef {
  operation_id : string
}.

Record OperationStatusOutput : Type := mkOperationStatus {
  os_status : string
}.

Module ObjectPoolSdk.

Record t : Type := mkSdk {
  baseUrl : string;
  defaultWaitSeconds : Z;
  pollIntervalMs : Z;
  maxPollAttempts : Z
}.

(** [borrow]: [fetched] is what [fetch(`${baseUrl}/borrow...`)] settles to. *)
Definition borrow (fetched : result (Http.response SandboxBorrowOutput))
  : result SandboxBorrowOutput :=
  bind fetched (fun response =>
    if negb (Http.ok response) then
      if Http.status response =? 503 then
        Throw (Error "No sandboxes available in the pool")
      else
        Throw (Error ("Failed to borrow sandbox: " ++ Http.describe response))
    else Http.json response).

(** [return]: the POST to [`${baseUrl}/return`]. *)
Definition return_ (fetched : result (Http.response OperationRef))
  : result OperationRef :=
  bind fetched (fun response =>
    if negb (Http.ok response) then
      if Http.status response =? 403 then
        Throw (Error "Invalid borrow token - cannot return sandbox")
      else
        Throw (Error ("Failed to return sandbox: " ++ Http.describe response))
    else Http.json response).

Definition getOperationStatus
  (fetched : result (Http.response OperationStatusOutput))
  : result OperationStatusOutput :=
  bind fetched (fun response =>
    if negb (Http.ok response) then
      Throw (Error ("Failed to get operation status: " ++ Http.describe response))
    else Http.json response).

(** [String.prototype.toLowerCase] on the ASCII letters. *)
Definition lowerAscii (c : ascii) : ascii :=
  let n := nat_of_ascii c in
  if (Nat.leb 65 n && Nat.leb n 90)%bool then ascii_of_nat (n + 32) else c.

Fixpoint toLowerCase (s : string) : string :=
  match s with
  | EmptyString => EmptyString
  | String c s' => String (lowerAscii c) (toLowerCase s')
  end.

(** The server's answers to [GET /operations/{id}]: for the i-th poll,
    the time the request takes and what it settles to. *)
Definition operations : Type :=
  nat -> N * result (Http.response OperationStatusOutput).

Definition waitBody (ops : operations) (i : nat) (now : Z) (s : unit)
  : N * Poll.step unit OperationStatusOutput :=
  let '(took, fetched) := ops i in
  match getOperationStatus fetched with
  | Throw e => (took, Poll.Raise e s)
  | Ok status =>
      let statusLower := toLowerCase (os_status status) in
      if (String.eqb statusLower "succeeded" || String.eqb statusLower "failed")%bool
      then (took, Poll.Break status s)
      else (took, Poll.Continue s)
  end.

(** [sleep(ms)] *)
Definition sleep (ms : Z) : Z := timerDelay ms.

(** [waitForOperation].  Every turn that goes on sleeps at least 1 ms,
    so the loop ends within its budget whatever the poll interval is
    ([None] is never the answer). *)
Definition waitForOperation (sdk : t) (operationId : string)
  (timeoutOpt : option Z) (ops : operations) (now : Z)
  : option (result OperationStatusOutput) :=
  let startTime := now in
  let timeoutMs :=
    match timeoutOpt with
    | Some ms => ms
    | None => pollIntervalMs sdk * maxPollAttempts sdk
    end in
  match Poll.run (waitBody ops) startTime timeoutMs (sleep (pollIntervalMs sdk)) now tt with
  | None => None
  | Some (Poll.Broke status _ _) => Some (Ok status)
  | Some (Poll.Raised e _ _) => Some (Throw e)
  | Some (Poll.Expired _ _) =>
      Some (Throw (Error ("Operation " ++ operationId ++ " timed out after "
                            ++ show timeoutMs ++ "ms")))
  end.

Definition returnAndWait (sdk : t)
  (fetched : result (Http.response OperationRef))
  (timeoutOpt : option Z) (ops : operations) (now : Z)
  : option (result OperationStatusOutput) :=
  match return_ fetched with
  | Throw e => Some (Throw e)
  | Ok operationRef =>
      waitForOperation sdk (operation_id operationRef) timeoutOpt ops now
  end.

(** [ObjectPoolSdkConfig] *)
Record ObjectPoolSdkConfig : Type := mkSdkConfig {
  c_baseUrl : string;
  c_defaultWaitSeconds : option Z;
  c_pollIntervalMs : option Z;
  c_maxPollAttempts : option Z
}.

(** [s.replace(/\/$/, '')]: one slash at the end of the input is removed. *)
Fixpoint stripTrailingSlash (s : string) : string :=
  match s with
  | EmptyString => EmptyString
  | String c EmptyString => if Ascii.eqb c "/" then EmptyString else s
  | String c s' => String c (stripTrailingSlash s')
  end.

Definition orDefault (o : option Z) (d : Z) : Z :=
  match o with
  | Some z => z
  | None => d
  end.

(** [constructor] *)
Definition new (config : ObjectPoolSdkConfig) : t :=
  mkSdk (stripTrailingSlash (c_baseUrl config))
        (orDefault (c_defaultWaitSeconds config) 30)
        (orDefault (c_pollIntervalMs config) 2000)
        (orDefault (c_maxPollAttempts config) 1800).

(** [getObjectPoolSdk]: [env] is [process.env.SANDBOX_POOL_URL],
    [instance] the module variable; the new value of the variable is
    returned with the result. *)
Definition getObjectPoolSdk (env : option string) (instance : option t)
  : result t * option t :=
  match instance with
  | Some sdk => (Ok sdk, instance)
  | None =>
      if negb (truthy env) then
        (Throw (Error "SANDBOX_POOL_URL environment variable is not set"), None)
      else
        match env with
        | Some baseUrl =>
            let sdk := new (mkSdkConfig baseUrl None None None) in
            (Ok sdk, Some sdk)
        | None =>
            (Throw (Error "SANDBOX_POOL_URL environment variable is not set"), None)
        end
  end.

(** Successive calls, each with the environment as it is then. *)
Fixpoint getObjectPoolSdkEach (envs : list (option string)) (instance : option t)
  : list (result t) * option t :=
  match envs with
  | [] => ([], instance)
  | env :: envs' =>
      let '(r, instance') := getObjectPoolSdk env instance in
      let '(rs, final) := getObjectPoolSdkEach envs' instance' in
      (r :: rs, final)
  end.

End ObjectPoolSdk.


(** ** Session manager (agent-session) *)

Record AgentSessionData : Type := mkData {
  sessionId : string;
  item : option SandboxItem;
  borrowToken : option string;
  borrowedAt : option Z
}.

Record ExecResponse : Type := mkExecResponse {
  commandId : string;
  er_status : string;
  er_exitCode : option Z;
  er_error : option string
}.

Record LogsResponse : Type := mkLogs {
  logs : string;
  offset : Z;
  done : bool;
  lr_exitCode : option Z
}.

Module AgentSession.

(** [AgentSessionConfig].  The pool client is a collaborator: what its
    methods settle to is an argument of the method that awaits them.
    [cfg_onSessionDataChange] says whether the callback was given. *)
Record config : Type := mkConfig {
  cfg_sessionId : string;
  cfg_onSessionDataChange : bool;
  cfg_initialData : option AgentSessionData
}.

(** The private fields of an instance. *)
Record t : Type := mk {
  this_sessionId : string;
  data : AgentSessionData;
  onSessionDataChange : bool
}.

(** Calls an instance makes on its collaborators, in order. *)
Inductive effect : Type :=
| Borrow (sessionId : string)
| ReturnAndWait (item : SandboxItem) (borrowToken : string) (sessionId : string)
| SessionDataChange (data : AgentSessionData)
| Fetch (url : string).

Definition emptyData (sid : string) : AgentSessionData :=
  mkData sid None None None.

(** [constructor], with a pool client at hand (given in the configuration
    or built from the environment). *)
Definition new (c : config) : t :=
  mk (cfg_sessionId c)
     (match cfg_initialData c with
      | Some d => d
      | None => emptyData (cfg_sessionId c)
      end)
     (cfg_onSessionDataChange c).

Definition getData (s : t) : AgentSessionData := data s.

Definition isNull {A : Type} (x : option A) : bool :=
  match x with
  | Some _ => false
  | None => true
  end.

(** [this.data.item !== null && this.data.borrowToken !== null] *)
Definition hasSandbox (s : t) : bool :=
  negb (isNull (item (data s))) && negb (isNull (borrowToken (data s))).

(** The callback, when registered, is awaited after the mutation. *)
Definition notify (s : t) (persisted : result unit)
  : result unit * list effect :=
  if onSessionDataChange s
  then (persisted, [SessionDataChange (data s)])
  else (Ok tt, []).

(** [ensureSandbox].  [borrowed] is what [objectPoolSdk.borrow] settles
    to, [persisted] what the callback settles to, [now] is [new Date()].
    The first branch is [if (this.hasSandbox())]: both fields non-null. *)
Definition ensureSandbox (borrowed : result SandboxBorrowOutput)
  (persisted : result unit) (now : Z) (s : t)
  : result BorrowedSandbox * t * list effect :=
  match item (data s), borrowToken (data s) with
  | Some it, Some tok =>
      (Ok (mkBorrowed it tok (this_sessionId s)), s, [])
  | _, _ =>
      match borrowed with
      | Throw e => (Throw e, s, [Borrow (this_sessionId s)])
      | Ok borrowResult =>
          let s' := mk (this_sessionId s)
                       (mkData (this_sessionId s)
                               (Some (bo_item borrowResult))
                               (Some (borrow_token borrowResult))
                               (Some now))
                       (onSessionDataChange s) in
          let '(r, notified) := notify s' persisted in
          (bind r (fun _ =>
             Ok (mkBorrowed (bo_item borrowResult) (borrow_token borrowResult)
                            (this_sessionId s))),
           s', Borrow (this_sessionId s) :: notified)
      end
  end.

(** [releaseSandbox].  [returned] is what [objectPoolSdk.returnAndWait]
    settles to.  The [await] is not guarded: a rejection leaves the
    method before the reset. *)
Definition releaseSandbox (returned : result OperationStatusOutput)
  (persisted : result unit) (s : t)
  : result unit * t * list effect :=
  match item (data s), borrowToken (data s) with
  | Some it, Some tok =>
      match returned with
      | Throw e => (Throw e, s, [ReturnAndWait it tok (this_sessionId s)])
      | Ok _ =>
          let s' := mk (this_sessionId s)
                       (emptyData (this_sessionId s))
                       (onSessionDataChange s) in
          let '(r, notified) := notify s' persisted in
          (r, s', ReturnAndWait it tok (this_sessionId s) :: notified)
      end
  | _, _ => (Ok tt, s, [])
  end.

(** [exec]: [fetched] is what the POST to [`${execUrl}/exec`] settles to. *)
Definition exec (borrowed : result SandboxBorrowOutput)
  (persisted : result unit) (now : Z)
  (fetched : result (Http.response ExecResponse)) (s : t)
  : result ExecResponse * t * list effect :=
  let '(sandbox, s', tr) := ensureSandbox borrowed persisted now s in
  match sandbox with
  | Throw e => (Throw e, s', tr)
  | Ok sb =>
      (bind fetched (fun response =>
         if negb (Http.ok response) then
           Throw (Error ("Failed to execute command: " ++ Http.describe response))
         else Http.json response),
       s', tr ++ [Fetch (execUrl (bs_item sb) ++ "/exec")])
  end.

(** The URL of [logs] with the default [search = '*'], which
    [URLSearchParams] leaves as it is. *)
Definition logsUrl (execUrl commandId : string) (offset : Z) : string :=
  execUrl ++ "/logs/" ++ commandId ++ "?offset=" ++ show offset ++ "&search=*".

(** [logs(commandId, offset)]: the GET to
    [`${execUrl}/logs/${commandId}?${params}`]. *)
Definition logs (borrowed : result SandboxBorrowOutput)
  (persisted : result unit) (now : Z) (commandId : string) (offset : Z)
  (fetched : result (Http.response LogsResponse)) (s : t)
  : result LogsResponse * t * list effect :=
  let '(sandbox, s', tr) := ensureSandbox borrowed persisted now s in
  match sandbox with
  | Throw e => (Throw e, s', tr)
  | Ok sb =>
      (bind fetched (fun response =>
         if negb (Http.ok response) then
           Throw (Error ("Failed to get logs: " ++ Http.describe response))
         else Http.json response),
       s', tr ++ [Fetch (logsUrl (execUrl (bs_item sb)) commandId offset)])
  end.

(** A history of lease calls on one instance. *)
Inductive call : Type :=
| EnsureSandbox (borrowed : result SandboxBorrowOutput)
    (persisted : result unit) (now : Z)
| ReleaseSandbox (returned : result OperationStatusOutput)
    (persisted : result unit).

Inductive outcome : Type :=
| Ensured (r : result BorrowedSandbox)
| Released (r : result unit).

Definition perform (c : call) (s : t) : outcome * t * list effect :=
  match c with
  | EnsureSandbox borrowed persisted now =>
      let '(r, s', tr) := ensureSandbox borrowed persisted now s in
      (Ensured r, s', tr)
  | ReleaseSandbox returned persisted =>
      let '(r, s', tr) := releaseSandbox returned persisted s in
      (Released r, s', tr)
  end.

Fixpoint run (cs : list call) (s : t) : list outcome * t * list effect :=
  match cs with
  | [] => ([], s, [])
  | c :: cs' =>
      let '(o, s1, tr1) := perform c s in
      let '(os, s2, tr2) := run cs' s1 in
      (o :: os, s2, tr1 ++ tr2)
  end.

Definition isBorrow (e : effect) : bool :=
  match e with
  | Borrow _ => true
  | _ => false
  end.

Definition borrowCount (tr : list effect) : nat :=
  List.length (List.filter isBorrow tr).

Definition isEnsure (c : call) : bool :=
  match c with
  | EnsureSandbox _ _ _ => true
  | ReleaseSandbox _ _ => false
  end.

(** Both lease fields null, or both non-null. *)
Definition paired (d : AgentSessionData) : bool :=
  Bool.eqb (isNull (item d)) (isNull (borrowToken d)).

Definition initialPaired (c : config) : bool :=
  match cfg_initialData c with
  | Some d => paired d
  | None => true
  end.

(** The [options] of [waitForCompletion]; [o_onProgress] says whether
    the callback was given (it is taken to return). *)
Record waitOptions : Type := mkWaitOptions {
  o_pollIntervalMs : option Z;
  o_timeoutMs : option Z;
  o_onProgress : bool
}.

(** What the collaborators answer to one [this.logs] call: the time it
    takes, the pool and the callback (should the call have to borrow) and
    the sandbox's response. *)
Record pollAnswer : Type := mkPollAnswer {
  a_took : N;
  a_borrowed : result SandboxBorrowOutput;
  a_persisted : result unit;
  a_fetched : result (Http.response LogsResponse)
}.

(** The variables of [waitForCompletion]'s loop, with the session, the
    calls made, the cursors passed to [this.logs] and the responses
    handed to [onProgress], in order. *)
Record waiting : Type := mkWaiting {
  wt_offset : Z;
  wt_session : t;
  wt_effects : list effect;
  wt_asked : list Z;
  wt_progress : list LogsResponse
}.

Definition waitBody (commandId : string) (onProgress : bool)
  (answers : nat -> Z -> pollAnswer) (i : nat) (now : Z) (st : waiting)
  : N * Poll.step waiting LogsResponse :=
  let a := answers i (wt_offset st) in
  let '(r, s', tr) :=
    logs (a_borrowed a) (a_persisted a) now commandId (wt_offset st) (a_fetched a)
         (wt_session st) in
  let st1 := mkWaiting (wt_offset st) s' (wt_effects st ++ tr)
                       (wt_asked st ++ [wt_offset st]) (wt_progress st) in
  match r with
  | Throw e => (a_took a, Poll.Raise e st1)
  | Ok logsResponse =>
      let reported :=
        if onProgress then wt_progress st1 ++ [logsResponse] else wt_progress st1 in
      if done logsResponse then
        (a_took a,
         Poll.Break logsResponse
           (mkWaiting (wt_offset st1) (wt_session st1) (wt_effects st1)
                      (wt_asked st1) reported))
      else
        (a_took a,
         Poll.Continue
           (mkWaiting (offset logsResponse) (wt_session st1) (wt_effects st1)
                      (wt_asked st1) reported))
  end.

(** [sleep(ms)] *)
Definition sleep (ms : Z) : Z := timerDelay ms.

(** [waitForCompletion].  Every turn that goes on sleeps at least 1 ms,
    so the loop ends within its budget whatever the poll interval is
    ([None] is never the answer). *)
Definition waitForCompletion (commandId : string) (options : option waitOptions)
  (answers : nat -> Z -> pollAnswer) (now : Z) (s : t)
  : option (result LogsResponse * waiting) :=
  let pollIntervalMs :=
    match options with
    | Some o => ObjectPoolSdk.orDefault (o_pollIntervalMs o) 500
    | None => 500
    end in
  let timeoutMs :=
    match options with
    | Some o => ObjectPoolSdk.orDefault (o_timeoutMs o) (5 * 60 * 1000)
    | None => 5 * 60 * 1000
    end in
  let onProgress :=
    match options with
    | Some o => o_onProgress o
    | None => false
    end in
  let startTime := now in
  match Poll.run (waitBody commandId onProgress answers) startTime timeoutMs
                 (sleep pollIntervalMs) now (mkWaiting (-1) s [] [] []) with
  | None => None
  | Some (Poll.Broke r st _) => Some (Ok r, st)
  | Some (Poll.Raised e st _) => Some (Throw e, st)
  | Some (Poll.Expired st _) =>
      Some (Throw (Error ("Command " ++ commandId ++ " timed out after "
                            ++ show timeoutMs ++ "ms")), st)
  end.

End AgentSession.

(** ** Execution records (the ShellStream table) *)

Module ShellStream.

(** A row, with the columns of the migration. *)
Record t : Type := mk {
  id : string;
  sessionId : string;
  chatId : string;
  command : string;
  stdout : string;
  stderr : string;
  exitCode : option Z;
  error : option string;
  done : bool;
  createdAt : Z;
  updatedAt : Z
}.

(** The argument of [updateShellStream] without its [id]: the content
    fields a call gives. *)
Record patch : Type := mkPatch {
  p_stdout : option string;
  p_stderr : option string;
  p_exitCode : option Z;
  p_error : option string;
  p_done : option bool
}.

Definition orElse {A : Type} (o : option A) (d : A) : A :=
  match o with
  | Some a => a
  | None => d
  end.

(** Modelled from the spec: [createShellStream] of lib/db/queries, which
    is not among the sources.  The row starts with the column defaults of
    the migration: empty output, no exit code, no error, not done. *)
Definition createShellStream (id sessionId chatId command : string) (now : Z) : t :=
  mk id sessionId chatId command "" "" None None false now now.

(** Modelled from the spec: [updateShellStream] of lib/db/queries, which
    is not among the sources.  Every field given overwrites the stored
    one (last write wins), the others keep their value; the timestamps
    are not tracked. *)
Definition updateShellStream (p : patch) (r : t) : t :=
  mk (id r) (sessionId r) (chatId r) (command r)
     (orElse (p_stdout p) (stdout r))
     (orElse (p_stderr p) (stderr r))
     (match p_exitCode p with Some c => Some c | None => exitCode r end)
     (match p_error p with Some e => Some e | None => error r end)
     (orElse (p_done p) (done r))
     (createdAt r) (updatedAt r).

(** The row after a sequence of writes. *)
Definition replay (r : t) (ws : list patch) : t :=
  List.fold_left (fun r p => updateShellStream p r) ws r.

(** [{ stdout }], [{ stderr }] *)
Definition writeStdout (s : string) : patch :=
  mkPatch (Some s) None None None None.

Definition writeStderr (s : string) : patch :=
  mkPatch None (Some s) None None None.

(** [{ error, done: true }] *)
Definition writeError (message : string) : patch :=
  mkPatch None None None (Some message) (Some true).

(** Does the write set [done: true]? *)
Definition isTerminal (p : patch) : bool :=
  match p_done p with
  | Some true => true
  | _ => false
  end.

Definition isTimeout (p : patch) : bool :=
  isTerminal p &&
  match p_error p with
  | Some m => String.eqb m "Command timed out"
  | None => false
  end.

(** One write leaves the output no shorter. *)
Definition keepsLength (r : t) (p : patch) : bool :=
  (String.length (stdout r) <=? String.length (stdout (updateShellStream p r)))%nat
  && (String.length (stderr r) <=? String.length (stderr (updateShellStream p r)))%nat.

(** Over a sequence of writes: while the row is not done no write
    shortens [stdout] or [stderr]. *)
Fixpoint growsUntilDone (r : t) (ws : list patch) : bool :=
  match ws with
  | [] => true
  | p :: ws' =>
      (done r || keepsLength r p) && growsUntilDone (updateShellStream p r) ws'
  end.

(** Over a sequence of writes: a done row is not written again. *)
Fixpoint sealedWhenDone (r : t) (ws : list patch) : bool :=
  match ws with
  | [] => true
  | p :: ws' => negb (done r) && sealedWhenDone (updateShellStream p r) ws'
  end.

End ShellStream.

(** ** Command runner on a pooled sandbox (sandbox-tools) *)

Module SandboxTools.

(** A row of the sandbox-session table as [getSandboxSessionByChatId]
    gives it. *)
Record SandboxSessionRow : Type := mkRow {
  row_sessionId : string;
  row_sandboxId : option string;
  row_execUrl : option string;
  row_borrowToken : option string;
  row_borrowedAt : option Z
}.

(** [getAgentSession]: [loaded] is what the lookup settles to. *)
Definition getAgentSession (chatId : string)
  (loaded : result (option SandboxSessionRow)) : result AgentSession.t :=
  bind loaded (fun existingSession =>
    let initialData :=
      match existingSession with
      | Some row =>
          match row_sandboxId row, row_execUrl row, row_borrowToken row with
          | Some sandboxId, Some url, Some token =>
              if truthy (Some sandboxId) && truthy (Some url) && truthy (Some token)
              then Some (mkData (row_sessionId row)
                                (Some (mkItem url sandboxId))
                                (Some token)
                                (row_borrowedAt row))
              else None
          | _, _, _ => None
          end
      | None => None
      end in
    let sessionId :=
      match existingSession with
      | Some row => row_sessionId row
      | None => chatId
      end in
    Ok (AgentSession.new (AgentSession.mkConfig sessionId true initialData))).

(** What the collaborators of one [execute] answer: whether the session
    loads, what [agentSession.exec] settles to, and for the i-th poll
    with a given cursor the time the iteration's awaits take and what
    [agentSession.logs] settles to.  Writes to the row are taken to
    succeed. *)
Record world : Type := mkWorld {
  w_session : result unit;
  w_exec : result ExecResponse;
  w_logs : nat -> Z -> N * result LogsResponse
}.

(** The variables of the polling loop and the writes made so far. *)
Record vars : Type := mkVars {
  v_offset : Z;
  lastStdout : string;
  written : list ShellStream.patch
}.

Definition write (p : ShellStream.patch) (v : vars) : vars :=
  mkVars (v_offset v) (lastStdout v) (written v ++ [p]).

(** One turn of [while (Date.now() - startTime < timeoutMs)]. *)
Definition pollBody (w : world) (i : nat) (now : Z) (v : vars)
  : N * Poll.step vars unit :=
  let '(took, r) := w_logs w i (v_offset v) in
  match r with
  | Throw e => (took, Poll.Raise e v)
  | Ok logsResult =>
      let v1 :=
        if negb (String.eqb (logs logsResult) (lastStdout v))
        then write (ShellStream.writeStdout (logs logsResult))
                   (mkVars (v_offset v) (logs logsResult) (written v))
        else v in
      if done logsResult then
        (took,
         Poll.Break tt
           (write (ShellStream.mkPatch (Some (logs logsResult)) None
                           (Some (ShellStream.orElse (lr_exitCode logsResult) 0))
                           None (Some true)) v1))
      else
        (took, Poll.Continue (mkVars (offset logsResult) (lastStdout v1) (written v1)))
  end.

(** How the asynchronous body of [execute] ended: the writes it made to
    its row, in order, and the error its [catch] received, if any. *)
Record ran : Type := mkRan {
  writes : list ShellStream.patch;
  caught : option thrown
}.

Definition catchBlock (ws : list ShellStream.patch) (e : thrown) : ran :=
  mkRan (ws ++ [ShellStream.writeError (messageOf "Unknown error" e)]) (Some e).

(** [// Check for timeout], with the clock as it is when the loop is left. *)
Definition checkTimeout (startTime timeoutMs now : Z) (ws : list ShellStream.patch) : ran :=
  if now - startTime >=? timeoutMs
  then mkRan (ws ++ [ShellStream.writeError "Command timed out"]) None
  else mkRan ws None.

(** The body started by [execute] after the row is created;
    [startTime] is the clock when the loop is entered. *)
Definition execute (w : world) (timeoutMs : Z) (startTime : Z) : option ran :=
  match w_session w with
  | Throw e => Some (catchBlock [] e)
  | Ok _ =>
      match w_exec w with
      | Throw e => Some (catchBlock [] e)
      | Ok execResult =>
          match Poll.run (pollBody w) startTime timeoutMs 500 startTime
                         (mkVars (-1) "" []) with
          | None => None
          | Some (Poll.Raised e v _) => Some (catchBlock (written v) e)
          | Some (Poll.Broke _ v now) =>
              Some (checkTimeout startTime timeoutMs now (written v))
          | Some (Poll.Expired v now) =>
              Some (checkTimeout startTime timeoutMs now (written v))
          end
      end
  end.

(** The result object of [getShellResult]. *)
Inductive shellResult : Type :=
| NotFound (streamId : string)
| Finished (success : bool) (streamId : string) (exitCode : option Z)
    (stdout : string) (stderr : option string) (error : option string)
| TimedOut (streamId : string) (stdout stderr : string).

Definition success (r : shellResult) : bool :=
  match r with
  | Finished s _ _ _ _ _ => s
  | _ => false
  end.

(** [stream.exitCode === 0] *)
Definition isZero (c : option Z) : bool :=
  match c with
  | Some n => n =? 0
  | None => false
  end.

(** The object returned under [if (stream.done)]. *)
Definition doneResult (streamId : string) (stream : ShellStream.t) : shellResult :=
  Finished (isZero (ShellStream.exitCode stream)) streamId (ShellStream.exitCode stream)
           (ShellStream.stdout stream)
           (orNull (Some (ShellStream.stderr stream)))
           (orNull (ShellStream.error stream)).

(** The row as the i-th [getShellStream] finds it, and the time the
    lookup takes.  Lookups are taken to succeed. *)
Definition reads : Type := nat -> N * option ShellStream.t.

Definition resultBody (streamId : string) (db : reads) (i : nat) (now : Z)
  (polls : nat) : N * Poll.step nat shellResult :=
  let '(took, stream) := db i in
  match stream with
  | None => (took, Poll.Break (NotFound streamId) (S polls))
  | Some stream =>
      if ShellStream.done stream
      then (took, Poll.Break (doneResult streamId stream) (S polls))
      else (took, Poll.Continue (S polls))
  end.

(** [getShellResult]'s [execute]. *)
Definition getShellResult (streamId : string) (timeoutMs : Z) (db : reads)
  (startTime : Z) : option (result shellResult) :=
  match Poll.run (resultBody streamId db) startTime timeoutMs 500 startTime O with
  | None => None
  | Some (Poll.Broke r _ _) => Some (Ok r)
  | Some (Poll.Raised e _ _) => Some (Throw e)
  | Some (Poll.Expired polls _) =>
      match snd (db polls) with
      | Some stream => Some (Ok (TimedOut streamId (ShellStream.stdout stream) (ShellStream.stderr stream)))
      | None => Some (Ok (TimedOut streamId "" ""))
      end
  end.

(** The object [clearSandboxState] resolves to. *)
Record cleared : Type := mkCleared {
  cl_success : bool;
  cl_message : option string;
  cl_error : option string
}.

(** [clearSandboxState]'s [execute]: every rejection inside is caught. *)
Definition clearSandboxState (chatId : string)
  (loaded : result (option SandboxSessionRow))
  (returned : result OperationStatusOutput) (persisted : result unit)
  : cleared * option AgentSession.t :=
  match getAgentSession chatId loaded with
  | Throw e =>
      (mkCleared false None (Some (messageOf "Unknown error releasing sandbox" e)), None)
  | Ok agentSession =>
      if negb (AgentSession.hasSandbox agentSession) then
        (mkCleared true (Some "No sandbox was active") None, Some agentSession)
      else
        let '(r, s', _) := AgentSession.releaseSandbox returned persisted agentSession in
        match r with
        | Ok _ => (mkCleared true (Some "Sandbox released back to pool") None, Some s')
        | Throw e =>
            (mkCleared false None
               (Some (messageOf "Unknown error releasing sandbox" e)), Some s')
        end
  end.

End SandboxTools.

(** ** Command runner on a managed container (exec-shell) *)

Module ExecShell.

Inductive streamKind : Type :=
| Stdout
| Stderr.

Definition writeBuffer (type : streamKind) (buffer : string) : ShellStream.patch :=
  match type with
  | Stdout => ShellStream.writeStdout buffer
  | Stderr => ShellStream.writeStderr buffer
  end.

(** The [while (true)] of [readStream] over the chunks [reader.read()]
    yields before the stream ends. *)
Fixpoint readLoop (type : streamKind) (buffer : string) (chunks : list string)
  : list ShellStream.patch * string :=
  match chunks with
  | [] => ([], buffer)
  | value :: rest =>
      let buffer' := (buffer ++ value)%string in
      let '(ws, final) := readLoop type buffer' rest in
      (writeBuffer type buffer' :: ws, final)
  end.

(** [readStream]: [failure] is the rejection of the read after the
    chunks, if the stream breaks instead of ending. *)
Definition readStream (type : streamKind) (chunks : list string)
  (failure : option thrown) : list ShellStream.patch * result string :=
  let '(ws, buffer) := readLoop type "" chunks in
  (ws, match failure with
       | Some e => Throw e
       | None => Ok buffer
       end).

(** The two readers under [Promise.all], with the chunks of both streams
    in the order their reads resolve.  Each reader's buffer is the
    [fullStdout] / [fullStderr] it last assigned. *)
Fixpoint readBoth (fullStdout fullStderr : string)
  (chunks : list (streamKind * string))
  : list ShellStream.patch * string * string :=
  match chunks with
  | [] => ([], fullStdout, fullStderr)
  | (Stdout, value) :: rest =>
      let buffer := (fullStdout ++ value)%string in
      let '(ws, out, err) := readBoth buffer fullStderr rest in
      (ShellStream.writeStdout buffer :: ws, out, err)
  | (Stderr, value) :: rest =>
      let buffer := (fullStderr ++ value)%string in
      let '(ws, out, err) := readBoth fullStdout buffer rest in
      (ShellStream.writeStderr buffer :: ws, out, err)
  end.

(** What the container service answers during one run: the calls before
    the [try] (app, volume, sandbox), the calls inside it before the
    output is read (secret, gh login, start of the command), the chunks
    read, a read that rejects after them, [shell.wait()] and
    [sb.terminate()].  Chunks a reader still delivers after the other
    one rejected are not part of the model. *)
Record world : Type := mkWorld {
  w_setup : result unit;
  w_prepare : result unit;
  w_chunks : list (streamKind * string);
  w_readFailure : option thrown;
  w_wait : result Z;
  w_terminate : result unit
}.

(** The [try] block: the writes made and how it is left. *)
Definition tryBlock (w : world) : list ShellStream.patch * result Z :=
  match w_prepare w with
  | Throw e => ([], Throw e)
  | Ok _ =>
      let '(ws, fullStdout, fullStderr) := readBoth "" "" (w_chunks w) in
      match w_readFailure w with
      | Some e => (ws, Throw e)
      | None =>
          match w_wait w with
          | Throw e => (ws, Throw e)
          | Ok exitCode =>
              (ws ++ [ShellStream.mkPatch (Some fullStdout) (Some fullStderr)
                                          (Some exitCode) None (Some true)],
               Ok exitCode)
          end
      end
  end.

(** [execShellInSandboxStreaming]: [try], [catch] (write, rethrow) and
    [finally] (terminate, whose rejection replaces the pending one). *)
Definition execShellInSandboxStreaming (w : world)
  : list ShellStream.patch * result Z :=
  match w_setup w with
  | Throw e => ([], Throw e)
  | Ok _ =>
      let '(ws, r) := tryBlock w in
      let ws' :=
        match r with
        | Throw e => ws ++ [ShellStream.writeError (messageOf "Unknown error" e)]
        | Ok _ => ws
        end in
      match w_terminate w with
      | Throw e => (ws', Throw e)
      | Ok _ => (ws', r)
      end
  end.

(** The call in [execute] with its [.catch]: the writes to the row and
    the error the handler received. *)
Definition execute (w : world) : SandboxTools.ran :=
  let '(ws, r) := execShellInSandboxStreaming w in
  match r with
  | Throw e =>
      SandboxTools.mkRan
        (ws ++ [ShellStream.writeError (messageOf "Unknown error" e)]) (Some e)
  | Ok _ => SandboxTools.mkRan ws None
  end.

(** Does the code unit belong to the class [[a-zA-Z0-9-]]? *)
Definition isVolumeChar (c : ascii) : bool :=
  let n := nat_of_ascii c in
  ((Nat.leb 97 n && Nat.leb n 122) || (Nat.leb 65 n && Nat.leb n 90)
   || (Nat.leb 48 n && Nat.leb n 57) || Nat.eqb n 45)%bool.

(** [name.replace(/[^a-zA-Z0-9-]/g, '-')] *)
Fixpoint replaceUnsafe (name : string) : string :=
  match name with
  | EmptyString => EmptyString
  | String c rest =>
      String (if isVolumeChar c then c else "-"%char) (replaceUnsafe rest)
  end.

(** [sanitizeVolumeName] *)
Definition sanitizeVolumeName (name : string) : string :=
  ObjectPoolSdk.toLowerCase (replaceUnsafe name).

(** The object the container [clearSandboxState] resolves to. *)
Record clearedVolumes : Type := mkClearedVolumes {
  cv_success : bool;
  cv_clearedVolume : option string;
  cv_message : option string;
  cv_error : option string
}.

(** [clearSandboxState]'s [execute]: [client] is what [getModalClient()]
    gives or throws, [deleted] what [modal.volumes.delete] settles to. *)
Definition clearSandboxState (sessionId : string) (client : result unit)
  (deleted : result unit) : clearedVolumes :=
  match client with
  | Throw e =>
      mkClearedVolumes false None None
        (Some (messageOf "Unknown error clearing sandbox state" e))
  | Ok _ =>
      let homeVolumeName := sanitizeVolumeName ("home-" ++ sessionId) in
      match deleted with
      | Ok _ =>
          mkClearedVolumes true (Some homeVolumeName)
            (Some ("Cleared volume: " ++ homeVolumeName)%string) None
      | Throw _ =>
          mkClearedVolumes true None (Some "No volume found to clear") None
      end
  end.

End ExecShell.

(** ** Streaming bridge (GET of the shell stream route) *)

Module StreamRoute.

(** The [data] of the [initial] event. *)
Record snapshot : Type := mkSnapshot {
  s_id : string;
  s_sessionId : string;
  s_command : string;
  s_stdout : string;
  s_stderr : string;
  s_exitCode : option Z;
  s_error : option string;
  s_done : bool
}.

Definition snapshotOf (r : ShellStream.t) : snapshot :=
  mkSnapshot (ShellStream.id r) (ShellStream.sessionId r) (ShellStream.command r)
             (ShellStream.stdout r) (ShellStream.stderr r)
             (ShellStream.exitCode r) (ShellStream.error r) (ShellStream.done r).

(** The events of the wire protocol, by their [type]. *)
Inductive event : Type :=
| Initial (data : snapshot)
| StdoutData (data : string)
| StderrData (data : string)
| Complete (exitCode : option Z) (error : option string)
| Failed (error : string)
| Done.

(** The subscriber's side of the stream: what was enqueued, the
    [isClientConnected] flag and whether the stream is closed. *)
Record channel : Type := mkChannel {
  sent : list event;
  isClientConnected : bool;
  closed : bool
}.

Definition fresh : channel := mkChannel [] true false.

(** [sendEvent]: [controller.enqueue] throws on a closed stream, which
    the [catch] turns into a disconnect. *)
Definition sendEvent (e : event) (ch : channel) : channel :=
  if negb (isClientConnected ch) then ch
  else if closed ch then mkChannel (sent ch) false (closed ch)
  else mkChannel (sent ch ++ [e]) (isClientConnected ch) (closed ch).

(** [controller.close()] *)
Definition close (ch : channel) : channel :=
  mkChannel (sent ch) (isClientConnected ch) true.

(** The subscriber cancels: [cancel()] runs and the stream is closed. *)
Definition cancel (ch : channel) : channel :=
  mkChannel (sent ch) false true.

(** What happens around one run of [poll]: whether the subscriber left
    while the timer was pending, what [getShellStream] settles to, and
    whether the subscriber left during that lookup. *)
Record tick : Type := mkTick {
  cancelledBefore : bool;
  fetched : result (option ShellStream.t);
  cancelledDuring : bool
}.

Record cursor : Type := mkCursor {
  lastStdoutLength : nat;
  lastStderrLength : nat
}.

(** [// Send stdout updates] and [// Send stderr updates] *)
Definition sendUpdates (currentStream : ShellStream.t) (c : cursor) (ch : channel)
  : cursor * channel :=
  let '(lastOut, ch1) :=
    if (lastStdoutLength c <? String.length (ShellStream.stdout currentStream))%nat
    then (String.length (ShellStream.stdout currentStream),
          sendEvent (StdoutData (Js.substring (lastStdoutLength c)
                                              (ShellStream.stdout currentStream))) ch)
    else (lastStdoutLength c, ch) in
  let '(lastErr, ch2) :=
    if (lastStderrLength c <? String.length (ShellStream.stderr currentStream))%nat
    then (String.length (ShellStream.stderr currentStream),
          sendEvent (StderrData (Js.substring (lastStderrLength c)
                                              (ShellStream.stderr currentStream))) ch1)
    else (lastStderrLength c, ch1) in
  (mkCursor lastOut lastErr, ch2).

(** The [try] of [poll]; the boolean says whether the next poll is
    scheduled. *)
Definition pollOnce (t : tick) (c : cursor) (ch : channel)
  : cursor * channel * bool :=
  let ch := if cancelledDuring t then cancel ch else ch in
  match fetched t with
  | Throw e => (c, close (sendEvent (Failed (messageOf "Unknown error" e)) ch), false)
  | Ok None => (c, close (sendEvent (Failed "Stream not found") ch), false)
  | Ok (Some currentStream) =>
      let '(c', ch') := sendUpdates currentStream c ch in
      if ShellStream.done currentStream then
        (c', close (sendEvent Done
                      (sendEvent (Complete (ShellStream.exitCode currentStream)
                                           (ShellStream.error currentStream)) ch')),
         false)
      else (c', ch', true)
  end.

Definition maxPolls : nat := 600.

(** [poll], rescheduled by [setTimeout]; [remaining] is
    [maxPolls - pollCount]. *)
Fixpoint poll (remaining : nat) (pollCount : nat) (ticks : nat -> tick)
  (c : cursor) (ch : channel) : channel :=
  let ch := if cancelledBefore (ticks pollCount) then cancel ch else ch in
  match remaining with
  | O => close ch
  | S remaining' =>
      if negb (isClientConnected ch) then close ch
      else
        let '(c', ch', again) := pollOnce (ticks pollCount) c ch in
        if again then poll remaining' (S pollCount) ticks c' ch' else ch'
  end.

(** [start(controller)] *)
Definition start (initialStream : ShellStream.t) (ticks : nat -> tick) : channel :=
  let ch := sendEvent (Initial (snapshotOf initialStream)) fresh in
  if ShellStream.done initialStream then close (sendEvent Done ch)
  else
    poll maxPolls O ticks
         (mkCursor (String.length (ShellStream.stdout initialStream))
                   (String.length (ShellStream.stderr initialStream)))
         ch.

Inductive response : Type :=
| BadRequest
| Unauthorized
| NotFound
| EventStream (ch : channel).

(** [GET]: [streamId] is the [id] query parameter, [user] whether the
    session has a user, [initialStream] the row found for the id. *)
Definition GET (streamId : option string) (user : bool)
  (initialStream : option ShellStream.t) (ticks : nat -> tick) : response :=
  if negb (truthy streamId) then BadRequest
  else if negb user then Unauthorized
  else
    match initialStream with
    | None => NotFound
    | Some initialStream => EventStream (start initialStream ticks)
    end.

End StreamRoute.

(** ** The subscriber (shell-terminal component) *)

Module ShellTerminal.

Record ShellStreamState : Type := mkState {
  stdout : string;
  stderr : string;
  exitCode : option Z;
  error : option string;
  done : bool
}.

Definition initialState : ShellStreamState := mkState "" "" None None false.

(** [eventSource.onmessage], by [message.type]. *)
Definition onmessage (st : ShellStreamState) (e : StreamRoute.event)
  : ShellStreamState :=
  match e with
  | StreamRoute.Initial d =>
      mkState (StreamRoute.s_stdout d) (StreamRoute.s_stderr d)
              (StreamRoute.s_exitCode d) (StreamRoute.s_error d)
              (StreamRoute.s_done d)
  | StreamRoute.StdoutData s =>
      mkState (stdout st ++ s) (stderr st) (exitCode st) (error st) (done st)
  | StreamRoute.StderrData s =>
      mkState (stdout st) (stderr st ++ s) (exitCode st) (error st) (done st)
  | StreamRoute.Complete c e =>
      mkState (stdout st) (stderr st) c e true
  | StreamRoute.Failed m =>
      mkState (stdout st) (stderr st) (exitCode st) (Some m) true
  | StreamRoute.Done => st
  end.

Definition receive (events : list StreamRoute.event) : ShellStreamState :=
  List.fold_left onmessage events initialState.

End ShellTerminal.


(** * Scenarios and derived notions *)

Definition stateAfter (cs : list AgentSession.call) (s : AgentSession.t)
  : AgentSession.t :=
  snd (fst (AgentSession.run cs s)).

Definition leasedSession : AgentSession.t :=
  AgentSession.mk "chat-1"
    (mkData "chat-1" (Some (mkItem "http://sb-1/" "sb-1")) (Some "tok-1") (Some 1000))
    true.

Definition defaultSdk : ObjectPoolSdk.t :=
  ObjectPoolSdk.mkSdk "http://localhost:8080" 30 2000 1800.

(** A configuration whose initial data has an item and no token. *)
Definition partialConfig : AgentSession.config :=
  AgentSession.mkConfig "chat-1" false
    (Some (mkData "chat-1" (Some (mkItem "http://sb-1/" "sb-1")) None None)).

Definition freshConfig : AgentSession.config :=
  AgentSession.mkConfig "chat-1" true None.

Definition borrowedOnce : list AgentSession.call :=
  [AgentSession.EnsureSandbox
     (Ok (mkBorrowOutput (mkItem "http://sb-1/" "sb-1") "tok-1")) (Ok tt) 1000].

(** The row a runner writes to, as [createShellStream] leaves it. *)
Definition freshRow : ShellStream.t :=
  ShellStream.createShellStream "stream-1" "chat-1" "chat-1" "echo hi" 1000.

(** The row after everything a run wrote. *)
Definition recordAfter (r0 : ShellStream.t) (ran : SandboxTools.ran) : ShellStream.t :=
  ShellStream.replay r0 (SandboxTools.writes ran).

Definition count (f : ShellStream.patch -> bool) (ws : list ShellStream.patch) : nat :=
  List.length (List.filter f ws).

(** A backend that never reports completion. *)
Definition neverDone : SandboxTools.world :=
  SandboxTools.mkWorld (Ok tt) (Ok (mkExecResponse "cmd-1" "started" None None))
    (fun _ _ => (0%N, Ok (mkLogs "hi" 2 false None))).

(** A row that is done with an error and exit code 0. *)
Definition doneWithErrorAndZero : ShellStream.t :=
  ShellStream.mk "stream-1" "chat-1" "chat-1" "echo hi" "hi" "" (Some 0)
                 (Some "Command timed out") true 1000 2000.

(** A row that timed out: error set, no exit code. *)
Definition doneTimedOut : ShellStream.t :=
  ShellStream.mk "stream-1" "chat-1" "chat-1" "sleep 999" "" "" None
                 (Some "Command timed out") true 1000 2000.

(** Only writes of the form [{ stdout }]. *)
Definition stdoutOnly (ws : list ShellStream.patch) : Prop :=
  Forall (fun p => exists s, p = ShellStream.writeStdout s) ws.

(** A backend whose second snapshot is shorter than its first. *)
Definition shrinkingBackend : SandboxTools.world :=
  SandboxTools.mkWorld (Ok tt) (Ok (mkExecResponse "cmd-1" "started" None None))
    (fun i _ =>
       match i with
       | O => (0%N, Ok (mkLogs "hello" 5 false None))
       | S _ => (0%N, Ok (mkLogs "ok" 7 false None))
       end).

(** A backend that reports completion, with exit code 0, in an answer
    that takes 1200 ms. *)
Definition lateCompletion : SandboxTools.world :=
  SandboxTools.mkWorld (Ok tt) (Ok (mkExecResponse "cmd-1" "started" None None))
    (fun _ _ => (1200%N, Ok (mkLogs "hi" 2 true (Some 0)))).

(** A backend that answers at once with the final snapshot. *)
Definition promptCompletion : SandboxTools.world :=
  SandboxTools.mkWorld (Ok tt) (Ok (mkExecResponse "cmd-1" "started" None None))
    (fun _ _ => (0%N, Ok (mkLogs "hi" 2 true (Some 0)))).

(** The snapshots a backend returns never get shorter from one poll to a
    later one. *)
Definition snapshotsGrow (w : SandboxTools.world) : Prop :=
  forall i j c1 c2 r1 r2,
    (i <= j)%nat ->
    snd (SandboxTools.w_logs w i c1) = Ok r1 ->
    snd (SandboxTools.w_logs w j c2) = Ok r2 ->
    (String.length (logs r1) <= String.length (logs r2))%nat.

(** What the polling loop keeps true of its variables before poll [i]:
    the writes so far never shortened the output, the row's [stdout] is
    [lastStdout], and [lastStdout] is empty or an earlier snapshot. *)
Definition tracked (w : SandboxTools.world) (r0 : ShellStream.t)
  (i : nat) (v : SandboxTools.vars) : Prop :=
  ShellStream.growsUntilDone r0 (SandboxTools.written v) = true /\
  ShellStream.stdout (ShellStream.replay r0 (SandboxTools.written v)) =
    SandboxTools.lastStdout v /\
  (SandboxTools.lastStdout v = "" \/
   exists j c r, (j < i)%nat /\ snd (SandboxTools.w_logs w j c) = Ok r /\
                 logs r = SandboxTools.lastStdout v).

(** A container run: two chunks of output, one of errors, exit code 0. *)
Definition containerRun : ExecShell.world :=
  ExecShell.mkWorld (Ok tt) (Ok tt)
    [(ExecShell.Stdout, "he"); (ExecShell.Stderr, "warn"); (ExecShell.Stdout, "llo")]
    None (Ok 0) (Ok tt).

(** A backend that answers each poll with the output after the cursor
    it was given. *)
Definition cursorBackend : SandboxTools.world :=
  SandboxTools.mkWorld (Ok tt) (Ok (mkExecResponse "cmd-1" "started" None None))
    (fun i _ =>
       match i with
       | O => (0%N, Ok (mkLogs "abc" 3 false None))
       | S _ => (0%N, Ok (mkLogs "xyzw" 7 false None))
       end).

(** The row after the first and after the second write of that run. *)
Definition rowAbc : ShellStream.t :=
  ShellStream.replay freshRow [ShellStream.writeStdout "abc"].

Definition rowXyzw : ShellStream.t :=
  ShellStream.replay freshRow [ShellStream.writeStdout "abc"; ShellStream.writeStdout "xyzw"].

Definition rowAbcdef : ShellStream.t :=
  ShellStream.replay freshRow [ShellStream.writeStdout "abc"; ShellStream.writeStdout "abcdef"].

(** The subscriber sees one poll and leaves. *)
Definition onePoll (row : ShellStream.t) : nat -> StreamRoute.tick :=
  fun i =>
    match i with
    | O => StreamRoute.mkTick false (Ok (Some row)) false
    | S _ => StreamRoute.mkTick true (Ok (Some row)) false
    end.

(** The later row extends the earlier one: both outputs only had text
    appended. *)
Definition extends (prev cur : ShellStream.t) : bool :=
  String.prefix (ShellStream.stdout prev) (ShellStream.stdout cur)
  && String.prefix (ShellStream.stderr prev) (ShellStream.stderr cur).

(** The bridge's cursor and the subscriber's copy both stand at [row]. *)
Definition synced (c : StreamRoute.cursor) (ch : StreamRoute.channel)
  (row : ShellStream.t) : Prop :=
  StreamRoute.lastStdoutLength c = String.length (ShellStream.stdout row) /\
  StreamRoute.lastStderrLength c = String.length (ShellStream.stderr row) /\
  ShellTerminal.stdout (ShellTerminal.receive (StreamRoute.sent ch)) = ShellStream.stdout row /\
  ShellTerminal.stderr (ShellTerminal.receive (StreamRoute.sent ch)) = ShellStream.stderr row.

(** A subscriber that has received the snapshot of [rowAbc]. *)
Definition afterInitial : StreamRoute.channel :=
  StreamRoute.sendEvent (StreamRoute.Initial (StreamRoute.snapshotOf rowAbc))
                        StreamRoute.fresh.

Definition cursorAbc : StreamRoute.cursor := StreamRoute.mkCursor 3 0.

(** The row the poll loop fetches last, when every poll finds the row:
    the first one that is done, or the one of the last poll. *)
Fixpoint lastFetched (remaining pollCount : nat) (ticks : nat -> StreamRoute.tick)
  (prev : ShellStream.t) : ShellStream.t :=
  match remaining with
  | O => prev
  | S remaining' =>
      match StreamRoute.fetched (ticks pollCount) with
      | Ok (Some row) =>
          if ShellStream.done row then row
          else lastFetched remaining' (S pollCount) ticks row
      | _ => prev
      end
  end.

(** Up to the end of the subscription the subscriber stays, every poll
    finds the row, and each row found extends the one found before. *)
Fixpoint appendOnly (remaining pollCount : nat) (ticks : nat -> StreamRoute.tick)
  (prev : ShellStream.t) : bool :=
  match remaining with
  | O => true
  | S remaining' =>
      negb (StreamRoute.cancelledBefore (ticks pollCount))
      && negb (StreamRoute.cancelledDuring (ticks pollCount))
      && match StreamRoute.fetched (ticks pollCount) with
         | Ok (Some row) =>
             extends prev row
             && (ShellStream.done row || appendOnly remaining' (S pollCount) ticks row)
         | _ => false
         end
  end.

(** The end-to-end run of the specification: the pool lends [sb-1],
    [echo hi] starts as [cmd-1], the first poll shows the output and the
    second reports completion with exit code 0. *)
Definition hiLine : string := "hi" ++ String (ascii_of_nat 10) "".

Definition echoHi : SandboxTools.world :=
  SandboxTools.mkWorld (Ok tt) (Ok (mkExecResponse "cmd-1" "started" None None))
    (fun i _ =>
       match i with
       | O => (0%N, Ok (mkLogs hiLine 3 false None))
       | S _ => (0%N, Ok (mkLogs hiLine 3 true (Some 0)))
       end).

(** The data last handed to [onSessionDataChange] in a trace of calls. *)
Fixpoint lastNotified (tr : list AgentSession.effect) : option AgentSessionData :=
  match tr with
  | [] => None
  | AgentSession.SessionDataChange d :: rest =>
      match lastNotified rest with
      | Some d' => Some d'
      | None => Some d
      end
  | _ :: rest => lastNotified rest
  end.

Definition isNotification (e : AgentSession.effect) : bool :=
  match e with
  | AgentSession.SessionDataChange _ => true
  | _ => false
  end.

Definition emptySession : AgentSession.t :=
  AgentSession.new freshConfig.

Definition lentSandbox : SandboxBorrowOutput :=
  mkBorrowOutput (mkItem "http://sb-1/" "sb-1") "tok-1".

Definition twoEnsures : list AgentSession.call :=
  [AgentSession.EnsureSandbox (Throw NonError) (Ok tt) 2000;
   AgentSession.EnsureSandbox (Throw NonError) (Ok tt) 3000].

(** A sandbox that shows output at the first two polls and completion at
    the third, asked without a pause between the polls. *)
Definition threePolls : nat -> Z -> AgentSession.pollAnswer :=
  fun i _ =>
    AgentSession.mkPollAnswer 0 (Throw NonError) (Ok tt)
      (Ok (Http.mkResponse 200 "OK"
             (Ok (match i with
                  | O => mkLogs "h" 1 false None
                  | S O => mkLogs "hi" 2 false None
                  | S (S _) => mkLogs "hi" 2 true (Some 0)
                  end)))).

Definition withoutPause : AgentSession.waitOptions :=
  AgentSession.mkWaitOptions (Some 0) (Some 5000) true.

(** A pool client that polls without a pause, and an operation that is
    pending at the first two polls and has succeeded at the third. *)
Definition eagerSdk : ObjectPoolSdk.t :=
  ObjectPoolSdk.mkSdk "http://localhost:8080" 30 0 1800.

Definition slowOperation : ObjectPoolSdk.operations :=
  fun i =>
    (0%N, Ok (Http.mkResponse 200 "OK"
                (Ok (mkOperationStatus
                       (match i with
                        | O => "pending"
                        | S O => "in_progress"
                        | S (S _) => "Succeeded"
                        end))))).

(** A sandbox that shows output at the first poll and completion at the
    second. *)
Definition twoPolls : nat -> Z -> AgentSession.pollAnswer :=
  fun i _ =>
    AgentSession.mkPollAnswer 10 (Throw NonError) (Ok tt)
      (Ok (Http.mkResponse 200 "OK"
             (Ok (match i with
                  | O => mkLogs "hi" 2 false None
                  | S _ => mkLogs "hi" 2 true (Some 0)
                  end)))).

Definition withProgress : AgentSession.waitOptions :=
  AgentSession.mkWaitOptions None (Some 5000) true.

(** The loop of [waitForCompletion] with a progress callback keeps the
    cursors asked in step with the responses reported: none of those is
    done, and the cursors so far, followed by the next one, are [-1] and
    the offsets of the responses. *)
Definition chained (st : AgentSession.waiting) : Prop :=
  Forall (fun p => done p = false) (AgentSession.wt_progress st) /\
  (AgentSession.wt_asked st ++ [AgentSession.wt_offset st])%list =
    (-1) :: List.map offset (AgentSession.wt_progress st).

(** On a session that holds [it], the loop leaves the session alone and
    only reads the logs of the command on that sandbox. *)
Definition onlyLogs (s : AgentSession.t) (it : SandboxItem) (commandId : string)
  (st : AgentSession.waiting) : Prop :=
  AgentSession.wt_session st = s /\
  AgentSession.wt_effects st =
    List.map (fun cursor =>
                AgentSession.Fetch (AgentSession.logsUrl (execUrl it) commandId cursor))
             (AgentSession.wt_asked st).

(** A pool whose return operation ends as failed. *)
Definition failedOperation : ObjectPoolSdk.operations :=
  fun _ => (100%N, Ok (Http.mkResponse 200 "OK" (Ok (mkOperationStatus "Failed")))).

Definition acceptedReturn : result (Http.response OperationRef) :=
  Ok (Http.mkResponse 200 "OK" (Ok (mkOperationRef "op-1"))).

Definition noBudgetSdk : ObjectPoolSdk.t :=
  ObjectPoolSdk.mkSdk "http://localhost:8080" 30 2000 0.

(** A stored session row whose token is the empty string. *)
Definition rowWithEmptyToken : SandboxTools.SandboxSessionRow :=
  SandboxTools.mkRow "chat-1" (Some "sb-1") (Some "http://sb-1/") (Some "") (Some 1000).

(** A row that never gets done. *)
Definition stillRunning : SandboxTools.reads :=
  fun _ => (0%N, Some rowAbc).

(** A backend that reports completion without an exit code. *)
Definition doneWithoutCode : SandboxTools.world :=
  SandboxTools.mkWorld (Ok tt) (Ok (mkExecResponse "cmd-1" "started" None None))
    (fun _ _ => (20%N, Ok (mkLogs "hi" 2 true None))).

(** No write so far touches [stderr]. *)
Definition stderrUntouched (ws : list ShellStream.patch) : Prop :=
  Forall (fun p => ShellStream.p_stderr p = None) ws.

(** The writes so far are at most one per poll, and the polls so far
    started 500 ms apart inside the budget. *)
Definition paced (startTime timeoutMs : Z) (i : nat) (now : Z)
  (v : SandboxTools.vars) : Prop :=
  (List.length (SandboxTools.written v) <= i)%nat /\
  500 * Z.of_nat i <= now - startTime /\
  (i = O \/ 500 * (Z.of_nat i - 1) < timeoutMs).

(** A code unit of [[a-z0-9-]]. *)
Definition isLowerVolumeChar (c : ascii) : bool :=
  let n := nat_of_ascii c in
  ((Nat.leb 97 n && Nat.leb n 122) || (Nat.leb 48 n && Nat.leb n 57) || Nat.eqb n 45)%bool.

Fixpoint allChars (f : ascii -> bool) (s : string) : bool :=
  match s with
  | EmptyString => true
  | String c rest => f c && allChars f rest
  end.

(** The chunks of one stream, in order, put together. *)
Fixpoint collect (type : ExecShell.streamKind) (chunks : list (ExecShell.streamKind * string))
  : string :=
  match chunks with
  | [] => EmptyString
  | (ExecShell.Stdout, value) :: rest =>
      match type with
      | ExecShell.Stdout => (value ++ collect type rest)%string
      | ExecShell.Stderr => collect type rest
      end
  | (ExecShell.Stderr, value) :: rest =>
      match type with
      | ExecShell.Stdout => collect type rest
      | ExecShell.Stderr => (value ++ collect type rest)%string
      end
  end.

(** The first [k] chunks put together. *)
Definition firstChunks (k : nat) (chunks : list string) : string :=
  String.concat "" (List.firstn k chunks).

(** A container whose sandbox fails to terminate after the command
    ended with exit code 0. *)
Definition terminateFails : ExecShell.world :=
  ExecShell.mkWorld (Ok tt) (Ok tt) [(ExecShell.Stdout, "ok")] None (Ok 0)
                    (Throw (Error "terminate failed")).

(** Events that end a subscription: [complete], [error] and [done]. *)
Definition isTerminalEvent (e : StreamRoute.event) : bool :=
  match e with
  | StreamRoute.Complete _ _ => true
  | StreamRoute.Failed _ => true
  | StreamRoute.Done => true
  | _ => false
  end.

Definition quiet (events : list StreamRoute.event) : bool :=
  forallb (fun e => negb (isTerminalEvent e)) events.

(** Every poll finds the row still running, the subscriber staying. *)
Definition neverEnding : nat -> StreamRoute.tick :=
  fun _ => StreamRoute.mkTick false (Ok (Some rowAbcdef)) false.

(** The subscriber leaves during the first lookup. *)
Definition leavesDuringLookup : nat -> StreamRoute.tick :=
  fun _ => StreamRoute.mkTick false (Ok (Some rowAbcdef)) true.

(** The row of the end-to-end run once the command is done. *)
Definition rowAbcdefDone : ShellStream.t :=
  ShellStream.replay rowAbcdef
    [ShellStream.mkPatch (Some "abcdef") None (Some 0) None (Some true)].

(** One poll finds more output, the next finds the command done. *)
Definition growsThenCompletes : nat -> StreamRoute.tick :=
  fun i =>
    match i with
    | O => StreamRoute.mkTick false (Ok (Some rowAbcdef)) false
    | S _ => StreamRoute.mkTick false (Ok (Some rowAbcdefDone)) false
    end.

(** The message a failure leaves on the row: the message of an [Error],
    ['Unknown error'] for any other value thrown. *)
Definition failureMessage (e : thrown) : string :=
  match e with
  | Error message => message
  | NonError => "Unknown error"
  end.

(** The cursor poll [n] of the pooled runner passes and the clock when
    it starts, when the polls before it resolved without [done]: the
    cursor is the offset of the answer before, and every turn takes what
    its poll took and the 500 ms of the sleep. *)
Fixpoint pollStart (w : SandboxTools.world) (startTime : Z) (n : nat) : Z * Z :=
  match n with
  | O => (-1, startTime)
  | S k =>
      let '(cursor, now) := pollStart w startTime k in
      let '(took, r) := SandboxTools.w_logs w k cursor in
      (match r with
       | Ok logsResult => offset logsResult
       | Throw _ => cursor
       end,
       now + Z.of_N took + 500)
  end.

Definition pollAnswer (w : SandboxTools.world) (startTime : Z) (n : nat)
  : N * result LogsResponse :=
  SandboxTools.w_logs w n (fst (pollStart w startTime n)).

(** Poll [n] is made: the polls before it resolved without [done] and
    the budget is not used up when its turn starts. *)
Definition pollIsMade (w : SandboxTools.world) (timeoutMs startTime : Z) (n : nat)
  : Prop :=
  (forall k, (k < n)%nat ->
     exists logsResult,
       snd (pollAnswer w startTime k) = Ok logsResult /\ done logsResult = false) /\
  snd (pollStart w startTime n) - startTime < timeoutMs.

(** An awaited call of the pooled runner rejects with [e]: the session
    does not load, the command does not start, or a poll that is made
    rejects. *)
Inductive pooledFailure (w : SandboxTools.world) (timeoutMs startTime : Z)
  (e : thrown) : Prop :=
| SessionRejects :
    SandboxTools.w_session w = Throw e ->
    pooledFailure w timeoutMs startTime e
| ExecRejects :
    (exists loaded, SandboxTools.w_session w = Ok loaded) ->
    SandboxTools.w_exec w = Throw e ->
    pooledFailure w timeoutMs startTime e
| PollRejects (n : nat) :
    (exists loaded, SandboxTools.w_session w = Ok loaded) ->
    (exists started, SandboxTools.w_exec w = Ok started) ->
    pollIsMade w timeoutMs startTime n ->
    snd (pollAnswer w startTime n) = Throw e ->
    pooledFailure w timeoutMs startTime e.

(** Before poll [i] the loop variables are those of [pollStart], no
    later than at poll [n]. *)
Definition onSchedule (w : SandboxTools.world) (startTime : Z) (n : nat)
  (i : nat) (now : Z) (v : SandboxTools.vars) : Prop :=
  (i <= n)%nat /\
  SandboxTools.v_offset v = fst (pollStart w startTime i) /\
  now = snd (pollStart w startTime i).

(** A backend whose third poll fails with a network error. *)
Definition thirdPollFails : SandboxTools.world :=
  SandboxTools.mkWorld (Ok tt) (Ok (mkExecResponse "cmd-1" "started" None None))
    (fun i _ =>
       match i with
       | O => (10%N, Ok (mkLogs "a" 1 false None))
       | S O => (10%N, Ok (mkLogs "ab" 2 false None))
       | S (S _) => (10%N, Throw (Error "socket hang up"))
       end).

(** The rejections of a container run, in the order they happen: at most
    one before or inside the [try], then that of [sb.terminate()] in the
    [finally], which is reached once the sandbox exists. *)
Definition containerFailures (w : ExecShell.world) : list thrown :=
  match ExecShell.w_setup w with
  | Throw e => [e]
  | Ok _ =>
      (match ExecShell.w_prepare w with
       | Throw e => [e]
       | Ok _ =>
           match ExecShell.w_readFailure w with
           | Some e => [e]
           | None =>
               match ExecShell.w_wait w with
               | Throw e => [e]
               | Ok _ => []
               end
           end
       end)
      ++ (match ExecShell.w_terminate w with
          | Throw e => [e]
          | Ok _ => []
          end)
  end.

Definition lastFailure (w : ExecShell.world) : option thrown :=
  List.last (List.map Some (containerFailures w)) None.

(** A container whose command fails to start and whose sandbox then
    fails to terminate. *)
Definition failsTwice : ExecShell.world :=
  ExecShell.mkWorld (Ok tt) (Throw (Error "exec failed")) [] None (Ok 0)
                    (Throw NonError).

(** A container whose command is still running when the budget handed to
    the service is used up: the service ends the sandbox, the output
    streams end and [shell.wait()] answers with the exit code of a killed
    process. *)
Definition killedAtBudget : ExecShell.world :=
  ExecShell.mkWorld (Ok tt) (Ok tt) [(ExecShell.Stdout, "working")] None (Ok 137)
                    (Ok tt).

(** The same, with a service that rejects the wait instead. *)
Definition rejectedAtBudget : ExecShell.world :=
  ExecShell.mkWorld (Ok tt) (Ok tt) [(ExecShell.Stdout, "working")] None
                    (Throw (Error "Sandbox timed out")) (Ok tt).

(** * Properties *)

(** ** Budgeted loops end *)

Section PollFacts.
Context {St R : Type}.
Variable body : nat -> Z -> St -> N * Poll.step St R.
Variables startTime timeoutMs interval : Z.

Lemma loop_total (fuel : nat) :
  forall i now s,
    0 < interval ->
    timeoutMs - (now - startTime) <= interval * Z.of_nat fuel ->
    exists e, Poll.loop body startTime timeoutMs interval fuel i now s = Some e.
Proof.
  induction fuel as [|fuel IH]; intros i now s Hpos Hfuel; cbn [Poll.loop].
  - destruct (Z.ltb_spec (now - startTime) timeoutMs) as [Hlt|Hge]; [lia|].
    eexists; reflexivity.
  - destruct (Z.ltb_spec (now - startTime) timeoutMs) as [Hlt|Hge].
    + destruct (body i now s) as [took [s'|r s'|e s']].
      * apply IH; [assumption|]. lia.
      * eexists; reflexivity.
      * eexists; reflexivity.
    + eexists; reflexivity.
Qed.

Lemma run_total (s : St) :
  0 < interval ->
  exists e, Poll.run body startTime timeoutMs interval startTime s = Some e.
Proof.
  intros Hpos. unfold Poll.run, Poll.fuelFor. apply loop_total; [assumption|].
  destruct (Z.le_gt_cases timeoutMs 0) as [Hle|Hgt].
  - assert (0 <= Z.of_nat (S (Z.to_nat (timeoutMs / interval)))) by lia. nia.
  - assert (Hq : 0 <= timeoutMs / interval) by (apply Z.div_pos; lia).
    pose proof (Z.mul_succ_div_gt timeoutMs interval Hpos) as Hdiv.
    rewrite Nat2Z.inj_succ, Z2Nat.id by assumption. lia.
Qed.

(** An invariant of the loop variables holds where the loop is left, and
    a [break] or a rejection comes from a turn that started inside the
    budget. *)
Lemma loop_invariant (I : nat -> Z -> St -> Prop) :
  (forall i now s took s',
      I i now s -> now - startTime < timeoutMs ->
      body i now s = (took, Poll.Continue s') ->
      I (S i) (now + Z.of_N took + interval) s') ->
  forall fuel i now s e,
    I i now s ->
    Poll.loop body startTime timeoutMs interval fuel i now s = Some e ->
    match e with
    | Poll.Expired s' now' =>
        exists i', I i' now' s' /\ timeoutMs <= now' - startTime
    | Poll.Broke r s' now' =>
        exists i' now0 s0 took,
          I i' now0 s0 /\ now0 - startTime < timeoutMs /\
          body i' now0 s0 = (took, Poll.Break r s') /\ now' = now0 + Z.of_N took
    | Poll.Raised x s' now' =>
        exists i' now0 s0 took,
          I i' now0 s0 /\ now0 - startTime < timeoutMs /\
          body i' now0 s0 = (took, Poll.Raise x s') /\ now' = now0 + Z.of_N took
    end.
Proof.
  intros Hstep fuel.
  induction fuel as [|fuel IH]; intros i now s e HI Hrun; cbn [Poll.loop] in Hrun.
  - destruct (Z.ltb_spec (now - startTime) timeoutMs) as [Hlt|Hge]; [discriminate|].
    injection Hrun as <-. exists i. split; [assumption|lia].
  - destruct (Z.ltb_spec (now - startTime) timeoutMs) as [Hlt|Hge].
    + destruct (body i now s) as [took o] eqn:Hbody.
      destruct o as [s'|r s'|x s'].
      * eapply IH; [|exact Hrun]. eapply Hstep; eassumption.
      * injection Hrun as <-. exists i, now, s, took. auto.
      * injection Hrun as <-. exists i, now, s, took. auto.
    + injection Hrun as <-. exists i. split; [assumption|lia].
Qed.

End PollFacts.

(** A timer never fires before 1 ms. *)
Lemma timerDelay_pos (ms : Z) : 0 < timerDelay ms.
Proof. unfold timerDelay. destruct (_ && _) eqn:H; lia. Qed.

(** The waits of the pool client, of the session manager and of the
    result poller end, whatever the poll interval. *)
Lemma waitForOperation_total (sdk : ObjectPoolSdk.t) operationId timeoutOpt ops now :
  exists r, ObjectPoolSdk.waitForOperation sdk operationId timeoutOpt ops now = Some r.
Proof.
  unfold ObjectPoolSdk.waitForOperation.
  match goal with
  | |- context [Poll.run ?b ?s ?t ?i ?n ?st] =>
      destruct (run_total b s t i st (timerDelay_pos _)) as [ex ->]
  end.
  destruct ex; eexists; reflexivity.
Qed.

Lemma waitForCompletion_total (commandId : string)
  (options : option AgentSession.waitOptions)
  (answers : nat -> Z -> AgentSession.pollAnswer) (now : Z) (s : AgentSession.t) :
  exists r st,
    AgentSession.waitForCompletion commandId options answers now s = Some (r, st).
Proof.
  unfold AgentSession.waitForCompletion.
  match goal with
  | |- context [Poll.run ?b ?s ?t ?i ?n ?st] =>
      destruct (run_total b s t i st (timerDelay_pos _)) as [ex ->]
  end.
  destruct ex; eexists; eexists; reflexivity.
Qed.

Lemma getShellResult_total (streamId : string) (timeoutMs startTime : Z)
  (db : SandboxTools.reads) :
  exists r, SandboxTools.getShellResult streamId timeoutMs db startTime = Some (Ok r).
Proof.
  unfold SandboxTools.getShellResult.
  destruct (run_total (SandboxTools.resultBody streamId db) startTime timeoutMs 500
                      O eq_refl) as [ex Hrun].
  pose proof (loop_invariant (SandboxTools.resultBody streamId db)
                startTime timeoutMs 500 (fun _ _ _ => True)
                (fun _ _ _ _ _ _ _ _ => I) _ _ _ _ _ I Hrun) as Hexit.
  rewrite Hrun. destruct ex as [polls now|r polls now|x polls now].
  - destruct (snd (db polls)); eexists; reflexivity.
  - eexists; reflexivity.
  - exfalso. destruct Hexit as (i & now0 & s0 & took & _ & _ & Hbody & _).
    unfold SandboxTools.resultBody in Hbody.
    destruct (db i) as [took' [stream|]]; [destruct (ShellStream.done stream)|];
      discriminate.
Qed.

(** ** Session manager *)

Lemma hasSandbox_fields (s : AgentSession.t) :
  AgentSession.hasSandbox s = true <->
  exists it tok,
    item (AgentSession.data s) = Some it /\
    borrowToken (AgentSession.data s) = Some tok.
Proof.
  unfold AgentSession.hasSandbox.
  destruct (item (AgentSession.data s)) as [it|],
           (borrowToken (AgentSession.data s)) as [tok|]; cbn; split;
    try discriminate; try (intros (? & ? & ? & ?); discriminate).
  - intros _. eauto.
  - reflexivity.
Qed.

Lemma ensureSandbox_leased (s : AgentSession.t) it tok borrowed persisted now :
  item (AgentSession.data s) = Some it ->
  borrowToken (AgentSession.data s) = Some tok ->
  AgentSession.ensureSandbox borrowed persisted now s =
  (Ok (mkBorrowed it tok (AgentSession.this_sessionId s)), s, []).
Proof.
  intros Hit Htok. unfold AgentSession.ensureSandbox. rewrite Hit, Htok. reflexivity.
Qed.

(** A resolved return resets the record; a rejected one leaves the
    method before the reset. *)
Lemma releaseSandbox_resolved (s : AgentSession.t) status persisted :
  AgentSession.hasSandbox s = true ->
  let '(_, s', _) := AgentSession.releaseSandbox (Ok status) persisted s in
  AgentSession.data s' = AgentSession.emptyData (AgentSession.this_sessionId s) /\
  AgentSession.hasSandbox s' = false.
Proof.
  intros Hhas. apply hasSandbox_fields in Hhas as (it & tok & Hit & Htok).
  unfold AgentSession.releaseSandbox. rewrite Hit, Htok.
  unfold AgentSession.notify; cbn.
  destruct (AgentSession.onSessionDataChange s); cbn; auto.
Qed.

Lemma releaseSandbox_rejected (s : AgentSession.t) e persisted :
  AgentSession.hasSandbox s = true ->
  let '(r, s', _) := AgentSession.releaseSandbox (Throw e) persisted s in
  r = Throw e /\ s' = s.
Proof.
  intros Hhas. apply hasSandbox_fields in Hhas as (it & tok & Hit & Htok).
  unfold AgentSession.releaseSandbox. rewrite Hit, Htok. auto.
Qed.

Lemma return_403 (statusText : string) (body : result OperationRef) :
  ObjectPoolSdk.return_ (Ok (Http.mkResponse 403 statusText body)) =
  Throw (Error "Invalid borrow token - cannot return sandbox").
Proof. reflexivity. Qed.

(** C1, on the code: the pool answers the return of a stale token with
    HTTP 403; [returnAndWait] rejects, [releaseSandbox] rejects with the
    same error, the callback is not invoked and the session keeps its
    lease, so [hasSandbox()] is still true afterwards. *)
Theorem releaseSandbox_403_keeps_lease :
  forall (ops : ObjectPoolSdk.operations) (persisted : result unit),
    ObjectPoolSdk.returnAndWait defaultSdk
      (Ok (Http.mkResponse 403 "Forbidden" (Throw NonError))) None ops 2000
    = Some (Throw (Error "Invalid borrow token - cannot return sandbox")) /\
    AgentSession.releaseSandbox
      (Throw (Error "Invalid borrow token - cannot return sandbox"))
      persisted leasedSession
    = (Throw (Error "Invalid borrow token - cannot return sandbox"),
       leasedSession,
       [AgentSession.ReturnAndWait (mkItem "http://sb-1/" "sb-1") "tok-1" "chat-1"]) /\
    AgentSession.hasSandbox leasedSession = true.
Proof. intros ops persisted. repeat split. Qed.

(** At the tool, the rejection is caught and reported, and the session
    that comes back still holds the lease. *)
Lemma clearSandboxState_reports_rejection (persisted : result unit) :
  SandboxTools.clearSandboxState "chat-1"
    (Ok (Some (SandboxTools.mkRow "chat-1" (Some "sb-1") (Some "http://sb-1/")
                                  (Some "tok-1") (Some 1000))))
    (Throw (Error "Invalid borrow token - cannot return sandbox")) persisted
  = (SandboxTools.mkCleared false None
       (Some "Invalid borrow token - cannot return sandbox"),
     Some leasedSession).
Proof. reflexivity. Qed.

(** After the rejected release the next [exec] reuses the stale lease:
    it goes straight to the old sandbox and makes no [borrow] call. *)
Lemma exec_after_rejected_release :
  forall (borrowed : result SandboxBorrowOutput) (persisted : result unit)
         (fetched : result (Http.response ExecResponse)),
    let '(_, s', _) :=
      AgentSession.releaseSandbox
        (Throw (Error "Invalid borrow token - cannot return sandbox"))
        persisted leasedSession in
    snd (AgentSession.exec borrowed persisted 3000 fetched s') =
    [AgentSession.Fetch "http://sb-1//exec"].
Proof. intros. reflexivity. Qed.

Lemma run_ensure_leased (cs : list AgentSession.call) :
  forall s it tok,
    item (AgentSession.data s) = Some it ->
    borrowToken (AgentSession.data s) = Some tok ->
    forallb AgentSession.isEnsure cs = true ->
    AgentSession.run cs s =
    (List.map (fun _ => AgentSession.Ensured
                          (Ok (mkBorrowed it tok (AgentSession.this_sessionId s)))) cs,
     s, []).
Proof.
  induction cs as [|c cs IH]; intros s it tok Hit Htok Hall; cbn [AgentSession.run].
  - reflexivity.
  - cbn in Hall. apply andb_prop in Hall as [Hc Hcs].
    destruct c as [borrowed persisted now|]; [|discriminate].
    cbn [AgentSession.perform].
    rewrite (ensureSandbox_leased s it tok) by assumption.
    rewrite (IH s it tok) by assumption. reflexivity.
Qed.

(** C4: while the session holds a lease, any number of [ensureSandbox]
    calls invokes the pool's [borrow] at most once (in fact never),
    leaves the record as it is, and each call resolves to the stored
    lease [{item, borrowToken, sessionId}]. *)
Theorem ensureSandbox_reuses_lease :
  forall (s : AgentSession.t) (cs : list AgentSession.call),
    AgentSession.hasSandbox s = true ->
    forallb AgentSession.isEnsure cs = true ->
    let '(os, s', tr) := AgentSession.run cs s in
    (AgentSession.borrowCount tr <= 1)%nat /\
    s' = s /\
    exists it tok,
      item (AgentSession.data s) = Some it /\
      borrowToken (AgentSession.data s) = Some tok /\
      forall o, In o os ->
        o = AgentSession.Ensured (Ok (mkBorrowed it tok (AgentSession.this_sessionId s))).
Proof.
  intros s cs Hhas Hall.
  apply hasSandbox_fields in Hhas as (it & tok & Hit & Htok).
  rewrite (run_ensure_leased cs s it tok) by assumption.
  split; [cbn; lia|]. split; [reflexivity|].
  exists it, tok. repeat split; try assumption.
  intros o Hin. apply in_map_iff in Hin as (c & <- & _). reflexivity.
Qed.

Lemma ensureSandbox_reuses_lease_witness :
  let '(os, s', tr) :=
    AgentSession.run
      [AgentSession.EnsureSandbox (Throw NonError) (Ok tt) 2000;
       AgentSession.EnsureSandbox (Throw NonError) (Ok tt) 3000] leasedSession in
  (AgentSession.borrowCount tr <= 1)%nat /\
  s' = leasedSession /\
  exists it tok,
    item (AgentSession.data leasedSession) = Some it /\
    borrowToken (AgentSession.data leasedSession) = Some tok /\
    forall o, In o os ->
      o = AgentSession.Ensured
            (Ok (mkBorrowed it tok (AgentSession.this_sessionId leasedSession))).
Proof.
  apply (ensureSandbox_reuses_lease leasedSession
           [AgentSession.EnsureSandbox (Throw NonError) (Ok tt) 2000;
            AgentSession.EnsureSandbox (Throw NonError) (Ok tt) 3000]);
    reflexivity.
Defined.

Lemma perform_paired (c : AgentSession.call) (s : AgentSession.t) :
  AgentSession.paired (AgentSession.data s) = true ->
  AgentSession.paired (AgentSession.data (snd (fst (AgentSession.perform c s)))) = true.
Proof.
  intros Hp. destruct c as [borrowed persisted now|returned persisted];
    cbn [AgentSession.perform].
  - unfold AgentSession.ensureSandbox.
    destruct (item (AgentSession.data s)) as [it|] eqn:Hit,
             (borrowToken (AgentSession.data s)) as [tok|] eqn:Htok;
      try (destruct borrowed as [b|e];
           [destruct (AgentSession.notify _ persisted)|]); cbn; auto.
  - unfold AgentSession.releaseSandbox.
    destruct (item (AgentSession.data s)) as [it|] eqn:Hit,
             (borrowToken (AgentSession.data s)) as [tok|] eqn:Htok;
      try (destruct returned as [b|e];
           [destruct (AgentSession.notify _ persisted)|]); cbn; auto.
Qed.

Lemma stateAfter_cons (c : AgentSession.call) (cs : list AgentSession.call)
  (s : AgentSession.t) :
  stateAfter (c :: cs) s = stateAfter cs (snd (fst (AgentSession.perform c s))).
Proof.
  unfold stateAfter. cbn [AgentSession.run].
  destruct (AgentSession.perform c s) as [[o s1] tr1]. cbn [fst snd].
  destruct (AgentSession.run cs s1) as [[os s2] tr2]. reflexivity.
Qed.

Lemma stateAfter_paired (cs : list AgentSession.call) :
  forall s,
    AgentSession.paired (AgentSession.data s) = true ->
    AgentSession.paired (AgentSession.data (stateAfter cs s)) = true.
Proof.
  induction cs as [|c cs IH]; intros s Hp.
  - exact Hp.
  - rewrite stateAfter_cons. apply IH, perform_paired, Hp.
Qed.

Lemma hasSandbox_iff_both (s : AgentSession.t) :
  AgentSession.hasSandbox s = true <->
  item (AgentSession.data s) <> None /\ borrowToken (AgentSession.data s) <> None.
Proof.
  unfold AgentSession.hasSandbox.
  destruct (item (AgentSession.data s)), (borrowToken (AgentSession.data s));
    cbn; split; try discriminate; try (intros [? ?]; congruence); auto.
  split; discriminate.
Qed.

(** C5, as stated, fails: the constructor stores whatever initial data it
    is given, and an instance built from data with an item and no token
    is partially populated. *)
Lemma partial_initialData_is_kept :
  AgentSession.paired (AgentSession.data (stateAfter [] (AgentSession.new partialConfig)))
  = false /\
  item (AgentSession.data (AgentSession.new partialConfig)) <> None /\
  borrowToken (AgentSession.data (AgentSession.new partialConfig)) = None.
Proof. repeat split. discriminate. Qed.

(** C5, amended: when the constructor is given no initial data, or
    initial data whose item and token are both null or both non-null,
    every state reached by [ensureSandbox] and [releaseSandbox] calls has
    both fields null or both non-null, and [hasSandbox()] is true exactly
    when both are non-null. *)
Theorem session_fields_paired :
  forall (c : AgentSession.config) (cs : list AgentSession.call),
    AgentSession.initialPaired c = true ->
    let s := stateAfter cs (AgentSession.new c) in
    AgentSession.paired (AgentSession.data s) = true /\
    (AgentSession.hasSandbox s = true <->
     item (AgentSession.data s) <> None /\ borrowToken (AgentSession.data s) <> None).
Proof.
  intros c cs Hinit s. split; [|apply hasSandbox_iff_both].
  apply stateAfter_paired. unfold AgentSession.new, AgentSession.initialPaired in *.
  cbn. destruct (AgentSession.cfg_initialData c); [assumption|reflexivity].
Qed.

Lemma session_fields_paired_witness :
  AgentSession.initialPaired freshConfig = true /\
  let s := stateAfter borrowedOnce (AgentSession.new freshConfig) in
  AgentSession.paired (AgentSession.data s) = true /\
  (AgentSession.hasSandbox s = true <->
   item (AgentSession.data s) <> None /\ borrowToken (AgentSession.data s) <> None).
Proof.
  split; [reflexivity|].
  apply (session_fields_paired freshConfig borrowedOnce). reflexivity.
Defined.

(** The sessions the tools build satisfy the precondition: the stored
    row is used as initial data only when id, URL and token are all set. *)
Lemma getAgentSession_paired (chatId : string)
  (loaded : result (option SandboxTools.SandboxSessionRow)) (s : AgentSession.t) :
  SandboxTools.getAgentSession chatId loaded = Ok s ->
  AgentSession.paired (AgentSession.data s) = true.
Proof.
  unfold SandboxTools.getAgentSession.
  destruct loaded as [[row|]|e]; cbn; [| |discriminate].
  - intros [= <-]. unfold AgentSession.new; cbn.
    destruct (SandboxTools.row_sandboxId row) as [sid|],
             (SandboxTools.row_execUrl row) as [url|],
             (SandboxTools.row_borrowToken row) as [tok|]; try reflexivity.
    destruct (_ && _);
      reflexivity.
  - intros [= <-]. reflexivity.
Qed.

Lemma ensureSandbox_borrow_rejected (s : AgentSession.t) e persisted now :
  AgentSession.hasSandbox s = false ->
  AgentSession.ensureSandbox (Throw e) persisted now s =
  (Throw e, s, [AgentSession.Borrow (AgentSession.this_sessionId s)]).
Proof.
  unfold AgentSession.hasSandbox, AgentSession.ensureSandbox.
  destruct (item (AgentSession.data s)), (borrowToken (AgentSession.data s));
    cbn; try discriminate; reflexivity.
Qed.

(** A resolved [ensureSandbox] leaves the session leased and called
    [borrow] at most once. *)
Lemma ensureSandbox_ok_leases (s s' : AgentSession.t) borrowed persisted now b tr :
  AgentSession.ensureSandbox borrowed persisted now s = (Ok b, s', tr) ->
  AgentSession.hasSandbox s' = true /\ (AgentSession.borrowCount tr <= 1)%nat.
Proof.
  assert (Hnew : forall out,
    let s1 := AgentSession.mk (AgentSession.this_sessionId s)
                (mkData (AgentSession.this_sessionId s) (Some (bo_item out))
                        (Some (borrow_token out)) (Some now))
                (AgentSession.onSessionDataChange s) in
    (let '(r, notified) := AgentSession.notify s1 persisted in
     (bind r (fun _ => Ok (mkBorrowed (bo_item out) (borrow_token out)
                                      (AgentSession.this_sessionId s))),
      s1, AgentSession.Borrow (AgentSession.this_sessionId s) :: notified))
    = (Ok b, s', tr) ->
    AgentSession.hasSandbox s' = true /\ (AgentSession.borrowCount tr <= 1)%nat).
  { intros out s1. unfold AgentSession.notify. subst s1. cbn.
    destruct (AgentSession.onSessionDataChange s).
    - destruct persisted; cbn; [|discriminate].
      intros [= _ <- <-]. split; [reflexivity|cbn; lia].
    - cbn. intros [= _ <- <-]. split; [reflexivity|cbn; lia]. }
  unfold AgentSession.ensureSandbox.
  destruct (item (AgentSession.data s)) as [it|] eqn:Hit,
           (borrowToken (AgentSession.data s)) as [tok|] eqn:Htok;
    try (destruct borrowed as [out|e]; [apply Hnew|discriminate]).
  intros [= _ <- <-]. unfold AgentSession.hasSandbox. rewrite Hit, Htok.
  split; [reflexivity|cbn; lia].
Qed.

(** C6, as stated, fails: an [ensureSandbox] can fail and yet leave a
    lease on the record.  [this.data] is assigned as soon as [borrow]
    resolves, before the [onSessionDataChange] callback is awaited; when
    the callback rejects, [ensureSandbox] rejects with the lease recorded
    and [hasSandbox()] true. *)
Lemma failed_ensureSandbox_records_lease :
  AgentSession.hasSandbox emptySession = false /\
  AgentSession.ensureSandbox (Ok lentSandbox) (Throw (Error "database is down")) 2000
                             emptySession =
  (Throw (Error "database is down"),
   AgentSession.mk "chat-1"
     (mkData "chat-1" (Some (mkItem "http://sb-1/" "sb-1")) (Some "tok-1") (Some 2000))
     true,
   [AgentSession.Borrow "chat-1";
    AgentSession.SessionDataChange
      (mkData "chat-1" (Some (mkItem "http://sb-1/" "sb-1")) (Some "tok-1") (Some 2000))]) /\
  AgentSession.hasSandbox
    (snd (fst (AgentSession.ensureSandbox (Ok lentSandbox)
                 (Throw (Error "database is down")) 2000 emptySession))) = true.
Proof. repeat split. Qed.

(** C6 (amended): on a session without a lease, when the pool answers
    [borrow] with HTTP 503, [ensureSandbox] rejects with the
    pool-exhausted error, the session is what it was (nothing of the
    attempt is recorded, the callback is not invoked) and [hasSandbox()]
    is still false.  More generally an [ensureSandbox] that fails leaves
    the session as it was whenever it is [borrow] that failed; the only
    other failure is a rejection of the registered callback after a
    resolved [borrow], and then the lease is recorded. *)
Theorem ensureSandbox_failed_borrow_keeps_record :
  forall (s : AgentSession.t) (persisted : result unit) (now : Z),
    AgentSession.hasSandbox s = false ->
    (forall (statusText : string) (body : result SandboxBorrowOutput),
        ObjectPoolSdk.borrow (Ok (Http.mkResponse 503 statusText body)) =
          Throw (Error "No sandboxes available in the pool") /\
        AgentSession.ensureSandbox
          (ObjectPoolSdk.borrow (Ok (Http.mkResponse 503 statusText body)))
          persisted now s =
          (Throw (Error "No sandboxes available in the pool"), s,
           [AgentSession.Borrow (AgentSession.this_sessionId s)])) /\
    (forall (borrowed : result SandboxBorrowOutput) (e : thrown)
            (s' : AgentSession.t) (tr : list AgentSession.effect),
        AgentSession.ensureSandbox borrowed persisted now s = (Throw e, s', tr) ->
        (borrowed = Throw e /\ s' = s /\
         AgentSession.hasSandbox s' = false /\
         tr = [AgentSession.Borrow (AgentSession.this_sessionId s)]) \/
        (exists out,
            borrowed = Ok out /\
            AgentSession.onSessionDataChange s = true /\
            persisted = Throw e /\
            AgentSession.data s' =
              mkData (AgentSession.this_sessionId s) (Some (bo_item out))
                     (Some (borrow_token out)) (Some now) /\
            AgentSession.hasSandbox s' = true)).
Proof.
  intros s persisted now Hempty. split.
  - intros statusText body. split; [reflexivity|].
    change (ObjectPoolSdk.borrow (Ok (Http.mkResponse 503 statusText body)))
      with (@Throw SandboxBorrowOutput (Error "No sandboxes available in the pool")).
    apply ensureSandbox_borrow_rejected, Hempty.
  - intros borrowed e s' tr. destruct borrowed as [out|e0].
    + unfold AgentSession.hasSandbox in Hempty.
      unfold AgentSession.ensureSandbox, AgentSession.notify.
      destruct (item (AgentSession.data s)) as [it|],
               (borrowToken (AgentSession.data s)) as [tok|];
        try discriminate Hempty;
        cbn [AgentSession.onSessionDataChange];
        (destruct (AgentSession.onSessionDataChange s) eqn:Hcallback;
         [destruct persisted as [u|e1]|]); cbn; intros H; try discriminate H;
        injection H as <- <- <-; right; exists out; repeat split.
    + rewrite ensureSandbox_borrow_rejected by assumption.
      intros [= <- <- <-]. left. repeat split. assumption.
Qed.

Lemma ensureSandbox_failed_borrow_keeps_record_witness :
  AgentSession.hasSandbox emptySession = false /\
  AgentSession.ensureSandbox
    (ObjectPoolSdk.borrow (Ok (Http.mkResponse 503 "Service Unavailable" (Throw NonError))))
    (Ok tt) 2000 emptySession =
  (Throw (Error "No sandboxes available in the pool"), emptySession,
   [AgentSession.Borrow "chat-1"]).
Proof.
  split; [reflexivity|].
  apply (ensureSandbox_failed_borrow_keeps_record emptySession (Ok tt) 2000 eq_refl).
Defined.

(** ** Execution records *)

Lemma replay_snoc (r : ShellStream.t) (ws : list ShellStream.patch)
  (p : ShellStream.patch) :
  ShellStream.replay r (ws ++ [p]) =
  ShellStream.updateShellStream p (ShellStream.replay r ws).
Proof. unfold ShellStream.replay. rewrite fold_left_app. reflexivity. Qed.

Lemma growsUntilDone_snoc (ws : list ShellStream.patch) :
  forall r p,
    ShellStream.growsUntilDone r (ws ++ [p]) =
    ShellStream.growsUntilDone r ws &&
    (ShellStream.done (ShellStream.replay r ws)
     || ShellStream.keepsLength (ShellStream.replay r ws) p).
Proof.
  induction ws as [|q ws IH]; intros r p; cbn.
  - rewrite andb_true_r. reflexivity.
  - rewrite IH, andb_assoc. reflexivity.
Qed.

Lemma keepsLength_writeError (r : ShellStream.t) (m : string) :
  ShellStream.keepsLength r (ShellStream.writeError m) = true.
Proof.
  unfold ShellStream.keepsLength; cbn. rewrite !Nat.leb_refl. reflexivity.
Qed.

Lemma count_snoc (f : ShellStream.patch -> bool) (ws : list ShellStream.patch)
  (p : ShellStream.patch) :
  count f (ws ++ [p]) = (count f ws + (if f p then 1 else 0))%nat.
Proof.
  unfold count. rewrite filter_app, length_app. cbn. destruct (f p); reflexivity.
Qed.

(** ** Result polling *)

(** Whatever poll finds the row done, the result is built from that row
    and its [success] is [exitCode === 0]. *)
Lemma getShellResult_finished streamId timeoutMs db startTime s sid c out err e :
  SandboxTools.getShellResult streamId timeoutMs db startTime =
    Some (Ok (SandboxTools.Finished s sid c out err e)) ->
  s = SandboxTools.isZero c /\
  exists i stream,
    snd (db i) = Some stream /\ ShellStream.done stream = true /\
    c = ShellStream.exitCode stream /\ e = orNull (ShellStream.error stream).
Proof.
  unfold SandboxTools.getShellResult, Poll.run.
  destruct (Poll.loop _ _ _ _ _ _ _ _) as [ex|] eqn:Hloop; [|discriminate].
  pose proof (loop_invariant (SandboxTools.resultBody streamId db)
                startTime timeoutMs 500 (fun _ _ _ => True)
                (fun _ _ _ _ _ _ _ _ => I) _ _ _ _ _ I Hloop) as Hexit.
  destruct ex as [polls now|r polls now|x polls now].
  - destruct (snd (db polls)); discriminate.
  - intros [= ->]. destruct Hexit as (i & now0 & s0 & took & _ & _ & Hbody & _).
    unfold SandboxTools.resultBody in Hbody.
    destruct (db i) as [took' [stream|]] eqn:Hdb; [|discriminate].
    destruct (ShellStream.done stream) eqn:Hdone; [|discriminate].
    unfold SandboxTools.doneResult in Hbody. inversion Hbody; subst.
    split; [reflexivity|]. exists i, stream. rewrite Hdb. auto.
  - discriminate.
Qed.

(** C10: for a row that is done when polled, [getShellResult] resolves
    to the done-branch object, whose [success] is true exactly when
    [exitCode] is 0; the [error] field plays no part. *)
Theorem getShellResult_success_is_exit_zero :
  forall (streamId : string) (timeoutMs startTime : Z) (db : SandboxTools.reads)
         (took : N) (stream : ShellStream.t),
    0 < timeoutMs ->
    db O = (took, Some stream) ->
    ShellStream.done stream = true ->
    SandboxTools.getShellResult streamId timeoutMs db startTime =
      Some (Ok (SandboxTools.doneResult streamId stream)) /\
    (SandboxTools.success (SandboxTools.doneResult streamId stream) = true <->
     ShellStream.exitCode stream = Some 0).
Proof.
  intros streamId timeoutMs startTime db took stream Hpos Hdb Hdone. split.
  - unfold SandboxTools.getShellResult, Poll.run, Poll.fuelFor.
    cbn [Poll.loop]. rewrite Z.sub_diag.
    destruct (Z.ltb_spec 0 timeoutMs) as [_|Hle]; [|lia].
    unfold SandboxTools.resultBody. rewrite Hdb, Hdone. reflexivity.
  - unfold SandboxTools.doneResult, SandboxTools.success, SandboxTools.isZero.
    destruct (ShellStream.exitCode stream) as [c|].
    + rewrite Z.eqb_eq. split; [intros ->; reflexivity|intros [= ->]; reflexivity].
    + split; discriminate.
Qed.

Lemma getShellResult_success_is_exit_zero_witness :
  SandboxTools.getShellResult "stream-1" 1000 (fun _ => (0%N, Some doneWithErrorAndZero)) 0 =
    Some (Ok (SandboxTools.doneResult "stream-1" doneWithErrorAndZero)) /\
  (SandboxTools.success (SandboxTools.doneResult "stream-1" doneWithErrorAndZero) = true <->
   ShellStream.exitCode doneWithErrorAndZero = Some 0).
Proof.
  apply (getShellResult_success_is_exit_zero "stream-1" 1000 0
           (fun _ => (0%N, Some doneWithErrorAndZero)) 0%N doneWithErrorAndZero);
    [lia | reflexivity | reflexivity].
Defined.

(** The two cases the claim singles out. *)
Lemma success_despite_error :
  SandboxTools.getShellResult "stream-1" 1000 (fun _ => (0%N, Some doneWithErrorAndZero)) 0 =
  Some (Ok (SandboxTools.Finished true "stream-1" (Some 0) "hi" None
                                  (Some "Command timed out"))).
Proof. reflexivity. Qed.

Lemma no_success_without_exit_code :
  SandboxTools.getShellResult "stream-1" 1000 (fun _ => (0%N, Some doneTimedOut)) 0 =
  Some (Ok (SandboxTools.Finished false "stream-1" None "" None
                                  (Some "Command timed out"))).
Proof. reflexivity. Qed.

(** ** Command runner on a pooled sandbox *)

Lemma stdoutOnly_count (f : ShellStream.patch -> bool) (ws : list ShellStream.patch) :
  (forall s, f (ShellStream.writeStdout s) = false) ->
  stdoutOnly ws -> count f ws = O.
Proof.
  intros Hf Hws. unfold count. induction Hws as [|p ws [s ->] _ IH]; cbn.
  - reflexivity.
  - rewrite Hf. exact IH.
Qed.

Lemma execute_total (w : SandboxTools.world) (timeoutMs startTime : Z) :
  exists ran, SandboxTools.execute w timeoutMs startTime = Some ran.
Proof.
  unfold SandboxTools.execute.
  destruct (SandboxTools.w_session w); [|eexists; reflexivity].
  destruct (SandboxTools.w_exec w); [|eexists; reflexivity].
  destruct (run_total (SandboxTools.pollBody w) startTime timeoutMs 500
                      (SandboxTools.mkVars (-1) "" []) eq_refl) as [ex ->].
  destruct ex; eexists; reflexivity.
Qed.

Lemma checkTimeout_expired (startTime timeoutMs now : Z) (ws : list ShellStream.patch) :
  timeoutMs <= now - startTime ->
  SandboxTools.checkTimeout startTime timeoutMs now ws =
  SandboxTools.mkRan (ws ++ [ShellStream.writeError "Command timed out"]) None.
Proof.
  intros Hle. unfold SandboxTools.checkTimeout.
  destruct (Z.geb_spec (now - startTime) timeoutMs); [reflexivity|lia].
Qed.

(** C7 (amended): on the pooled runner, when the session loads, the
    command starts and no poll ever reports [done], the runner ends (the
    budget runs out), its [catch] is not entered, the row ends with
    [done = true] and [error = "Command timed out"], and among all
    writes of the run exactly one sets [done], the timeout write. *)
Theorem timeout_is_written_once :
  forall (w : SandboxTools.world) (timeoutMs startTime : Z) (r0 : ShellStream.t),
    SandboxTools.w_session w = Ok tt ->
    (exists started, SandboxTools.w_exec w = Ok started) ->
    (forall i cursor, exists r,
        snd (SandboxTools.w_logs w i cursor) = Ok r /\ done r = false) ->
    exists ran,
      SandboxTools.execute w timeoutMs startTime = Some ran /\
      SandboxTools.caught ran = None /\
      ShellStream.done (recordAfter r0 ran) = true /\
      ShellStream.error (recordAfter r0 ran) = Some "Command timed out" /\
      count ShellStream.isTimeout (SandboxTools.writes ran) = 1%nat /\
      count ShellStream.isTerminal (SandboxTools.writes ran) = 1%nat.
Proof.
  intros w timeoutMs startTime r0 Hsession [started Hexec] Hrunning.
  unfold SandboxTools.execute. rewrite Hsession, Hexec.
  destruct (run_total (SandboxTools.pollBody w) startTime timeoutMs 500
                      (SandboxTools.mkVars (-1) "" []) eq_refl) as [ex Hrun].
  rewrite Hrun.
  assert (Hstep : forall i now v took v',
             stdoutOnly (SandboxTools.written v) ->
             now - startTime < timeoutMs ->
             SandboxTools.pollBody w i now v = (took, Poll.Continue v') ->
             stdoutOnly (SandboxTools.written v')).
  { intros i now v took v' Hv _ Hbody. unfold SandboxTools.pollBody in Hbody.
    destruct (Hrunning i (SandboxTools.v_offset v)) as (r & Hr & Hnot).
    destruct (SandboxTools.w_logs w i (SandboxTools.v_offset v)) as [took' x].
    cbn in Hr. subst x. rewrite Hnot in Hbody. injection Hbody as _ <-. cbn.
    destruct (negb _); cbn; [|exact Hv].
    apply Forall_app. split; [exact Hv|]. constructor; [eauto|constructor]. }
  assert (Hinit : stdoutOnly (SandboxTools.written (SandboxTools.mkVars (-1) "" [])))
    by constructor.
  pose proof (loop_invariant (SandboxTools.pollBody w) startTime timeoutMs 500
                (fun _ _ v => stdoutOnly (SandboxTools.written v)) Hstep
                _ _ _ _ _ Hinit Hrun) as Hexit.
  destruct ex as [v now|u v now|x v now].
  - destruct Hexit as (i & Hv & Hlate).
    rewrite checkTimeout_expired by assumption.
    eexists. split; [reflexivity|]. cbn [SandboxTools.caught SandboxTools.writes].
    unfold recordAfter. cbn [SandboxTools.writes]. rewrite replay_snoc, !count_snoc.
    rewrite (stdoutOnly_count ShellStream.isTimeout), (stdoutOnly_count ShellStream.isTerminal)
      by (assumption || reflexivity).
    repeat split.
  - exfalso. destruct Hexit as (i & now0 & v0 & took & _ & _ & Hbody & _).
    unfold SandboxTools.pollBody in Hbody.
    destruct (Hrunning i (SandboxTools.v_offset v0)) as (r & Hr & Hnot).
    destruct (SandboxTools.w_logs w i (SandboxTools.v_offset v0)) as [took' y].
    cbn in Hr. subst y. rewrite Hnot in Hbody. discriminate.
  - exfalso. destruct Hexit as (i & now0 & v0 & took & _ & _ & Hbody & _).
    unfold SandboxTools.pollBody in Hbody.
    destruct (Hrunning i (SandboxTools.v_offset v0)) as (r & Hr & Hnot).
    destruct (SandboxTools.w_logs w i (SandboxTools.v_offset v0)) as [took' y].
    cbn in Hr. subst y. rewrite Hnot in Hbody. discriminate.
Qed.

Lemma timeout_is_written_once_witness :
  exists ran,
    SandboxTools.execute neverDone 1000 0 = Some ran /\
    SandboxTools.caught ran = None /\
    ShellStream.done (recordAfter freshRow ran) = true /\
    ShellStream.error (recordAfter freshRow ran) = Some "Command timed out" /\
    count ShellStream.isTimeout (SandboxTools.writes ran) = 1%nat /\
    count ShellStream.isTerminal (SandboxTools.writes ran) = 1%nat.
Proof.
  apply (timeout_is_written_once neverDone 1000 0 freshRow).
  - reflexivity.
  - eexists; reflexivity.
  - intros i cursor. eexists. split; reflexivity.
Defined.

(** The run of that scenario, write by write. *)
Lemma neverDone_run :
  SandboxTools.execute neverDone 1000 0 =
  Some (SandboxTools.mkRan
          [ShellStream.writeStdout "hi"; ShellStream.writeError "Command timed out"]
          None).
Proof. reflexivity. Qed.

(** C7, as stated for every command runner, fails on the container
    runner: it hands [timeoutMs] to the container service and has no
    timeout write of its own.  When the command is still running as the
    budget is used up, the row ends with what the service answers: the
    exit code of the killed process and no error, or the message of the
    service's rejection; no write carries ["Command timed out"]. *)
Lemma container_timeout_is_not_written :
  ShellStream.done (recordAfter freshRow (ExecShell.execute killedAtBudget)) = true /\
  ShellStream.exitCode (recordAfter freshRow (ExecShell.execute killedAtBudget)) = Some 137 /\
  ShellStream.error (recordAfter freshRow (ExecShell.execute killedAtBudget)) = None /\
  count ShellStream.isTimeout (SandboxTools.writes (ExecShell.execute killedAtBudget)) = O /\
  ShellStream.done (recordAfter freshRow (ExecShell.execute rejectedAtBudget)) = true /\
  ShellStream.error (recordAfter freshRow (ExecShell.execute rejectedAtBudget))
  = Some "Sandbox timed out" /\
  count ShellStream.isTimeout (SandboxTools.writes (ExecShell.execute rejectedAtBudget)) = O.
Proof. repeat split. Qed.

Lemma readBoth_no_timeout (chunks : list (ExecShell.streamKind * string)) :
  forall out err,
    count ShellStream.isTimeout (fst (fst (ExecShell.readBoth out err chunks))) = O.
Proof.
  unfold count.
  induction chunks as [|[[|] value] rest IH]; intros out err; cbn [ExecShell.readBoth].
  - reflexivity.
  - specialize (IH (out ++ value)%string err).
    destruct (ExecShell.readBoth (out ++ value) err rest) as [[ws o] e]. exact IH.
  - specialize (IH out (err ++ value)%string).
    destruct (ExecShell.readBoth out (err ++ value) rest) as [[ws o] e]. exact IH.
Qed.

(** On the container runner that text can only be the service's own: a
    write with ["Command timed out"] is there only when an awaited call
    rejected with this very message. *)
Lemma container_timeout_comes_from_service (w : ExecShell.world) :
  count ShellStream.isTimeout (SandboxTools.writes (ExecShell.execute w)) <> O ->
  exists e, In e (containerFailures w) /\ failureMessage e = "Command timed out".
Proof.
  assert (Hmessage : forall e ws,
             count ShellStream.isTimeout ws = O ->
             count ShellStream.isTimeout
                   (ws ++ [ShellStream.writeError (messageOf "Unknown error" e)]) <> O ->
             failureMessage e = "Command timed out").
  { intros e ws Hws. rewrite count_snoc, Hws. unfold ShellStream.isTimeout. cbn.
    change (messageOf "Unknown error" e) with (failureMessage e).
    destruct (String.eqb_spec (failureMessage e) "Command timed out"); [auto|].
    intros H; contradiction H; reflexivity. }
  assert (Htwice : forall e ws,
             count ShellStream.isTimeout ws = O ->
             count ShellStream.isTimeout
                   ((ws ++ [ShellStream.writeError (messageOf "Unknown error" e)])
                      ++ [ShellStream.writeError (messageOf "Unknown error" e)]) <> O ->
             failureMessage e = "Command timed out").
  { intros e ws Hws. rewrite count_snoc.
    destruct (count ShellStream.isTimeout
                    (ws ++ [ShellStream.writeError (messageOf "Unknown error" e)])) eqn:Hone.
    - intros H. apply (Hmessage e []); [reflexivity|]. rewrite count_snoc. exact H.
    - intros _. apply (Hmessage e ws Hws). rewrite Hone. discriminate. }
  assert (Hboth : forall e1 e2 ws,
             count ShellStream.isTimeout ws = O ->
             count ShellStream.isTimeout
                   ((ws ++ [ShellStream.writeError (messageOf "Unknown error" e1)])
                      ++ [ShellStream.writeError (messageOf "Unknown error" e2)]) <> O ->
             failureMessage e1 = "Command timed out" \/
             failureMessage e2 = "Command timed out").
  { intros e1 e2 ws Hws. rewrite count_snoc.
    destruct (count ShellStream.isTimeout
                    (ws ++ [ShellStream.writeError (messageOf "Unknown error" e1)])) eqn:Hone.
    - intros H. right. apply (Hmessage e2 []); [reflexivity|]. rewrite count_snoc. exact H.
    - intros _. left. apply (Hmessage e1 ws Hws). rewrite Hone. discriminate. }
  unfold containerFailures, ExecShell.execute, ExecShell.execShellInSandboxStreaming,
    ExecShell.tryBlock.
  destruct (ExecShell.w_setup w) as [u|e0]; cbn [SandboxTools.writes].
  2:{ intros H. exists e0. split; [left; reflexivity|]. apply (Hmessage e0 []); auto. }
  pose proof (readBoth_no_timeout (ExecShell.w_chunks w) "" "") as Hread.
  destruct (ExecShell.w_prepare w) as [u'|e0].
  - destruct (ExecShell.readBoth "" "" (ExecShell.w_chunks w)) as [[ws out] err].
    cbn [fst] in Hread.
    destruct (ExecShell.w_readFailure w) as [e0|];
      [|destruct (ExecShell.w_wait w) as [code|e0]];
      destruct (ExecShell.w_terminate w) as [u''|e1]; cbn [SandboxTools.writes app];
      intros H.
    + exists e0. split; [left; reflexivity|]. apply (Htwice e0 ws Hread H).
    + destruct (Hboth e0 e1 ws Hread H) as [Hm|Hm];
        [exists e0|exists e1]; (split; [cbn; tauto|exact Hm]).
    + exfalso. apply H. rewrite count_snoc, Hread. reflexivity.
    + exists e1. split; [left; reflexivity|].
      apply (Hmessage e1 (ws ++ [ShellStream.mkPatch (Some out) (Some err) (Some code)
                                                     None (Some true)])); [|exact H].
      rewrite count_snoc, Hread. reflexivity.
    + exists e0. split; [left; reflexivity|]. apply (Htwice e0 ws Hread H).
    + destruct (Hboth e0 e1 ws Hread H) as [Hm|Hm];
        [exists e0|exists e1]; (split; [cbn; tauto|exact Hm]).
  - destruct (ExecShell.w_terminate w) as [u''|e1]; cbn [SandboxTools.writes app];
      intros H.
    + exists e0. split; [left; reflexivity|]. apply (Htwice e0 [] eq_refl H).
    + destruct (Hboth e0 e1 [] eq_refl H) as [Hm|Hm];
        [exists e0|exists e1]; (split; [cbn; tauto|exact Hm]).
Qed.

Lemma replay_writeError (r : ShellStream.t) (ws : list ShellStream.patch) (m : string) :
  ShellStream.done (ShellStream.replay r (ws ++ [ShellStream.writeError m])) = true /\
  ShellStream.error (ShellStream.replay r (ws ++ [ShellStream.writeError m])) = Some m.
Proof. rewrite replay_snoc. split; reflexivity. Qed.

(** Every run of the pooled runner ends with the row done; when its
    [catch] was entered the row carries the message of what was caught. *)
Lemma pooled_run_terminal (w : SandboxTools.world) (timeoutMs startTime : Z)
  (r0 : ShellStream.t) :
  exists ran,
    SandboxTools.execute w timeoutMs startTime = Some ran /\
    ShellStream.done (recordAfter r0 ran) = true /\
    forall e, SandboxTools.caught ran = Some e ->
      ShellStream.error (recordAfter r0 ran) = Some (messageOf "Unknown error" e).
Proof.
  unfold SandboxTools.execute, recordAfter.
  destruct (SandboxTools.w_session w) as [u|e0].
  2:{ eexists. split; [reflexivity|]. cbn.
      split; [reflexivity|]. intros e [= <-]. reflexivity. }
  destruct (SandboxTools.w_exec w) as [started|e0].
  2:{ eexists. split; [reflexivity|]. cbn.
      split; [reflexivity|]. intros e [= <-]. reflexivity. }
  destruct (run_total (SandboxTools.pollBody w) startTime timeoutMs 500
                      (SandboxTools.mkVars (-1) "" []) eq_refl) as [ex Hrun].
  rewrite Hrun.
  pose proof (loop_invariant (SandboxTools.pollBody w) startTime timeoutMs 500
                (fun _ _ _ => True) (fun _ _ _ _ _ _ _ _ => I)
                _ _ _ _ _ I Hrun) as Hexit.
  destruct ex as [v now|u' v now|x v now].
  - destruct Hexit as (_ & _ & Hlate). rewrite checkTimeout_expired by assumption.
    eexists. split; [reflexivity|]. cbn [SandboxTools.writes SandboxTools.caught].
    split; [apply replay_writeError|]. discriminate.
  - destruct Hexit as (i & now0 & v0 & took & _ & _ & Hbody & _).
    unfold SandboxTools.pollBody in Hbody.
    destruct (SandboxTools.w_logs w i (SandboxTools.v_offset v0)) as [took' [r|e0]];
      [|discriminate].
    destruct (done r); [|discriminate]. inversion Hbody; subst.
    unfold SandboxTools.checkTimeout, SandboxTools.write.
    cbn [SandboxTools.written].
    destruct (now - startTime >=? timeoutMs); eexists; (split; [reflexivity|]);
      cbn [SandboxTools.writes SandboxTools.caught];
      rewrite ?replay_snoc; (split; [reflexivity|discriminate]).
  - eexists. split; [reflexivity|]. unfold SandboxTools.catchBlock.
    cbn [SandboxTools.writes SandboxTools.caught].
    split; [apply replay_writeError|]. intros e [= <-]. apply replay_writeError.
Qed.

(** The same for the container runner. *)
Lemma container_run_terminal (w : ExecShell.world) (r0 : ShellStream.t) :
  ShellStream.done (recordAfter r0 (ExecShell.execute w)) = true /\
  forall e, SandboxTools.caught (ExecShell.execute w) = Some e ->
    ShellStream.error (recordAfter r0 (ExecShell.execute w)) =
    Some (messageOf "Unknown error" e).
Proof.
  unfold ExecShell.execute, ExecShell.execShellInSandboxStreaming, ExecShell.tryBlock,
    recordAfter.
  destruct (ExecShell.w_setup w) as [u|e0]; cbn.
  2:{ split; [reflexivity|]. intros e [= <-]. reflexivity. }
  destruct (ExecShell.w_prepare w) as [u'|e0].
  - destruct (ExecShell.readBoth "" "" (ExecShell.w_chunks w)) as [[ws out] err].
    destruct (ExecShell.w_readFailure w) as [e0|];
      [|destruct (ExecShell.w_wait w) as [code|e0]];
      destruct (ExecShell.w_terminate w) as [u''|e1]; cbn;
      rewrite ?fold_left_app; cbn; (split; [reflexivity|]);
      try discriminate; intros e [= <-]; reflexivity.
  - destruct (ExecShell.w_terminate w) as [u''|e1]; cbn;
      (split; [reflexivity|]); intros e [= <-]; reflexivity.
Qed.

(** The clock of the polls never goes back. *)
Lemma pollStart_clock_mono (w : SandboxTools.world) (startTime : Z) (i j : nat) :
  (i <= j)%nat ->
  snd (pollStart w startTime i) <= snd (pollStart w startTime j).
Proof.
  induction 1 as [|j _ IH]; [lia|].
  cbn [pollStart]. destruct (pollStart w startTime j) as [cursor now].
  destruct (SandboxTools.w_logs w j cursor) as [took r]. cbn in *. lia.
Qed.

(** One turn of the polling loop in a run whose poll [n] rejects and
    whose earlier polls resolve without [done]: before poll [n] the loop
    goes on, on schedule; at poll [n] it is left by the rejection. *)
Lemma pollBody_on_schedule (w : SandboxTools.world) (startTime : Z) (n : nat)
  (e : thrown) (i : nat) (now : Z) (v : SandboxTools.vars) :
  (forall k, (k < n)%nat ->
     exists logsResult,
       snd (pollAnswer w startTime k) = Ok logsResult /\ done logsResult = false) ->
  snd (pollAnswer w startTime n) = Throw e ->
  onSchedule w startTime n i now v ->
  match SandboxTools.pollBody w i now v with
  | (took, Poll.Continue v') =>
      onSchedule w startTime n (S i) (now + Z.of_N took + 500) v'
  | (_, Poll.Break _ _) => False
  | (_, Poll.Raise x _) => x = e
  end.
Proof.
  intros Hbefore Hfail (Hle & Hoff & Hnow). unfold SandboxTools.pollBody.
  rewrite Hoff. unfold pollAnswer in Hbefore, Hfail.
  destruct (Nat.eq_dec i n) as [->|Hne].
  - destruct (SandboxTools.w_logs w n (fst (pollStart w startTime n))) as [took r].
    cbn in Hfail. subst r. reflexivity.
  - destruct (Hbefore i ltac:(lia)) as (logsResult & Hanswer & Hrunning).
    unfold onSchedule. cbn [pollStart].
    destruct (pollStart w startTime i) as [cursor t]. cbn [fst snd] in *.
    destruct (SandboxTools.w_logs w i cursor) as [took r]. cbn in Hanswer. subst r.
    rewrite Hrunning. cbn [SandboxTools.v_offset fst snd].
    repeat split; [lia|congruence].
Qed.

(** A failure of the pooled runner ends in its [catch]. *)
Lemma pooled_failure_is_caught (w : SandboxTools.world) (timeoutMs startTime : Z)
  (e : thrown) :
  pooledFailure w timeoutMs startTime e ->
  exists ws, SandboxTools.execute w timeoutMs startTime = Some (SandboxTools.catchBlock ws e).
Proof.
  intros [Hsession|[loaded Hsession] Hexec|n [loaded Hsession] [started Hexec]
                   [Hbefore Hbudget] Hfail];
    unfold SandboxTools.execute; rewrite Hsession; [eexists; reflexivity|..];
    rewrite Hexec; [eexists; reflexivity|].
  destruct (run_total (SandboxTools.pollBody w) startTime timeoutMs 500
                      (SandboxTools.mkVars (-1) "" []) eq_refl) as [ex Hrun].
  rewrite Hrun.
  assert (Hinit : onSchedule w startTime n O startTime (SandboxTools.mkVars (-1) "" [])).
  { repeat split. lia. }
  assert (Hstep : forall i now v took v',
             onSchedule w startTime n i now v ->
             now - startTime < timeoutMs ->
             SandboxTools.pollBody w i now v = (took, Poll.Continue v') ->
             onSchedule w startTime n (S i) (now + Z.of_N took + 500) v').
  { intros i now v took v' Hon _ Hbody.
    pose proof (pollBody_on_schedule w startTime n e i now v Hbefore Hfail Hon) as Hone.
    rewrite Hbody in Hone. exact Hone. }
  pose proof (loop_invariant (SandboxTools.pollBody w) startTime timeoutMs 500
                (onSchedule w startTime n) Hstep _ _ _ _ _ Hinit Hrun) as Hexit.
  destruct ex as [v now|u v now|x v now].
  - exfalso. destruct Hexit as (i & (Hle & _ & ->) & Hlate).
    pose proof (pollStart_clock_mono w startTime i n Hle). lia.
  - exfalso. destruct Hexit as (i & now0 & v0 & took & Hon & _ & Hbody & _).
    pose proof (pollBody_on_schedule w startTime n e i now0 v0 Hbefore Hfail Hon) as Hone.
    rewrite Hbody in Hone. exact Hone.
  - destruct Hexit as (i & now0 & v0 & took & Hon & _ & Hbody & _).
    pose proof (pollBody_on_schedule w startTime n e i now0 v0 Hbefore Hfail Hon) as Hone.
    rewrite Hbody in Hone. subst x. eexists; reflexivity.
Qed.

(** Every rejection of a container run is written to the row, and the
    last one is the one the row keeps. *)
Lemma container_failures_are_written (w : ExecShell.world) (r0 : ShellStream.t) :
  (forall e, In e (containerFailures w) ->
     In (ShellStream.writeError (failureMessage e))
        (SandboxTools.writes (ExecShell.execute w))) /\
  (forall e, lastFailure w = Some e ->
     ShellStream.error (recordAfter r0 (ExecShell.execute w)) = Some (failureMessage e)).
Proof.
  unfold lastFailure, containerFailures, ExecShell.execute,
    ExecShell.execShellInSandboxStreaming, ExecShell.tryBlock, recordAfter.
  destruct (ExecShell.w_setup w) as [u|e0]; cbn.
  2:{ split; [intros e [<-|[]]; left; reflexivity|intros e [= <-]; reflexivity]. }
  destruct (ExecShell.w_prepare w) as [u'|e0].
  - destruct (ExecShell.readBoth "" "" (ExecShell.w_chunks w)) as [[ws out] err].
    destruct (ExecShell.w_readFailure w) as [e0|];
      [|destruct (ExecShell.w_wait w) as [code|e0]];
      destruct (ExecShell.w_terminate w) as [u''|e1]; cbn;
      rewrite ?fold_left_app; cbn;
      (split; [intros e He; rewrite ?in_app_iff; cbn;
               repeat (destruct He as [<-|He]; [tauto|]); destruct He
              |intros e He; try discriminate; injection He as <-; reflexivity]).
  - destruct (ExecShell.w_terminate w) as [u''|e1]; cbn;
      (split; [intros e He; repeat (destruct He as [<-|He]; [tauto|]); destruct He
              |intros e [= <-]; reflexivity]).
Qed.

(** C3: every run of either command runner, whatever its collaborators
    answer, ends, with [done = true] on the row.  On the pooled runner,
    when the session does not load, the command does not start or a poll
    that is made rejects, the run's last write is
    [{ error: <message>, done: true }] and the row ends with that
    message as its [error] (['Unknown error'] for a thrown non-Error).
    On the container runner every rejection of an awaited call is
    written as [{ error: <message>, done: true }], and the row ends with
    the message of the last one. *)
Theorem failure_ends_in_terminal_record :
  forall (w : SandboxTools.world) (timeoutMs startTime : Z)
         (wc : ExecShell.world) (r0 : ShellStream.t),
    (exists ran,
        SandboxTools.execute w timeoutMs startTime = Some ran /\
        ShellStream.done (recordAfter r0 ran) = true /\
        forall e, pooledFailure w timeoutMs startTime e ->
          (exists ws,
              SandboxTools.writes ran =
              ws ++ [ShellStream.writeError (failureMessage e)]) /\
          ShellStream.error (recordAfter r0 ran) = Some (failureMessage e)) /\
    ShellStream.done (recordAfter r0 (ExecShell.execute wc)) = true /\
    (forall e, In e (containerFailures wc) ->
       In (ShellStream.writeError (failureMessage e))
          (SandboxTools.writes (ExecShell.execute wc))) /\
    (forall e, lastFailure wc = Some e ->
       ShellStream.error (recordAfter r0 (ExecShell.execute wc)) =
       Some (failureMessage e)).
Proof.
  intros w timeoutMs startTime wc r0. split.
  - destruct (pooled_run_terminal w timeoutMs startTime r0) as (ran & Hrun & Hdone & _).
    exists ran. split; [exact Hrun|]. split; [exact Hdone|].
    intros e Hfail.
    destruct (pooled_failure_is_caught w timeoutMs startTime e Hfail) as [ws Hcaught].
    rewrite Hrun in Hcaught. injection Hcaught as ->.
    split; [exists ws; reflexivity|].
    unfold recordAfter, SandboxTools.catchBlock. cbn [SandboxTools.writes].
    apply replay_writeError.
  - split; [apply container_run_terminal|].
    apply container_failures_are_written.
Qed.

(** A poll that rejects after two that resolved, and a container whose
    command and whose termination both fail. *)
Lemma failure_ends_in_terminal_record_witness :
  (exists ran,
      SandboxTools.execute thirdPollFails 5000 0 = Some ran /\
      ShellStream.done (recordAfter freshRow ran) = true /\
      ShellStream.error (recordAfter freshRow ran) = Some "socket hang up") /\
  ShellStream.done (recordAfter freshRow (ExecShell.execute failsTwice)) = true /\
  In (ShellStream.writeError "exec failed")
     (SandboxTools.writes (ExecShell.execute failsTwice)) /\
  ShellStream.error (recordAfter freshRow (ExecShell.execute failsTwice))
  = Some "Unknown error".
Proof.
  destruct (failure_ends_in_terminal_record thirdPollFails 5000 0 failsTwice freshRow)
    as [(ran & Hrun & Hdone & Hfail) (Hdone' & Hall & Hlast)].
  split.
  - exists ran. split; [exact Hrun|]. split; [exact Hdone|].
    apply (Hfail (Error "socket hang up")).
    apply (PollRejects thirdPollFails 5000 0 _ 2).
    + eexists; reflexivity.
    + eexists; reflexivity.
    + split.
      * intros [|[|k]] Hk; [eexists; split; reflexivity..|lia].
      * cbn. lia.
    + reflexivity.
  - split; [exact Hdone'|]. split.
    + apply (Hall (Error "exec failed")). left. reflexivity.
    + apply (Hlast NonError). reflexivity.
Defined.

(** That run, write by write. *)
Lemma thirdPollFails_run :
  SandboxTools.execute thirdPollFails 5000 0 =
  Some (SandboxTools.mkRan
          [ShellStream.writeStdout "a"; ShellStream.writeStdout "ab";
           ShellStream.writeError "socket hang up"]
          (Some (Error "socket hang up"))).
Proof. reflexivity. Qed.

(** Where the failures of the pooled runner come from: a session that
    does not load, a command that does not start, a poll that rejects. *)
Lemma session_failure_is_caught (w : SandboxTools.world) timeoutMs startTime e :
  SandboxTools.w_session w = Throw e ->
  SandboxTools.execute w timeoutMs startTime = Some (SandboxTools.catchBlock [] e).
Proof. intros H. unfold SandboxTools.execute. rewrite H. reflexivity. Qed.

Lemma exec_failure_is_caught (w : SandboxTools.world) timeoutMs startTime e :
  SandboxTools.w_session w = Ok tt ->
  SandboxTools.w_exec w = Throw e ->
  SandboxTools.execute w timeoutMs startTime = Some (SandboxTools.catchBlock [] e).
Proof. intros H1 H2. unfold SandboxTools.execute. rewrite H1, H2. reflexivity. Qed.

Lemma logs_failure_is_caught (w : SandboxTools.world) timeoutMs startTime e :
  SandboxTools.w_session w = Ok tt ->
  (exists started, SandboxTools.w_exec w = Ok started) ->
  (forall i cursor, snd (SandboxTools.w_logs w i cursor) = Throw e) ->
  0 < timeoutMs ->
  SandboxTools.execute w timeoutMs startTime = Some (SandboxTools.catchBlock [] e).
Proof.
  intros H1 [started H2] Hlogs Hpos. unfold SandboxTools.execute.
  rewrite H1, H2. unfold Poll.run, Poll.fuelFor. cbn [Poll.loop].
  rewrite Z.sub_diag. destruct (Z.ltb_spec 0 timeoutMs) as [_|Hle]; [|lia].
  unfold SandboxTools.pollBody. cbn [SandboxTools.v_offset].
  specialize (Hlogs O (-1)).
  destruct (SandboxTools.w_logs w 0 (-1)) as [took r]. cbn in Hlogs. subst r.
  reflexivity.
Qed.

(** X29: for the container runner the [catch] of [execute] is entered exactly
    when one of the awaited calls rejects. *)
Lemma container_caught_iff (w : ExecShell.world) :
  SandboxTools.caught (ExecShell.execute w) = None <->
  (exists a, ExecShell.w_setup w = Ok a) /\
  (exists b, ExecShell.w_prepare w = Ok b) /\
  ExecShell.w_readFailure w = None /\
  (exists c, ExecShell.w_wait w = Ok c) /\
  (exists d, ExecShell.w_terminate w = Ok d).
Proof.
  unfold ExecShell.execute, ExecShell.execShellInSandboxStreaming, ExecShell.tryBlock.
  destruct (ExecShell.w_setup w) as [a|e0]; cbn.
  2:{ split; [discriminate|]. intros ([? H] & _). discriminate. }
  destruct (ExecShell.w_prepare w) as [b|e0].
  - destruct (ExecShell.readBoth "" "" (ExecShell.w_chunks w)) as [[ws out] err].
    destruct (ExecShell.w_readFailure w) as [e0|];
      [|destruct (ExecShell.w_wait w) as [code|e0]];
      destruct (ExecShell.w_terminate w) as [d|e1]; cbn; split;
      try discriminate;
      try (intros (_ & _ & H3 & [? H4] & [? H5]); discriminate).
    + intros _. repeat split; eauto.
    + reflexivity.
  - destruct (ExecShell.w_terminate w) as [d|e1]; cbn; split; try discriminate;
      intros (_ & [? H] & _); discriminate.
Qed.

(** ** Output lengths *)

Lemma length_append (s1 s2 : string) :
  String.length (s1 ++ s2) = (String.length s1 + String.length s2)%nat.
Proof. induction s1 as [|c s1 IH]; cbn; [reflexivity|]. rewrite IH. reflexivity. Qed.

(** C2, as stated, fails on the pooled runner, in both halves.  The
    row's [stdout] is overwritten with whatever snapshot the backend
    returns, so a shorter snapshot shortens it while the row is not done.
    And a completion seen after the deadline is followed by the timeout
    write: the row is written again after [done = true]. *)
Lemma pooled_writes_shrink_and_follow_done :
  (SandboxTools.execute shrinkingBackend 1000 0 =
     Some (SandboxTools.mkRan
             [ShellStream.writeStdout "hello"; ShellStream.writeStdout "ok";
              ShellStream.writeError "Command timed out"] None) /\
   ShellStream.growsUntilDone freshRow
     [ShellStream.writeStdout "hello"; ShellStream.writeStdout "ok";
      ShellStream.writeError "Command timed out"] = false) /\
  (SandboxTools.execute lateCompletion 1000 0 =
     Some (SandboxTools.mkRan
             [ShellStream.writeStdout "hi";
              ShellStream.mkPatch (Some "hi") None (Some 0) None (Some true);
              ShellStream.writeError "Command timed out"] None) /\
   ShellStream.sealedWhenDone freshRow
     [ShellStream.writeStdout "hi";
      ShellStream.mkPatch (Some "hi") None (Some 0) None (Some true);
      ShellStream.writeError "Command timed out"] = false).
Proof. repeat split. Qed.

(** The row that late completion leaves: done, with the exit code of the
    command and the timeout error. *)
Lemma late_completion_record :
  forall ran,
    SandboxTools.execute lateCompletion 1000 0 = Some ran ->
    ShellStream.exitCode (recordAfter freshRow ran) = Some 0 /\
    ShellStream.error (recordAfter freshRow ran) = Some "Command timed out" /\
    ShellStream.done (recordAfter freshRow ran) = true.
Proof. intros ran [= <-]. repeat split. Qed.

(** The end-to-end run: one output write, one terminal write, and the
    row ends as [{stdout: "hi\n", exitCode: 0, done: true, error: null}]. *)
Lemma echoHi_run :
  SandboxTools.execute echoHi 300000 0 =
    Some (SandboxTools.mkRan
            [ShellStream.writeStdout hiLine;
             ShellStream.mkPatch (Some hiLine) None (Some 0) None (Some true)] None) /\
  ShellStream.replay freshRow
    [ShellStream.writeStdout hiLine;
     ShellStream.mkPatch (Some hiLine) None (Some 0) None (Some true)] =
  ShellStream.mk "stream-1" "chat-1" "chat-1" "echo hi" hiLine "" (Some 0) None true
                 1000 1000.
Proof. split; reflexivity. Qed.

(** A completion seen inside the budget is the only terminal write. *)
Lemma prompt_completion_run :
  SandboxTools.execute promptCompletion 1000 0 =
  Some (SandboxTools.mkRan
          [ShellStream.writeStdout "hi";
           ShellStream.mkPatch (Some "hi") None (Some 0) None (Some true)] None).
Proof. reflexivity. Qed.

Lemma grows_then_error (r : ShellStream.t) (ws : list ShellStream.patch) (m : string) :
  ShellStream.growsUntilDone r ws = true ->
  ShellStream.growsUntilDone r (ws ++ [ShellStream.writeError m]) = true.
Proof.
  intros Hg. rewrite growsUntilDone_snoc, Hg, keepsLength_writeError.
  apply orb_true_r.
Qed.

Section PooledOutput.
Variable w : SandboxTools.world.
Variable r0 : ShellStream.t.
Hypothesis Hgrow : snapshotsGrow w.
Hypothesis Hempty : ShellStream.stdout r0 = "".

Lemma tracked_length (i : nat) (v : SandboxTools.vars) c r :
  tracked w r0 i v ->
  snd (SandboxTools.w_logs w i c) = Ok r ->
  (String.length (SandboxTools.lastStdout v) <= String.length (logs r))%nat.
Proof.
  intros (_ & _ & [Hnil|(j & c' & r' & Hj & Hr' & Hlast)]) Hr.
  - rewrite Hnil. cbn. lia.
  - rewrite <- Hlast. eapply Hgrow; [|exact Hr'|exact Hr]. lia.
Qed.

(** The update of [lastStdout] and of the row at the top of the loop
    body. *)
Lemma tracked_update (i : nat) (v : SandboxTools.vars) r :
  tracked w r0 i v ->
  snd (SandboxTools.w_logs w i (SandboxTools.v_offset v)) = Ok r ->
  let v1 :=
    if negb (String.eqb (logs r) (SandboxTools.lastStdout v))
    then SandboxTools.write (ShellStream.writeStdout (logs r))
           (SandboxTools.mkVars (SandboxTools.v_offset v) (logs r)
                                (SandboxTools.written v))
    else v in
  tracked w r0 (S i) v1 /\ SandboxTools.lastStdout v1 = logs r.
Proof.
  intros Hv Hr.
  pose proof (tracked_length i v _ r Hv Hr) as Hlen.
  destruct Hv as (Hg & Hlast & Hsrc).
  destruct (String.eqb_spec (logs r) (SandboxTools.lastStdout v)) as [Heq|Hne]; cbn.
  - split; [|congruence]. split; [assumption|]. split; [assumption|].
    right. exists i, (SandboxTools.v_offset v), r. auto.
  - split; [|reflexivity]. unfold tracked, SandboxTools.write.
    cbn [SandboxTools.written SandboxTools.lastStdout SandboxTools.v_offset].
    rewrite growsUntilDone_snoc, replay_snoc, Hg. cbn [andb].
    split.
    + unfold ShellStream.keepsLength; cbn. rewrite Hlast.
      apply Nat.leb_le in Hlen. rewrite Hlen, Nat.leb_refl.
      apply orb_true_r.
    + split; [reflexivity|]. right. exists i, (SandboxTools.v_offset v), r. auto.
Qed.

Lemma tracked_step (i : nat) (now : Z) (v : SandboxTools.vars) (took : N)
  (v' : SandboxTools.vars) :
  tracked w r0 i v ->
  SandboxTools.pollBody w i now v = (took, Poll.Continue v') ->
  tracked w r0 (S i) v'.
Proof.
  intros Hv Hbody. unfold SandboxTools.pollBody in Hbody.
  destruct (SandboxTools.w_logs w i (SandboxTools.v_offset v)) as [took' [r|e]] eqn:Hw;
    [|discriminate].
  assert (Hr : snd (SandboxTools.w_logs w i (SandboxTools.v_offset v)) = Ok r)
    by (rewrite Hw; reflexivity).
  destruct (tracked_update i v r Hv Hr) as [(Hg & Hlast & Hsrc) _].
  destruct (done r); [discriminate|]. inversion Hbody; subst. exact (conj Hg (conj Hlast Hsrc)).
Qed.

Lemma pooled_output_grows (timeoutMs startTime : Z) (ran : SandboxTools.ran) :
  SandboxTools.execute w timeoutMs startTime = Some ran ->
  ShellStream.growsUntilDone r0 (SandboxTools.writes ran) = true.
Proof.
  unfold SandboxTools.execute.
  destruct (SandboxTools.w_session w) as [u|e0];
    [|intros [= <-]; apply (grows_then_error r0 []); reflexivity].
  destruct (SandboxTools.w_exec w) as [started|e0];
    [|intros [= <-]; apply (grows_then_error r0 []); reflexivity].
  destruct (Poll.run _ _ _ _ _ _) as [ex|] eqn:Hrun; [|discriminate].
  assert (Hinit : tracked w r0 O (SandboxTools.mkVars (-1) "" [])).
  { unfold tracked; cbn. auto. }
  pose proof (loop_invariant (SandboxTools.pollBody w) startTime timeoutMs 500
                (fun i _ v => tracked w r0 i v)
                (fun i now v took v' Hv _ Hb => tracked_step i now v took v' Hv Hb)
                _ _ _ _ _ Hinit Hrun) as Hexit.
  destruct ex as [v now|u' v now|x v now].
  - destruct Hexit as (i & (Hg & _) & _). intros [= <-].
    unfold SandboxTools.checkTimeout. destruct (_ >=? _); cbn.
    + apply grows_then_error, Hg.
    + exact Hg.
  - destruct Hexit as (i & now0 & v0 & took & Hv & _ & Hbody & _).
    unfold SandboxTools.pollBody in Hbody.
    destruct (SandboxTools.w_logs w i (SandboxTools.v_offset v0))
      as [took' [r|e]] eqn:Hw; [|discriminate].
    assert (Hr : snd (SandboxTools.w_logs w i (SandboxTools.v_offset v0)) = Ok r)
      by (rewrite Hw; reflexivity).
    destruct (tracked_update i v0 r Hv Hr) as [(Hg & Hlast & _) Hsame].
    destruct (done r); [|discriminate]. inversion Hbody; subst. clear Hbody.
    intros [= <-].
    assert (Hdone : ShellStream.growsUntilDone r0
              (SandboxTools.written
                 (SandboxTools.write
                    (ShellStream.mkPatch (Some (logs r)) None
                       (Some (ShellStream.orElse (lr_exitCode r) 0)) None (Some true))
                    (if negb (String.eqb (logs r) (SandboxTools.lastStdout v0))
                     then SandboxTools.write (ShellStream.writeStdout (logs r))
                            (SandboxTools.mkVars (SandboxTools.v_offset v0) (logs r)
                               (SandboxTools.written v0))
                     else v0))) = true).
    { unfold SandboxTools.write at 1. cbn [SandboxTools.written].
      rewrite growsUntilDone_snoc, Hg. cbn [andb].
      unfold ShellStream.keepsLength; cbn. rewrite Hlast, Hsame, !Nat.leb_refl.
      apply orb_true_r. }
    unfold SandboxTools.checkTimeout. destruct (_ >=? _); cbn [SandboxTools.writes].
    + apply grows_then_error, Hdone.
    + exact Hdone.
  - destruct Hexit as (i & now0 & v0 & took & (Hg & _) & _ & Hbody & _).
    unfold SandboxTools.pollBody in Hbody.
    destruct (SandboxTools.w_logs w i (SandboxTools.v_offset v0))
      as [took' [r|e]]; [destruct (done r); discriminate|].
    inversion Hbody; subst. intros [= <-]. cbn. apply grows_then_error, Hg.
Qed.

End PooledOutput.

(** The container runner appends. *)
Lemma keepsLength_append_stdout (r : ShellStream.t) (value : string) :
  ShellStream.keepsLength r (ShellStream.writeStdout (ShellStream.stdout r ++ value)) = true.
Proof.
  unfold ShellStream.keepsLength; cbn. rewrite length_append, Nat.leb_refl, andb_true_r.
  apply Nat.leb_le. lia.
Qed.

Lemma keepsLength_append_stderr (r : ShellStream.t) (value : string) :
  ShellStream.keepsLength r (ShellStream.writeStderr (ShellStream.stderr r ++ value)) = true.
Proof.
  unfold ShellStream.keepsLength; cbn. rewrite length_append, Nat.leb_refl.
  apply Nat.leb_le. lia.
Qed.

Lemma readLoop_grows (type : ExecShell.streamKind) (chunks : list string) :
  forall buffer r,
    match type with
    | ExecShell.Stdout => ShellStream.stdout r
    | ExecShell.Stderr => ShellStream.stderr r
    end = buffer ->
    ShellStream.growsUntilDone r (fst (ExecShell.readLoop type buffer chunks)) = true.
Proof.
  induction chunks as [|value rest IH]; intros buffer r Hbuf; cbn [ExecShell.readLoop].
  - reflexivity.
  - destruct (ExecShell.readLoop type (buffer ++ value) rest) as [ws final] eqn:Hrest.
    cbn [fst ShellStream.growsUntilDone].
    pose proof (IH (buffer ++ value)%string
                   (ShellStream.updateShellStream
                      (ExecShell.writeBuffer type (buffer ++ value)) r)) as Hnext.
    rewrite Hrest in Hnext. cbn [fst] in Hnext. rewrite Hnext.
    + subst buffer. destruct type; cbn [ExecShell.writeBuffer];
        rewrite ?keepsLength_append_stdout, ?keepsLength_append_stderr, orb_true_r;
        reflexivity.
    + destruct type; reflexivity.
Qed.

Lemma readBoth_grows (chunks : list (ExecShell.streamKind * string)) :
  forall r ws out err,
    ExecShell.readBoth (ShellStream.stdout r) (ShellStream.stderr r) chunks
      = (ws, out, err) ->
    ShellStream.growsUntilDone r ws = true /\
    ShellStream.stdout (ShellStream.replay r ws) = out /\
    ShellStream.stderr (ShellStream.replay r ws) = err.
Proof.
  induction chunks as [|[[|] value] rest IH]; intros r ws out err Hread;
    cbn [ExecShell.readBoth] in Hread.
  - injection Hread as <- <- <-. repeat split.
  - pose proof (IH (ShellStream.updateShellStream
                      (ShellStream.writeStdout (ShellStream.stdout r ++ value)) r)) as Hnext.
    cbn [ShellStream.updateShellStream ShellStream.writeStdout ShellStream.p_stdout
         ShellStream.p_stderr ShellStream.orElse ShellStream.stdout ShellStream.stderr]
      in Hnext.
    destruct (ExecShell.readBoth (ShellStream.stdout r ++ value) (ShellStream.stderr r) rest)
      as [[ws' out'] err'].
    injection Hread as <- <- <-.
    destruct (Hnext ws' out' err' eq_refl) as (Hg & Hout & Herr).
    cbn [ShellStream.growsUntilDone ShellStream.replay fold_left].
    rewrite keepsLength_append_stdout, orb_true_r. cbn [andb].
    repeat split; assumption.
  - pose proof (IH (ShellStream.updateShellStream
                      (ShellStream.writeStderr (ShellStream.stderr r ++ value)) r)) as Hnext.
    cbn [ShellStream.updateShellStream ShellStream.writeStderr ShellStream.p_stdout
         ShellStream.p_stderr ShellStream.orElse ShellStream.stdout ShellStream.stderr]
      in Hnext.
    destruct (ExecShell.readBoth (ShellStream.stdout r) (ShellStream.stderr r ++ value) rest)
      as [[ws' out'] err'].
    injection Hread as <- <- <-.
    destruct (Hnext ws' out' err' eq_refl) as (Hg & Hout & Herr).
    cbn [ShellStream.growsUntilDone ShellStream.replay fold_left].
    rewrite keepsLength_append_stderr, orb_true_r. cbn [andb].
    repeat split; assumption.
Qed.

Lemma container_output_grows (w : ExecShell.world) (r0 : ShellStream.t) :
  ShellStream.stdout r0 = "" ->
  ShellStream.stderr r0 = "" ->
  ShellStream.growsUntilDone r0 (SandboxTools.writes (ExecShell.execute w)) = true.
Proof.
  intros Hout Herr.
  unfold ExecShell.execute, ExecShell.execShellInSandboxStreaming, ExecShell.tryBlock.
  destruct (ExecShell.w_setup w) as [u|e0];
    [|apply (grows_then_error r0 []); reflexivity].
  destruct (ExecShell.w_prepare w) as [u'|e0].
  - destruct (ExecShell.readBoth "" "" (ExecShell.w_chunks w)) as [[ws out] err] eqn:Hread.
    rewrite <- Hout in Hread at 1. rewrite <- Herr in Hread at 1.
    apply readBoth_grows in Hread as (Hg & Ho & He).
    assert (Hfinal : forall code,
               ShellStream.growsUntilDone r0
                 (ws ++ [ShellStream.mkPatch (Some out) (Some err) (Some code) None
                                             (Some true)]) = true).
    { intros code. rewrite growsUntilDone_snoc, Hg. cbn [andb].
      unfold ShellStream.keepsLength; cbn. rewrite Ho, He, !Nat.leb_refl.
      apply orb_true_r. }
    destruct (ExecShell.w_readFailure w) as [e0|];
      [|destruct (ExecShell.w_wait w) as [code|e0]];
      destruct (ExecShell.w_terminate w) as [u''|e1]; cbn [SandboxTools.writes];
      repeat apply grows_then_error; auto.
  - destruct (ExecShell.w_terminate w) as [u''|e1]; cbn [SandboxTools.writes];
      repeat apply grows_then_error; reflexivity.
Qed.

(** C2, amended: on a freshly created row, no write of a runner
    shortens [stdout] or [stderr] while the row is not done, provided the
    snapshots the backend of the pooled runner returns never get shorter
    from one poll to a later one (that runner overwrites [stdout] with
    the latest snapshot; the container runner and its [readStream] only
    append). *)
Theorem output_never_shortened :
  forall (w : SandboxTools.world) (timeoutMs startTime : Z) (ran : SandboxTools.ran)
         (wc : ExecShell.world) (type : ExecShell.streamKind) (chunks : list string)
         (failure : option thrown) (r0 : ShellStream.t),
    snapshotsGrow w ->
    ShellStream.stdout r0 = "" ->
    ShellStream.stderr r0 = "" ->
    SandboxTools.execute w timeoutMs startTime = Some ran ->
    ShellStream.growsUntilDone r0 (SandboxTools.writes ran) = true /\
    ShellStream.growsUntilDone r0 (SandboxTools.writes (ExecShell.execute wc)) = true /\
    ShellStream.growsUntilDone r0 (fst (ExecShell.readStream type chunks failure)) = true.
Proof.
  intros w timeoutMs startTime ran wc type chunks failure r0 Hgrow Hout Herr Hrun.
  split; [|split].
  - eapply pooled_output_grows; eassumption.
  - apply container_output_grows; assumption.
  - unfold ExecShell.readStream.
    pose proof (readLoop_grows type chunks "" r0) as Hread.
    destruct (ExecShell.readLoop type "" chunks) as [ws buffer]. cbn [fst] in *.
    apply Hread. destruct type; assumption.
Qed.

Lemma output_never_shortened_witness :
  ShellStream.growsUntilDone freshRow
    (SandboxTools.writes
       (SandboxTools.mkRan
          [ShellStream.writeStdout "hi";
           ShellStream.mkPatch (Some "hi") None (Some 0) None (Some true)] None)) = true /\
  ShellStream.growsUntilDone freshRow
    (SandboxTools.writes (ExecShell.execute containerRun)) = true /\
  ShellStream.growsUntilDone freshRow
    (fst (ExecShell.readStream ExecShell.Stdout ["he"; "llo"] None)) = true.
Proof.
  apply (output_never_shortened promptCompletion 1000 0
           (SandboxTools.mkRan
              [ShellStream.writeStdout "hi";
               ShellStream.mkPatch (Some "hi") None (Some 0) None (Some true)] None)
           containerRun ExecShell.Stdout ["he"; "llo"] None freshRow).
  - intros i j c1 c2 r1 r2 _ H1 H2. cbn in H1, H2.
    injection H1 as <-. injection H2 as <-. cbn. lia.
  - reflexivity.
  - reflexivity.
  - reflexivity.
Defined.

(** ** Streaming bridge *)

(** C8: subscribing to a row that is already done yields exactly the
    [initial] event, whose data are the row's [id], [sessionId],
    [command], [stdout], [stderr], [exitCode], [error] and [done] (true
    here), followed by [done]; no [stdout], [stderr] or [complete] event
    is sent, and the stream is closed. *)
Theorem subscribe_after_done :
  forall (streamId : string) (row : ShellStream.t) (ticks : nat -> StreamRoute.tick),
    truthy (Some streamId) = true ->
    ShellStream.done row = true ->
    StreamRoute.GET (Some streamId) true (Some row) ticks =
    StreamRoute.EventStream
      (StreamRoute.mkChannel
         [StreamRoute.Initial
            (StreamRoute.mkSnapshot
               (ShellStream.id row) (ShellStream.sessionId row) (ShellStream.command row)
               (ShellStream.stdout row) (ShellStream.stderr row)
               (ShellStream.exitCode row) (ShellStream.error row) true);
          StreamRoute.Done]
         true true).
Proof.
  intros streamId row ticks Hid Hdone.
  unfold StreamRoute.GET, StreamRoute.start, StreamRoute.snapshotOf.
  rewrite Hid, Hdone. reflexivity.
Qed.

Lemma subscribe_after_done_witness :
  StreamRoute.GET (Some "stream-1") true (Some doneTimedOut) (onePoll doneTimedOut) =
  StreamRoute.EventStream
    (StreamRoute.mkChannel
       [StreamRoute.Initial
          (StreamRoute.mkSnapshot "stream-1" "chat-1" "sleep 999" "" "" None
                                  (Some "Command timed out") true);
        StreamRoute.Done]
       true true).
Proof.
  apply (subscribe_after_done "stream-1" doneTimedOut (onePoll doneTimedOut));
    reflexivity.
Defined.

Lemma sendEvent_open (e : StreamRoute.event) (ch : StreamRoute.channel) :
  StreamRoute.isClientConnected ch = true ->
  StreamRoute.closed ch = false ->
  StreamRoute.sendEvent e ch = StreamRoute.mkChannel (StreamRoute.sent ch ++ [e]) true false.
Proof.
  intros Hc Ho. unfold StreamRoute.sendEvent. rewrite Hc, Ho. reflexivity.
Qed.

Lemma prefix_substring (p s : string) :
  String.prefix p s = true ->
  s = (p ++ Js.substring (String.length p) s)%string.
Proof.
  revert s. induction p as [|a p IH]; intros s Hp; cbn.
  - reflexivity.
  - destruct s as [|b s]; cbn in Hp; [discriminate|].
    destruct (Ascii.ascii_dec a b) as [<-|Hne]; [|discriminate].
    cbn. f_equal. apply IH, Hp.
Qed.

Lemma prefix_same_length (p s : string) :
  String.prefix p s = true ->
  (String.length s <= String.length p)%nat ->
  s = p.
Proof.
  revert s. induction p as [|a p IH]; intros s Hp Hlen.
  - destruct s; cbn in Hlen; [reflexivity|lia].
  - destruct s as [|b s]; cbn in Hp; [discriminate|].
    destruct (Ascii.ascii_dec a b) as [<-|Hne]; [|discriminate].
    cbn in Hlen. f_equal. apply IH; [exact Hp|lia].
Qed.

(** The [initial] event puts the subscriber in step with the row. *)
Lemma initial_synced (row : ShellStream.t) :
  synced (StreamRoute.mkCursor (String.length (ShellStream.stdout row))
                               (String.length (ShellStream.stderr row)))
         (StreamRoute.sendEvent (StreamRoute.Initial (StreamRoute.snapshotOf row))
                                StreamRoute.fresh)
         row.
Proof. repeat split. Qed.

(** C9, as stated, fails: the bridge tracks lengths only.  When the row
    is overwritten with a longer text that does not extend the old one
    (the pooled runner does so when its backend answers with the output
    after the cursor), the delta is the tail of the new text and the
    subscriber's copy differs from the row. *)
Lemma overwritten_output_is_not_replayed :
  StreamRoute.GET (Some "stream-1") true (Some rowAbc) (onePoll rowXyzw) =
    StreamRoute.EventStream
      (StreamRoute.mkChannel
         [StreamRoute.Initial (StreamRoute.snapshotOf rowAbc); StreamRoute.StdoutData "w"]
         false true) /\
  ShellTerminal.stdout
    (ShellTerminal.receive
       [StreamRoute.Initial (StreamRoute.snapshotOf rowAbc); StreamRoute.StdoutData "w"])
    = "abcw" /\
  ShellStream.stdout rowXyzw = "xyzw".
Proof. repeat split. Qed.

(** The rows of that scenario are what the pooled runner writes. *)
Lemma cursorBackend_run :
  SandboxTools.execute cursorBackend 1000 0 =
  Some (SandboxTools.mkRan
          [ShellStream.writeStdout "abc"; ShellStream.writeStdout "xyzw";
           ShellStream.writeError "Command timed out"] None).
Proof. reflexivity. Qed.

Lemma sendUpdates_open (cur : ShellStream.t) (c : StreamRoute.cursor)
  (ch : StreamRoute.channel) :
  StreamRoute.isClientConnected ch = true ->
  StreamRoute.closed ch = false ->
  StreamRoute.sendUpdates cur c ch =
  (StreamRoute.mkCursor
     (if (StreamRoute.lastStdoutLength c <? String.length (ShellStream.stdout cur))%nat
      then String.length (ShellStream.stdout cur) else StreamRoute.lastStdoutLength c)
     (if (StreamRoute.lastStderrLength c <? String.length (ShellStream.stderr cur))%nat
      then String.length (ShellStream.stderr cur) else StreamRoute.lastStderrLength c),
   StreamRoute.mkChannel
     (StreamRoute.sent ch
      ++ (if (StreamRoute.lastStdoutLength c <? String.length (ShellStream.stdout cur))%nat
          then [StreamRoute.StdoutData
                  (Js.substring (StreamRoute.lastStdoutLength c) (ShellStream.stdout cur))]
          else [])
      ++ (if (StreamRoute.lastStderrLength c <? String.length (ShellStream.stderr cur))%nat
          then [StreamRoute.StderrData
                  (Js.substring (StreamRoute.lastStderrLength c) (ShellStream.stderr cur))]
          else []))
     true false).
Proof.
  intros Hc Ho. unfold StreamRoute.sendUpdates.
  destruct ch as [events connected isClosed]. cbn in Hc, Ho. subst.
  destruct (_ <? String.length (ShellStream.stdout cur))%nat;
    destruct (_ <? String.length (ShellStream.stderr cur))%nat;
    cbn; rewrite <- ?app_assoc, ?app_nil_r; reflexivity.
Qed.

Lemma receive_output (events extra : list StreamRoute.event) :
  forall st,
    st = ShellTerminal.receive events ->
    ShellTerminal.receive (events ++ extra) = List.fold_left ShellTerminal.onmessage extra st.
Proof. intros st ->. unfold ShellTerminal.receive. apply fold_left_app. Qed.

(** The text a subscriber holds after one field's delta. *)
Lemma delta_completes (prev cur : string) :
  String.prefix prev cur = true ->
  (if (String.length prev <? String.length cur)%nat
   then (prev ++ Js.substring (String.length prev) cur)%string
   else prev) = cur.
Proof.
  intros Hp. destruct (Nat.ltb_spec (String.length prev) (String.length cur)) as [Hlt|Hge].
  - symmetry. apply prefix_substring, Hp.
  - symmetry. apply prefix_same_length; assumption.
Qed.

(** What one poll that finds the row does for a connected subscriber. *)
Lemma pollOnce_found :
  forall (t : StreamRoute.tick) (c : StreamRoute.cursor) (ch : StreamRoute.channel)
         (prev cur : ShellStream.t),
    StreamRoute.isClientConnected ch = true ->
    StreamRoute.closed ch = false ->
    StreamRoute.cancelledDuring t = false ->
    StreamRoute.fetched t = Ok (Some cur) ->
    let '(c', ch', again) := StreamRoute.pollOnce t c ch in
    StreamRoute.sent ch' =
      StreamRoute.sent ch
      ++ (if (StreamRoute.lastStdoutLength c <? String.length (ShellStream.stdout cur))%nat
          then [StreamRoute.StdoutData
                  (Js.substring (StreamRoute.lastStdoutLength c) (ShellStream.stdout cur))]
          else [])
      ++ (if (StreamRoute.lastStderrLength c <? String.length (ShellStream.stderr cur))%nat
          then [StreamRoute.StderrData
                  (Js.substring (StreamRoute.lastStderrLength c) (ShellStream.stderr cur))]
          else [])
      ++ (if ShellStream.done cur
          then [StreamRoute.Complete (ShellStream.exitCode cur) (ShellStream.error cur);
                StreamRoute.Done]
          else []) /\
    again = negb (ShellStream.done cur) /\
    (synced c ch prev -> extends prev cur = true -> synced c' ch' cur) /\
    (ShellStream.done cur = false ->
     StreamRoute.isClientConnected ch' = true /\ StreamRoute.closed ch' = false).
Proof.
  intros t c ch prev cur Hconn Hopen Hstay Hfetch.
  unfold StreamRoute.pollOnce. rewrite Hstay, Hfetch.
  rewrite (sendUpdates_open cur c ch Hconn Hopen).
  set (outDelta := if (StreamRoute.lastStdoutLength c <? _)%nat then _ else []).
  set (errDelta := if (StreamRoute.lastStderrLength c <? _)%nat then _ else []).
  assert (Hsync : synced c ch prev -> extends prev cur = true ->
            forall tail,
              (forall st, ShellTerminal.stdout (List.fold_left ShellTerminal.onmessage tail st)
                          = ShellTerminal.stdout st /\
                          ShellTerminal.stderr (List.fold_left ShellTerminal.onmessage tail st)
                          = ShellTerminal.stderr st) ->
              ShellTerminal.stdout
                (ShellTerminal.receive (StreamRoute.sent ch ++ outDelta ++ errDelta ++ tail))
              = ShellStream.stdout cur /\
              ShellTerminal.stderr
                (ShellTerminal.receive (StreamRoute.sent ch ++ outDelta ++ errDelta ++ tail))
              = ShellStream.stderr cur).
  { intros (Hlo & Hle & Hso & Hse) Hext tail Htail.
    apply andb_prop in Hext as [Hpo Hpe].
    rewrite (receive_output _ _ _ eq_refl), !fold_left_app.
    destruct (Htail (List.fold_left ShellTerminal.onmessage errDelta
                       (List.fold_left ShellTerminal.onmessage outDelta
                          (ShellTerminal.receive (StreamRoute.sent ch))))) as [-> ->].
    pose proof (delta_completes _ _ Hpo) as Ho.
    pose proof (delta_completes _ _ Hpe) as He.
    subst outDelta errDelta. rewrite Hlo, Hle.
    destruct (String.length (ShellStream.stdout prev) <? _)%nat;
      destruct (String.length (ShellStream.stderr prev) <? _)%nat;
      cbn; rewrite ?Hso, ?Hse; auto. }
  destruct (ShellStream.done cur) eqn:Hdone.
  - rewrite sendEvent_open by reflexivity. rewrite sendEvent_open by reflexivity.
    cbn [StreamRoute.close StreamRoute.sent StreamRoute.isClientConnected].
    split; [rewrite <- !app_assoc; reflexivity|]. split; [reflexivity|].
    split; [|discriminate].
    intros Hs Hext.
    destruct (Hsync Hs Hext
                [StreamRoute.Complete (ShellStream.exitCode cur) (ShellStream.error cur);
                 StreamRoute.Done]) as [Ho He]; [intros st; split; reflexivity|].
    destruct Hs as (Hlo & Hle & _ & _). apply andb_prop in Hext as [Hpo Hpe].
    unfold synced, StreamRoute.close.
    cbn [StreamRoute.lastStdoutLength StreamRoute.lastStderrLength StreamRoute.sent].
    rewrite <- !app_assoc in *. cbn [app] in *. rewrite Ho, He, Hlo, Hle.
    repeat split.
    + destruct (Nat.ltb_spec (String.length (ShellStream.stdout prev))
                             (String.length (ShellStream.stdout cur))); [reflexivity|].
      rewrite (prefix_same_length _ _ Hpo); auto.
    + destruct (Nat.ltb_spec (String.length (ShellStream.stderr prev))
                             (String.length (ShellStream.stderr cur))); [reflexivity|].
      rewrite (prefix_same_length _ _ Hpe); auto.
  - cbn [StreamRoute.sent]. split; [rewrite app_nil_r; reflexivity|].
    split; [reflexivity|]. split; [|intros _; split; reflexivity].
    intros Hs Hext.
    destruct (Hsync Hs Hext []) as [Ho He]; [intros st; split; reflexivity|].
    destruct Hs as (Hlo & Hle & _ & _). apply andb_prop in Hext as [Hpo Hpe].
    unfold synced. cbn [StreamRoute.lastStdoutLength StreamRoute.lastStderrLength
                          StreamRoute.sent].
    rewrite app_nil_r in Ho, He. rewrite Ho, He, Hlo, Hle.
    repeat split.
    + destruct (Nat.ltb_spec (String.length (ShellStream.stdout prev))
                             (String.length (ShellStream.stdout cur))); [reflexivity|].
      rewrite (prefix_same_length _ _ Hpo); auto.
    + destruct (Nat.ltb_spec (String.length (ShellStream.stderr prev))
                             (String.length (ShellStream.stderr cur))); [reflexivity|].
      rewrite (prefix_same_length _ _ Hpe); auto.
Qed.

(** C9, amended: on a poll that finds the row, with the subscriber
    connected, a [stdout] (resp. [stderr]) event is sent exactly when the
    field is longer than the length last seen, and its payload is the
    substring from that length on; [complete] and [done] follow when the
    row is done.  If moreover the row found extends the one the
    subscriber is in step with (text was only appended), the subscriber
    is in step again: the snapshot and the deltas received so far make up
    the row's current [stdout] and [stderr]. *)
Theorem tick_sends_appended_suffix :
  forall (t : StreamRoute.tick) (c : StreamRoute.cursor) (ch : StreamRoute.channel)
         (prev cur : ShellStream.t),
    StreamRoute.isClientConnected ch = true ->
    StreamRoute.closed ch = false ->
    StreamRoute.cancelledDuring t = false ->
    StreamRoute.fetched t = Ok (Some cur) ->
    let '(c', ch', again) := StreamRoute.pollOnce t c ch in
    StreamRoute.sent ch' =
      StreamRoute.sent ch
      ++ (if (StreamRoute.lastStdoutLength c <? String.length (ShellStream.stdout cur))%nat
          then [StreamRoute.StdoutData
                  (Js.substring (StreamRoute.lastStdoutLength c) (ShellStream.stdout cur))]
          else [])
      ++ (if (StreamRoute.lastStderrLength c <? String.length (ShellStream.stderr cur))%nat
          then [StreamRoute.StderrData
                  (Js.substring (StreamRoute.lastStderrLength c) (ShellStream.stderr cur))]
          else [])
      ++ (if ShellStream.done cur
          then [StreamRoute.Complete (ShellStream.exitCode cur) (ShellStream.error cur);
                StreamRoute.Done]
          else []) /\
    again = negb (ShellStream.done cur) /\
    (synced c ch prev -> extends prev cur = true -> synced c' ch' cur).
Proof.
  intros t c ch prev cur Hconn Hopen Hstay Hfetch.
  pose proof (pollOnce_found t c ch prev cur Hconn Hopen Hstay Hfetch) as Hfound.
  destruct (StreamRoute.pollOnce t c ch) as [[c' ch'] again].
  destruct Hfound as (Hsent & Hagain & Hsync & _). auto.
Qed.

Lemma tick_sends_appended_suffix_witness :
  StreamRoute.isClientConnected afterInitial = true /\
  StreamRoute.closed afterInitial = false /\
  let '(c', ch', again) :=
    StreamRoute.pollOnce (StreamRoute.mkTick false (Ok (Some rowAbcdef)) false)
                         cursorAbc afterInitial in
  StreamRoute.sent ch' =
    StreamRoute.sent afterInitial
    ++ (if (StreamRoute.lastStdoutLength cursorAbc
            <? String.length (ShellStream.stdout rowAbcdef))%nat
        then [StreamRoute.StdoutData
                (Js.substring (StreamRoute.lastStdoutLength cursorAbc)
                              (ShellStream.stdout rowAbcdef))]
        else [])
    ++ (if (StreamRoute.lastStderrLength cursorAbc
            <? String.length (ShellStream.stderr rowAbcdef))%nat
        then [StreamRoute.StderrData
                (Js.substring (StreamRoute.lastStderrLength cursorAbc)
                              (ShellStream.stderr rowAbcdef))]
        else [])
    ++ (if ShellStream.done rowAbcdef
        then [StreamRoute.Complete (ShellStream.exitCode rowAbcdef)
                                   (ShellStream.error rowAbcdef);
              StreamRoute.Done]
        else []) /\
  again = negb (ShellStream.done rowAbcdef) /\
  (synced cursorAbc afterInitial rowAbc -> extends rowAbc rowAbcdef = true ->
   synced c' ch' rowAbcdef).
Proof.
  split; [reflexivity|]. split; [reflexivity|].
  apply (tick_sends_appended_suffix
           (StreamRoute.mkTick false (Ok (Some rowAbcdef)) false)
           cursorAbc afterInitial rowAbc rowAbcdef); reflexivity.
Defined.

(** A whole subscription on rows that only grow: the delta is the text
    appended and the subscriber ends with the row's output. *)
Lemma appended_output_is_replayed :
  StreamRoute.GET (Some "stream-1") true (Some rowAbc) (onePoll rowAbcdef) =
    StreamRoute.EventStream
      (StreamRoute.mkChannel
         [StreamRoute.Initial (StreamRoute.snapshotOf rowAbc); StreamRoute.StdoutData "def"]
         false true) /\
  ShellTerminal.stdout
    (ShellTerminal.receive
       [StreamRoute.Initial (StreamRoute.snapshotOf rowAbc); StreamRoute.StdoutData "def"])
    = ShellStream.stdout rowAbcdef.
Proof. split; reflexivity. Qed.


(** Over a whole subscription to rows that only have text appended, the
    subscriber ends with the output of the row fetched last. *)
Lemma poll_replays_appended_output (remaining : nat) :
  forall pollCount ticks c ch prev,
    appendOnly remaining pollCount ticks prev = true ->
    StreamRoute.isClientConnected ch = true ->
    StreamRoute.closed ch = false ->
    synced c ch prev ->
    let ch' := StreamRoute.poll remaining pollCount ticks c ch in
    ShellTerminal.stdout (ShellTerminal.receive (StreamRoute.sent ch')) =
      ShellStream.stdout (lastFetched remaining pollCount ticks prev) /\
    ShellTerminal.stderr (ShellTerminal.receive (StreamRoute.sent ch')) =
      ShellStream.stderr (lastFetched remaining pollCount ticks prev).
Proof.
  induction remaining as [|remaining IH];
    intros pollCount ticks c ch prev Hwell Hconn Hopen Hsync;
    cbn [StreamRoute.poll lastFetched appendOnly] in *.
  - destruct Hsync as (_ & _ & Hout & Herr).
    destruct (StreamRoute.cancelledBefore (ticks pollCount)); cbn; auto.
  - apply andb_prop in Hwell as [Hstay Hrows].
    apply andb_prop in Hstay as [Hbefore Hduring].
    apply negb_true_iff in Hbefore, Hduring. rewrite Hbefore, Hconn. cbn [negb].
    destruct (StreamRoute.fetched (ticks pollCount)) as [[row|]|e] eqn:Hfetch;
      try discriminate.
    apply andb_prop in Hrows as [Hext Hrest].
    pose proof (pollOnce_found (ticks pollCount) c ch prev row
                  Hconn Hopen Hduring Hfetch) as Hfound.
    destruct (StreamRoute.pollOnce (ticks pollCount) c ch) as [[c' ch'] again].
    destruct Hfound as (_ & -> & Hstep & Hlive).
    specialize (Hstep Hsync Hext).
    destruct (ShellStream.done row) eqn:Hdone; cbn [negb].
    + destruct Hstep as (_ & _ & Hout & Herr). auto.
    + destruct (Hlive eq_refl) as [Hconn' Hopen'].
      cbn [orb] in Hrest. apply IH; assumption.
Qed.

(** X28: over a subscription to a row that only has text appended, with
    the subscriber connected, the subscriber ends with the [stdout] and
    [stderr] of the row fetched last, whether a poll found the row done
    or the poll budget ran out first. *)
Lemma subscription_replays_appended_output (streamId : string) (row : ShellStream.t)
  (ticks : nat -> StreamRoute.tick) :
  truthy (Some streamId) = true ->
  ShellStream.done row = false ->
  appendOnly StreamRoute.maxPolls O ticks row = true ->
  exists ch,
    StreamRoute.GET (Some streamId) true (Some row) ticks = StreamRoute.EventStream ch /\
    ShellTerminal.stdout (ShellTerminal.receive (StreamRoute.sent ch)) =
      ShellStream.stdout (lastFetched StreamRoute.maxPolls O ticks row) /\
    ShellTerminal.stderr (ShellTerminal.receive (StreamRoute.sent ch)) =
      ShellStream.stderr (lastFetched StreamRoute.maxPolls O ticks row).
Proof.
  intros Hid Hrunning Hwell. unfold StreamRoute.GET, StreamRoute.start.
  rewrite Hid, Hrunning. cbn [negb]. eexists. split; [reflexivity|].
  apply poll_replays_appended_output; try assumption; try reflexivity.
  apply initial_synced.
Qed.

(** * Further properties of the code *)

(** ** Session manager: leases over a history of calls *)

(** X1: on a session constructed without initial data, a resolved
    [ensureSandbox] followed by a resolved [releaseSandbox] brings the
    record back to the empty one, and the lease handed to
    [returnAndWait] is the item and token [borrow] gave, both calls
    carrying the session id. *)
Theorem lease_round_trip :
  forall (sid : string) (callback : bool) (b : SandboxBorrowOutput)
         (status : OperationStatusOutput) (now : Z),
    let s0 := AgentSession.new (AgentSession.mkConfig sid callback None) in
    let '(os, s', tr) :=
      AgentSession.run
        [AgentSession.EnsureSandbox (Ok b) (Ok tt) now;
         AgentSession.ReleaseSandbox (Ok status) (Ok tt)] s0 in
    os = [AgentSession.Ensured (Ok (mkBorrowed (bo_item b) (borrow_token b) sid));
          AgentSession.Released (Ok tt)] /\
    s' = s0 /\
    List.filter (fun e => negb (isNotification e)) tr =
      [AgentSession.Borrow sid;
       AgentSession.ReturnAndWait (bo_item b) (borrow_token b) sid].
Proof. intros sid [|] b status now; repeat split. Qed.

(** X2: when the persistence callback rejects after a successful borrow,
    [ensureSandbox] rejects with the callback's error but the session
    holds the lease; later [ensureSandbox] calls resolve to that lease
    and make no call at all, so the lease is never handed to the
    callback again. *)
Theorem rejected_callback_keeps_lease :
  forall (s : AgentSession.t) (b : SandboxBorrowOutput) (e : thrown) (now : Z)
         (later : list AgentSession.call),
    AgentSession.hasSandbox s = false ->
    AgentSession.onSessionDataChange s = true ->
    forallb AgentSession.isEnsure later = true ->
    let '(r, s1, _) := AgentSession.ensureSandbox (Ok b) (Throw e) now s in
    r = Throw e /\
    AgentSession.hasSandbox s1 = true /\
    let '(os, s2, tr) := AgentSession.run later s1 in
    s2 = s1 /\ tr = [] /\
    forall o, In o os ->
      o = AgentSession.Ensured
            (Ok (mkBorrowed (bo_item b) (borrow_token b) (AgentSession.this_sessionId s))).
Proof.
  intros s b e now later Hnone Hcb Hlater.
  assert (Hstep : AgentSession.ensureSandbox (Ok b) (Throw e) now s =
            (Throw e,
             AgentSession.mk (AgentSession.this_sessionId s)
               (mkData (AgentSession.this_sessionId s) (Some (bo_item b))
                       (Some (borrow_token b)) (Some now)) true,
             [AgentSession.Borrow (AgentSession.this_sessionId s);
              AgentSession.SessionDataChange
                (mkData (AgentSession.this_sessionId s) (Some (bo_item b))
                        (Some (borrow_token b)) (Some now))])).
  { unfold AgentSession.hasSandbox in Hnone.
    unfold AgentSession.ensureSandbox, AgentSession.notify. rewrite Hcb.
    destruct (item (AgentSession.data s)), (borrowToken (AgentSession.data s));
      cbn in Hnone; try discriminate; reflexivity. }
  rewrite Hstep. split; [reflexivity|]. split; [reflexivity|].
  rewrite (run_ensure_leased later _ (bo_item b) (borrow_token b)) by (reflexivity || assumption).
  split; [reflexivity|]. split; [reflexivity|].
  intros o Hin. apply in_map_iff in Hin as (c & <- & _). reflexivity.
Qed.

Lemma rejected_callback_keeps_lease_witness :
  let '(r, s1, _) :=
    AgentSession.ensureSandbox (Ok lentSandbox) (Throw (Error "db down")) 1000
                               emptySession in
  r = Throw (Error "db down") /\
  AgentSession.hasSandbox s1 = true /\
  let '(os, s2, tr) := AgentSession.run twoEnsures s1 in
  s2 = s1 /\ tr = [] /\
  forall o, In o os ->
    o = AgentSession.Ensured
          (Ok (mkBorrowed (bo_item lentSandbox) (borrow_token lentSandbox)
                          (AgentSession.this_sessionId emptySession))).
Proof.
  apply (rejected_callback_keeps_lease emptySession lentSandbox (Error "db down") 1000
           twoEnsures); reflexivity.
Defined.

Lemma lastNotified_app (tr1 tr2 : list AgentSession.effect) :
  lastNotified (tr1 ++ tr2) =
  match lastNotified tr2 with
  | Some d => Some d
  | None => lastNotified tr1
  end.
Proof.
  induction tr1 as [|e tr1 IH]; cbn.
  - destruct (lastNotified tr2); reflexivity.
  - destruct e; rewrite ?IH; destruct (lastNotified tr2), (lastNotified tr1); reflexivity.
Qed.

Lemma perform_notifies (c : AgentSession.call) (s : AgentSession.t) :
  AgentSession.onSessionDataChange s = true ->
  let '(_, s', tr) := AgentSession.perform c s in
  AgentSession.onSessionDataChange s' = true /\
  AgentSession.data s' =
    match lastNotified tr with
    | Some d => d
    | None => AgentSession.data s
    end.
Proof.
  intros Hcb. destruct c as [borrowed persisted now|returned persisted];
    cbn [AgentSession.perform].
  - unfold AgentSession.ensureSandbox, AgentSession.notify.
    destruct (item (AgentSession.data s)), (borrowToken (AgentSession.data s));
      destruct borrowed as [b|e]; cbn; rewrite ?Hcb; cbn; auto.
  - unfold AgentSession.releaseSandbox, AgentSession.notify.
    destruct (item (AgentSession.data s)), (borrowToken (AgentSession.data s));
      destruct returned as [st|e]; cbn; rewrite ?Hcb; cbn; auto.
Qed.

(** X3: with the callback registered, after any history of
    [ensureSandbox] and [releaseSandbox] calls, whatever the pool and the
    callback answered, the data last handed to the callback is the
    session's current data (and the data is the initial one if the
    callback was never invoked): memory changes only together with a
    notification. *)
Theorem notified_data_is_current :
  forall (cs : list AgentSession.call) (s : AgentSession.t),
    AgentSession.onSessionDataChange s = true ->
    let '(_, s', tr) := AgentSession.run cs s in
    AgentSession.data s' =
      match lastNotified tr with
      | Some d => d
      | None => AgentSession.data s
      end.
Proof.
  induction cs as [|c cs IH]; intros s Hcb; cbn [AgentSession.run].
  - reflexivity.
  - pose proof (perform_notifies c s Hcb) as Hone.
    destruct (AgentSession.perform c s) as [[o s1] tr1].
    destruct Hone as [Hcb1 Hdata1].
    specialize (IH s1 Hcb1).
    destruct (AgentSession.run cs s1) as [[os s2] tr2].
    rewrite lastNotified_app, IH.
    destruct (lastNotified tr2); [reflexivity|exact Hdata1].
Qed.

Lemma notified_data_is_current_witness :
  let '(_, s', tr) :=
    AgentSession.run
      (borrowedOnce ++ [AgentSession.ReleaseSandbox (Throw NonError) (Ok tt)])
      emptySession in
  AgentSession.data s' =
    match lastNotified tr with
    | Some d => d
    | None => AgentSession.data emptySession
    end.
Proof.
  apply (notified_data_is_current
           (borrowedOnce ++ [AgentSession.ReleaseSandbox (Throw NonError) (Ok tt)])
           emptySession).
  reflexivity.
Defined.

(** ** Session manager: waiting for a command *)

Lemma waitBody_chained (commandId : string)
  (answers : nat -> Z -> AgentSession.pollAnswer) (i : nat) (now : Z)
  (st : AgentSession.waiting) :
  chained st ->
  match AgentSession.waitBody commandId true answers i now st with
  | (_, Poll.Continue st') => chained st'
  | (_, Poll.Break r st') =>
      done r = true /\
      AgentSession.wt_progress st' = AgentSession.wt_progress st ++ [r] /\
      AgentSession.wt_asked st' = (-1) :: List.map offset (AgentSession.wt_progress st)
  | (_, Poll.Raise _ _) => True
  end.
Proof.
  intros [Hrunning Hasked]. unfold AgentSession.waitBody.
  destruct (AgentSession.logs _ _ _ _ _ _) as [[[r|e] s'] tr]; [|exact I].
  cbn [AgentSession.wt_progress AgentSession.wt_asked AgentSession.wt_offset].
  destruct (done r) eqn:Hdone.
  - cbn. auto.
  - unfold chained. cbn. split.
    + apply Forall_app. split; [assumption|]. constructor; [assumption|constructor].
    + rewrite Hasked, map_app. reflexivity.
Qed.

(** X4: [waitForCompletion], given a progress callback, ends whatever
    the poll interval and the budget are; when it resolves, the response
    it returns is done and is the last one the callback was handed, no
    earlier response was done, and the cursors passed to [this.logs] are
    [-1] first and then, poll after poll, the offset of the response
    before. *)
Theorem waitForCompletion_reports_and_chains :
  forall (commandId : string) (o : AgentSession.waitOptions)
         (answers : nat -> Z -> AgentSession.pollAnswer) (now : Z)
         (s : AgentSession.t),
    AgentSession.o_onProgress o = true ->
    exists res st,
      AgentSession.waitForCompletion commandId (Some o) answers now s = Some (res, st) /\
      forall r, res = Ok r ->
        done r = true /\
        exists before,
          AgentSession.wt_progress st = before ++ [r] /\
          Forall (fun p => done p = false) before /\
          AgentSession.wt_asked st = (-1) :: List.map offset before.
Proof.
  intros commandId o answers now s Hprogress.
  unfold AgentSession.waitForCompletion. rewrite Hprogress.
  match goal with
  | |- context [Poll.run ?b ?start ?t ?i ?n ?init] =>
      destruct (run_total b start t i init (timerDelay_pos _)) as [ex Hrun];
      pose proof (loop_invariant b start t i (fun _ _ st => chained st)) as Hinv
  end.
  rewrite Hrun.
  assert (Hinit : chained (AgentSession.mkWaiting (-1) s [] [] [])).
  { split; [constructor|reflexivity]. }
  specialize (Hinv
    (fun i t st0 took st1 Hst _ Hbody =>
       eq_ind _ (fun x => match x with
                          | (_, Poll.Continue st') => chained st'
                          | (_, Poll.Break r0 st') =>
                              done r0 = true /\
                              AgentSession.wt_progress st' =
                                AgentSession.wt_progress st0 ++ [r0] /\
                              AgentSession.wt_asked st' =
                                (-1) :: List.map offset (AgentSession.wt_progress st0)
                          | (_, Poll.Raise _ _) => True
                          end)
              (waitBody_chained commandId answers i t st0 Hst) _ Hbody)
    _ _ _ _ _ Hinit Hrun).
  destruct ex as [st' t|r' st' t|x st' t]; eexists; eexists;
    (split; [reflexivity|]); intros r Hres; try discriminate.
  injection Hres as <-.
  destruct Hinv as (i & t0 & st0 & took & [Hrunning Hasked] & _ & Hbody & _).
  pose proof (waitBody_chained commandId answers i t0 st0 (conj Hrunning Hasked)) as Hlast.
  rewrite Hbody in Hlast. destruct Hlast as (Hdone & Hprog & Hcursors).
  split; [assumption|]. exists (AgentSession.wt_progress st0). auto.
Qed.

Lemma waitForCompletion_reports_and_chains_witness :
  exists res st,
    AgentSession.waitForCompletion "cmd-1" (Some withoutPause) threePolls 0 leasedSession
      = Some (res, st) /\
    forall r, res = Ok r ->
      done r = true /\
      exists before,
        AgentSession.wt_progress st = before ++ [r] /\
        Forall (fun p => done p = false) before /\
        AgentSession.wt_asked st = (-1) :: List.map offset before.
Proof.
  apply (waitForCompletion_reports_and_chains "cmd-1" withoutPause threePolls 0
           leasedSession).
  reflexivity.
Defined.

(** That run, poll by poll: with a poll interval of 0 the third poll is
    reached and answers. *)
Lemma threePolls_run :
  AgentSession.waitForCompletion "cmd-1" (Some withoutPause) threePolls 0 leasedSession =
  Some (Ok (mkLogs "hi" 2 true (Some 0)),
        AgentSession.mkWaiting 2 leasedSession
          [AgentSession.Fetch "http://sb-1//logs/cmd-1?offset=-1&search=*";
           AgentSession.Fetch "http://sb-1//logs/cmd-1?offset=1&search=*";
           AgentSession.Fetch "http://sb-1//logs/cmd-1?offset=2&search=*"]
          [-1; 1; 2]
          [mkLogs "h" 1 false None; mkLogs "hi" 2 false None;
           mkLogs "hi" 2 true (Some 0)]).
Proof. vm_compute. reflexivity. Qed.

Lemma waitBody_onlyLogs (commandId : string) (onProgress : bool)
  (answers : nat -> Z -> AgentSession.pollAnswer) (i : nat) (now : Z)
  (s : AgentSession.t) (it : SandboxItem) (tok : string)
  (st : AgentSession.waiting) :
  item (AgentSession.data s) = Some it ->
  borrowToken (AgentSession.data s) = Some tok ->
  onlyLogs s it commandId st ->
  match AgentSession.waitBody commandId onProgress answers i now st with
  | (_, Poll.Continue st') => onlyLogs s it commandId st'
  | (_, Poll.Break _ st') => onlyLogs s it commandId st'
  | (_, Poll.Raise _ st') => onlyLogs s it commandId st'
  end.
Proof.
  intros Hit Htok [Hsame Hfetches]. unfold AgentSession.waitBody, AgentSession.logs.
  rewrite Hsame, (ensureSandbox_leased s it tok) by assumption.
  cbn [bs_item app].
  assert (Hnext :
            AgentSession.wt_effects st
            ++ [AgentSession.Fetch
                  (AgentSession.logsUrl (execUrl it) commandId (AgentSession.wt_offset st))]
            = List.map (fun cursor =>
                          AgentSession.Fetch (AgentSession.logsUrl (execUrl it) commandId cursor))
                       (AgentSession.wt_asked st ++ [AgentSession.wt_offset st])).
  { rewrite map_app, Hfetches. reflexivity. }
  destruct (bind (AgentSession.a_fetched _) _) as [r|e].
  - destruct (done r); split; assumption || reflexivity.
  - split; assumption || reflexivity.
Qed.

(** X5: on a session that holds a lease, [waitForCompletion] ends,
    whatever the poll interval and the answers are, and however it ends
    it leaves the session as it was and calls neither the pool nor the
    callback: the calls it makes are the reads of that command's logs on
    the leased sandbox, one for each cursor it passed, in order. *)
Theorem waitForCompletion_keeps_lease :
  forall (commandId : string) (options : option AgentSession.waitOptions)
         (answers : nat -> Z -> AgentSession.pollAnswer) (now : Z)
         (s : AgentSession.t) (it : SandboxItem) (tok : string),
    item (AgentSession.data s) = Some it ->
    borrowToken (AgentSession.data s) = Some tok ->
    exists r st,
      AgentSession.waitForCompletion commandId options answers now s = Some (r, st) /\
      AgentSession.wt_session st = s /\
      AgentSession.wt_effects st =
        List.map (fun cursor =>
                    AgentSession.Fetch (AgentSession.logsUrl (execUrl it) commandId cursor))
                 (AgentSession.wt_asked st).
Proof.
  intros commandId options answers now s it tok Hit Htok.
  unfold AgentSession.waitForCompletion.
  match goal with
  | |- context [Poll.run ?body ?start ?timeout ?interval ?n ?init] =>
      destruct (run_total body start timeout interval init (timerDelay_pos _)) as [ex Hrun];
      pose proof (loop_invariant body start timeout interval
                    (fun _ _ st => onlyLogs s it commandId st)) as Hinv
  end.
  rewrite Hrun.
  assert (Hinit : onlyLogs s it commandId (AgentSession.mkWaiting (-1) s [] [] [])).
  { split; reflexivity. }
  match type of Hinv with
  | (?P -> _) =>
      assert (Hstep : P);
        [intros i t st0 took st1 Hst _ Hbody;
         match type of Hbody with
         | AgentSession.waitBody _ ?p _ _ _ _ = _ =>
             pose proof (waitBody_onlyLogs commandId p answers i t s it tok st0
                           Hit Htok Hst) as Hone
         end;
         rewrite Hbody in Hone; exact Hone|]
  end.
  specialize (Hinv Hstep _ _ _ _ _ Hinit Hrun).
  destruct ex as [st' t|r' st' t|x st' t]; eexists; eexists; (split; [reflexivity|]).
  - destruct Hinv as (_ & Hst & _). exact Hst.
  - destruct Hinv as (i & t0 & st0 & took & Hst & _ & Hbody & _).
    match type of Hbody with
    | AgentSession.waitBody _ ?p _ _ _ _ = _ =>
        pose proof (waitBody_onlyLogs commandId p answers i t0 s it tok st0
                      Hit Htok Hst) as Hone
    end.
    rewrite Hbody in Hone. exact Hone.
  - destruct Hinv as (i & t0 & st0 & took & Hst & _ & Hbody & _).
    match type of Hbody with
    | AgentSession.waitBody _ ?p _ _ _ _ = _ =>
        pose proof (waitBody_onlyLogs commandId p answers i t0 s it tok st0
                      Hit Htok Hst) as Hone
    end.
    rewrite Hbody in Hone. exact Hone.
Qed.

Lemma waitForCompletion_keeps_lease_witness :
  exists r st,
    AgentSession.waitForCompletion "cmd-1" (Some withoutPause) threePolls 0 leasedSession
      = Some (r, st) /\
    AgentSession.wt_session st = leasedSession /\
    AgentSession.wt_effects st =
      List.map (fun cursor =>
                  AgentSession.Fetch
                    (AgentSession.logsUrl (execUrl (mkItem "http://sb-1/" "sb-1"))
                                          "cmd-1" cursor))
               (AgentSession.wt_asked st).
Proof.
  apply (waitForCompletion_keeps_lease "cmd-1" (Some withoutPause) threePolls 0
           leasedSession (mkItem "http://sb-1/" "sb-1") "tok-1"); reflexivity.
Defined.

(** X6: whatever the pool, the callback and the sandbox answer, [exec]
    sends a request only to the sandbox the session holds afterwards:
    every request goes to [`${execUrl}/exec`] of the stored item, and
    without a lease no sandbox is contacted. *)
Theorem exec_contacts_only_leased_sandbox :
  forall (borrowed : result SandboxBorrowOutput) (persisted : result unit) (now : Z)
         (fetched : result (Http.response ExecResponse)) (s : AgentSession.t) (url : string),
    let '(_, s', tr) := AgentSession.exec borrowed persisted now fetched s in
    In (AgentSession.Fetch url) tr ->
    AgentSession.hasSandbox s' = true /\
    exists it, item (AgentSession.data s') = Some it /\ url = (execUrl it ++ "/exec")%string.
Proof.
  intros borrowed persisted now fetched s url.
  unfold AgentSession.exec, AgentSession.ensureSandbox, AgentSession.notify,
    AgentSession.hasSandbox.
  destruct (item (AgentSession.data s)) as [it|] eqn:Hit,
           (borrowToken (AgentSession.data s)) as [tok|] eqn:Htok;
    try (destruct borrowed as [b|e];
         [destruct (AgentSession.onSessionDataChange s); [destruct persisted|]|]);
    cbn; rewrite ?Hit, ?Htok; cbn;
    intros Hin;
    repeat (destruct Hin as [Hin|Hin]; try discriminate; try contradiction);
    injection Hin as <-; split; try reflexivity; eexists; split; reflexivity.
Qed.

(** ** Pool client *)

(** X7: [waitForOperation] ends, whatever the poll interval, the budget
    and the answers are, and it resolves only with a terminal status: the
    status it returns is, letter case apart, [succeeded] or [failed]; a
    pending or in-progress answer is never returned. *)
Theorem waitForOperation_resolves_terminal :
  forall (sdk : ObjectPoolSdk.t) (operationId : string) (timeoutOpt : option Z)
         (ops : ObjectPoolSdk.operations) (now : Z),
    exists res,
      ObjectPoolSdk.waitForOperation sdk operationId timeoutOpt ops now = Some res /\
      forall status, res = Ok status ->
        ObjectPoolSdk.toLowerCase (os_status status) = "succeeded" \/
        ObjectPoolSdk.toLowerCase (os_status status) = "failed".
Proof.
  intros sdk operationId timeoutOpt ops now.
  unfold ObjectPoolSdk.waitForOperation.
  match goal with
  | |- context [Poll.run ?body ?start ?timeout ?interval ?n ?init] =>
      destruct (run_total body start timeout interval init (timerDelay_pos _)) as [ex Hrun];
      pose proof (loop_invariant body start timeout interval (fun _ _ _ => True)
                    (fun _ _ _ _ _ _ _ _ => I) _ _ _ _ _ I Hrun) as Hexit
  end.
  rewrite Hrun.
  destruct ex as [u t|r u t|x u t]; eexists; (split; [reflexivity|]);
    intros status Hres; try discriminate.
  injection Hres as <-.
  destruct Hexit as (i & t0 & u0 & took & _ & _ & Hbody & _).
  unfold ObjectPoolSdk.waitBody in Hbody.
  destruct (ops i) as [took' fetched].
  destruct (ObjectPoolSdk.getOperationStatus fetched) as [st|e]; [|discriminate].
  destruct (String.eqb_spec (ObjectPoolSdk.toLowerCase (os_status st)) "succeeded") as [Hs|_].
  - cbn in Hbody. injection Hbody as _ <- _. left. exact Hs.
  - destruct (String.eqb_spec (ObjectPoolSdk.toLowerCase (os_status st)) "failed") as [Hf|_].
    + cbn in Hbody. injection Hbody as _ <- _. right. exact Hf.
    + discriminate.
Qed.

Lemma waitForOperation_resolves_terminal_witness :
  exists res,
    ObjectPoolSdk.waitForOperation eagerSdk "op-1" (Some 1000) slowOperation 0 = Some res /\
    forall status, res = Ok status ->
      ObjectPoolSdk.toLowerCase (os_status status) = "succeeded" \/
      ObjectPoolSdk.toLowerCase (os_status status) = "failed".
Proof.
  apply (waitForOperation_resolves_terminal eagerSdk "op-1" (Some 1000) slowOperation 0).
Defined.

(** That wait, with a poll interval of 0: the third poll is reached and
    its answer is returned. *)
Lemma slowOperation_run :
  ObjectPoolSdk.waitForOperation eagerSdk "op-1" (Some 1000) slowOperation 0 =
  Some (Ok (mkOperationStatus "Succeeded")).
Proof. vm_compute. reflexivity. Qed.

(** X8: with a default budget that is not positive (a poll interval or a
    number of attempts of zero), [waitForOperation] rejects with the
    timeout error at once, without asking for the operation's status,
    even when the operation has ended. *)
Theorem waitForOperation_without_budget :
  forall (sdk : ObjectPoolSdk.t) (operationId : string)
         (ops : ObjectPoolSdk.operations) (now : Z),
    ObjectPoolSdk.pollIntervalMs sdk * ObjectPoolSdk.maxPollAttempts sdk <= 0 ->
    ObjectPoolSdk.waitForOperation sdk operationId None ops now =
    Some (Throw (Error ("Operation " ++ operationId ++ " timed out after "
                          ++ show (ObjectPoolSdk.pollIntervalMs sdk
                                   * ObjectPoolSdk.maxPollAttempts sdk) ++ "ms"))).
Proof.
  intros sdk operationId ops now Hbudget.
  unfold ObjectPoolSdk.waitForOperation, Poll.run, Poll.fuelFor. cbn [Poll.loop].
  rewrite Z.sub_diag.
  destruct (Z.ltb_spec 0 (ObjectPoolSdk.pollIntervalMs sdk
                          * ObjectPoolSdk.maxPollAttempts sdk)); [lia|reflexivity].
Qed.

Lemma waitForOperation_without_budget_witness :
  ObjectPoolSdk.waitForOperation noBudgetSdk "op-1" None failedOperation 0 =
  Some (Throw (Error ("Operation " ++ "op-1" ++ " timed out after "
                        ++ show (ObjectPoolSdk.pollIntervalMs noBudgetSdk
                                 * ObjectPoolSdk.maxPollAttempts noBudgetSdk) ++ "ms"))).
Proof.
  apply (waitForOperation_without_budget noBudgetSdk "op-1" failedOperation 0).
  cbn. lia.
Defined.

(** X9: a return the pool accepts whose operation then ends as failed
    still resolves [returnAndWait], so [releaseSandbox] resets the
    session: the lease is given up although the return operation
    failed. *)
Theorem failed_operation_still_releases :
  forall (sdk : ObjectPoolSdk.t) (accepted : Http.response OperationRef)
         (ref : OperationRef) (ops : ObjectPoolSdk.operations) (now : Z)
         (took : N) (answer : Http.response OperationStatusOutput)
         (status : OperationStatusOutput) (persisted : result unit)
         (s : AgentSession.t),
    Http.ok accepted = true ->
    Http.json accepted = Ok ref ->
    0 < ObjectPoolSdk.pollIntervalMs sdk * ObjectPoolSdk.maxPollAttempts sdk ->
    ops O = (took, Ok answer) ->
    Http.ok answer = true ->
    Http.json answer = Ok status ->
    ObjectPoolSdk.toLowerCase (os_status status) = "failed" ->
    AgentSession.hasSandbox s = true ->
    ObjectPoolSdk.returnAndWait sdk (Ok accepted) None ops now = Some (Ok status) /\
    let '(_, s', _) := AgentSession.releaseSandbox (Ok status) persisted s in
    AgentSession.hasSandbox s' = false /\
    AgentSession.data s' = AgentSession.emptyData (AgentSession.this_sessionId s).
Proof.
  intros sdk accepted ref ops now took answer status persisted s
         Hok Hjson Hbudget Hops Hok' Hjson' Hfailed Hhas.
  split.
  - unfold ObjectPoolSdk.returnAndWait, ObjectPoolSdk.return_. cbn [bind].
    rewrite Hok, Hjson. cbn [negb].
    unfold ObjectPoolSdk.waitForOperation, Poll.run, Poll.fuelFor. cbn [Poll.loop].
    rewrite Z.sub_diag.
    destruct (Z.ltb_spec 0 (ObjectPoolSdk.pollIntervalMs sdk
                            * ObjectPoolSdk.maxPollAttempts sdk)); [|lia].
    unfold ObjectPoolSdk.waitBody, ObjectPoolSdk.getOperationStatus.
    rewrite Hops. cbn [bind]. rewrite Hok', Hjson'. cbn [negb].
    rewrite Hfailed. reflexivity.
  - pose proof (releaseSandbox_resolved s status persisted Hhas) as Hreset.
    destruct (AgentSession.releaseSandbox (Ok status) persisted s) as [[r s'] tr].
    destruct Hreset. auto.
Qed.

Lemma failed_operation_still_releases_witness :
  ObjectPoolSdk.returnAndWait defaultSdk acceptedReturn None failedOperation 0
    = Some (Ok (mkOperationStatus "Failed")) /\
  let '(_, s', _) :=
    AgentSession.releaseSandbox (Ok (mkOperationStatus "Failed")) (Ok tt) leasedSession in
  AgentSession.hasSandbox s' = false /\
  AgentSession.data s' = AgentSession.emptyData (AgentSession.this_sessionId leasedSession).
Proof.
  apply (failed_operation_still_releases defaultSdk
           (Http.mkResponse 200 "OK" (Ok (mkOperationRef "op-1")))
           (mkOperationRef "op-1") failedOperation 0 100%N
           (Http.mkResponse 200 "OK" (Ok (mkOperationStatus "Failed")))
           (mkOperationStatus "Failed") (Ok tt) leasedSession);
    try reflexivity.
Defined.

Lemma stripTrailingSlash_added (u : string) :
  ObjectPoolSdk.stripTrailingSlash (u ++ "/") = u.
Proof.
  induction u as [|c u IH]; [reflexivity|].
  cbn [append]. destruct (u ++ "/")%string as [|a rest] eqn:Hu.
  - destruct u; discriminate.
  - change (String c (ObjectPoolSdk.stripTrailingSlash (String a rest)) = String c u).
    rewrite IH. reflexivity.
Qed.

Lemma stripTrailingSlash_cases (s : string) :
  ObjectPoolSdk.stripTrailingSlash s = s \/
  s = (ObjectPoolSdk.stripTrailingSlash s ++ "/")%string.
Proof.
  induction s as [|c s IH]; [left; reflexivity|].
  cbn [ObjectPoolSdk.stripTrailingSlash]. destruct s as [|d s].
  - destruct (Ascii.eqb_spec c "/"%char) as [->|_]; [right|left]; reflexivity.
  - destruct IH as [IH|IH]; [left|right].
    + rewrite IH. reflexivity.
    + cbn [append]. rewrite <- IH. reflexivity.
Qed.

(** X10: the constructor stores the base URL less one final slash: a
    URL configured with a slash added at the end gives the same client as
    the URL itself would when it has none, and in every case the stored
    URL is the configured one or the configured one without its last
    slash; the three numeric settings default to 30, 2000 and 1800 only
    when absent (a configured 0 is kept). *)
Theorem constructor_normalizes_baseUrl :
  forall (u : string) (waitSeconds interval attempts : option Z),
    ObjectPoolSdk.baseUrl
      (ObjectPoolSdk.new (ObjectPoolSdk.mkSdkConfig (u ++ "/") waitSeconds interval attempts))
      = u /\
    (ObjectPoolSdk.baseUrl
       (ObjectPoolSdk.new (ObjectPoolSdk.mkSdkConfig u waitSeconds interval attempts)) = u \/
     u = (ObjectPoolSdk.baseUrl
            (ObjectPoolSdk.new (ObjectPoolSdk.mkSdkConfig u waitSeconds interval attempts))
          ++ "/")%string) /\
    ObjectPoolSdk.pollIntervalMs
      (ObjectPoolSdk.new (ObjectPoolSdk.mkSdkConfig u waitSeconds (Some 0) attempts)) = 0 /\
    ObjectPoolSdk.pollIntervalMs
      (ObjectPoolSdk.new (ObjectPoolSdk.mkSdkConfig u waitSeconds None attempts)) = 2000.
Proof.
  intros u waitSeconds interval attempts. cbn.
  split; [apply stripTrailingSlash_added|].
  split; [apply stripTrailingSlash_cases|]. split; reflexivity.
Qed.

Lemma getObjectPoolSdkEach_built (envs : list (option string)) (sdk : ObjectPoolSdk.t) :
  ObjectPoolSdk.getObjectPoolSdkEach envs (Some sdk) =
  (List.map (fun _ => Ok sdk) envs, Some sdk).
Proof.
  induction envs as [|env envs IH]; cbn; [reflexivity|]. rewrite IH. reflexivity.
Qed.

(** X11: [getObjectPoolSdk] builds at most one client per process: over
    any sequence of calls, with the environment variable changing at
    will, every call that resolves returns the same client, built from
    the variable's value at the first call that found it set and
    non-empty; calls before that reject and leave nothing behind. *)
Theorem getObjectPoolSdk_is_singleton :
  forall (envs : list (option string)) (sdk1 sdk2 : ObjectPoolSdk.t),
    In (Ok sdk1) (fst (ObjectPoolSdk.getObjectPoolSdkEach envs None)) ->
    In (Ok sdk2) (fst (ObjectPoolSdk.getObjectPoolSdkEach envs None)) ->
    sdk1 = sdk2 /\
    snd (ObjectPoolSdk.getObjectPoolSdkEach envs None) = Some sdk1 /\
    exists before url after,
      envs = before ++ Some url :: after /\
      forallb (fun env => negb (truthy env)) before = true /\
      truthy (Some url) = true /\
      sdk1 = ObjectPoolSdk.new (ObjectPoolSdk.mkSdkConfig url None None None).
Proof.
  induction envs as [|env envs IH]; intros sdk1 sdk2 H1 H2; [contradiction|].
  cbn [ObjectPoolSdk.getObjectPoolSdkEach] in *.
  unfold ObjectPoolSdk.getObjectPoolSdk in *.
  destruct (truthy env) eqn:Henv; cbn [negb] in *.
  - destruct env as [url|]; [|discriminate].
    rewrite getObjectPoolSdkEach_built in *. cbn [fst snd] in *.
    assert (Hall : forall x, In (Ok x)
                     (Ok (ObjectPoolSdk.new (ObjectPoolSdk.mkSdkConfig url None None None))
                      :: List.map (fun _ => Ok (ObjectPoolSdk.new
                                     (ObjectPoolSdk.mkSdkConfig url None None None))) envs) ->
                   x = ObjectPoolSdk.new (ObjectPoolSdk.mkSdkConfig url None None None)).
    { intros x [Hx|Hx]; [congruence|].
      apply in_map_iff in Hx as (_ & Hx & _). congruence. }
    rewrite (Hall sdk1 H1), (Hall sdk2 H2).
    split; [reflexivity|]. split; [reflexivity|].
    exists [], url, envs. repeat split. exact Henv.
  - destruct (ObjectPoolSdk.getObjectPoolSdkEach envs None) as [rs final] eqn:Hrest.
    cbn [fst snd] in *.
    destruct H1 as [H1|H1]; [discriminate|].
    destruct H2 as [H2|H2]; [discriminate|].
    destruct (IH sdk1 sdk2 H1 H2)
      as (Heq & Hfinal & before & u & after & -> & Hb & Hu & Hsdk).
    split; [exact Heq|]. split; [exact Hfinal|].
    exists (env :: before), u, after. cbn [app forallb]. rewrite Henv. auto.
Qed.

Lemma getObjectPoolSdk_is_singleton_witness :
  ObjectPoolSdk.new (ObjectPoolSdk.mkSdkConfig "http://pool/" None None None) =
  ObjectPoolSdk.new (ObjectPoolSdk.mkSdkConfig "http://pool/" None None None) /\
  snd (ObjectPoolSdk.getObjectPoolSdkEach
         [None; Some ""; Some "http://pool/"; Some "http://other"] None)
    = Some (ObjectPoolSdk.new (ObjectPoolSdk.mkSdkConfig "http://pool/" None None None)) /\
  exists before url after,
    [None; Some ""; Some "http://pool/"; Some "http://other"] = before ++ Some url :: after /\
    forallb (fun env => negb (truthy env)) before = true /\
    truthy (Some url) = true /\
    ObjectPoolSdk.new (ObjectPoolSdk.mkSdkConfig "http://pool/" None None None) =
    ObjectPoolSdk.new (ObjectPoolSdk.mkSdkConfig url None None None).
Proof.
  apply (getObjectPoolSdk_is_singleton
           [None; Some ""; Some "http://pool/"; Some "http://other"]
           (ObjectPoolSdk.new (ObjectPoolSdk.mkSdkConfig "http://pool/" None None None))
           (ObjectPoolSdk.new (ObjectPoolSdk.mkSdkConfig "http://pool/" None None None))).
  - cbn. right. right. left. reflexivity.
  - cbn. right. right. right. left. reflexivity.
Defined.

(** ** Tools on a pooled sandbox *)

(** X12: the session [getAgentSession] builds holds a lease exactly when
    the stored row has a sandbox id, a URL and a token that are all set
    and non-empty (a row with an empty token counts as no lease), and its
    session id is the row's, or the chat id when there is no row. *)
Theorem getAgentSession_lease_iff_row_complete :
  forall (chatId : string) (loaded : result (option SandboxTools.SandboxSessionRow))
         (s : AgentSession.t),
    SandboxTools.getAgentSession chatId loaded = Ok s ->
    AgentSession.hasSandbox s =
      match loaded with
      | Ok (Some row) =>
          truthy (SandboxTools.row_sandboxId row)
          && truthy (SandboxTools.row_execUrl row)
          && truthy (SandboxTools.row_borrowToken row)
      | _ => false
      end /\
    AgentSession.this_sessionId s =
      match loaded with
      | Ok (Some row) => SandboxTools.row_sessionId row
      | _ => chatId
      end.
Proof.
  intros chatId loaded s. unfold SandboxTools.getAgentSession.
  destruct loaded as [[row|]|e]; cbn [bind]; [| |discriminate]; intros [= <-].
  - unfold AgentSession.new, AgentSession.hasSandbox; cbn.
    destruct (SandboxTools.row_sandboxId row) as [sid|],
             (SandboxTools.row_execUrl row) as [url|],
             (SandboxTools.row_borrowToken row) as [tok|]; cbn;
      rewrite ?andb_false_r; auto.
    destruct (negb (sid =? "")%string), (negb (url =? "")%string),
             (negb (tok =? "")%string); cbn; auto.
  - split; reflexivity.
Qed.

Lemma getAgentSession_lease_iff_row_complete_witness :
  AgentSession.hasSandbox
    (AgentSession.new (AgentSession.mkConfig "chat-1" true None)) =
    truthy (SandboxTools.row_sandboxId rowWithEmptyToken)
    && truthy (SandboxTools.row_execUrl rowWithEmptyToken)
    && truthy (SandboxTools.row_borrowToken rowWithEmptyToken) /\
  AgentSession.this_sessionId
    (AgentSession.new (AgentSession.mkConfig "chat-1" true None)) =
    SandboxTools.row_sessionId rowWithEmptyToken.
Proof.
  apply (getAgentSession_lease_iff_row_complete "chat-9"
           (Ok (Some rowWithEmptyToken))
           (AgentSession.new (AgentSession.mkConfig "chat-1" true None))).
  reflexivity.
Defined.

(** X13: whenever [clearSandboxState] reports success, the session it
    worked on holds no lease afterwards: either none was active, or the
    return and the persistence both went through. *)
Theorem cleared_session_has_no_lease :
  forall (chatId : string) (loaded : result (option SandboxTools.SandboxSessionRow))
         (returned : result OperationStatusOutput) (persisted : result unit),
    let '(c, after) :=
      SandboxTools.clearSandboxState chatId loaded returned persisted in
    SandboxTools.cl_success c = true ->
    exists s', after = Some s' /\ AgentSession.hasSandbox s' = false.
Proof.
  intros chatId loaded returned persisted. unfold SandboxTools.clearSandboxState.
  destruct (SandboxTools.getAgentSession chatId loaded) as [s|e]; [|discriminate].
  destruct (AgentSession.hasSandbox s) eqn:Hhas; cbn [negb].
  - destruct returned as [status|e].
    + pose proof (releaseSandbox_resolved s status persisted Hhas) as Hreset.
      destruct (AgentSession.releaseSandbox (Ok status) persisted s) as [[r s'] tr].
      destruct Hreset as [_ Hnone]. destruct r; [|discriminate].
      intros _. exists s'. auto.
    + pose proof (releaseSandbox_rejected s e persisted Hhas) as Hkept.
      destruct (AgentSession.releaseSandbox (Throw e) persisted s) as [[r s'] tr].
      destruct Hkept as [-> _]. discriminate.
  - intros _. exists s. auto.
Qed.

Lemma cleared_session_has_no_lease_witness :
  exists s',
    snd (SandboxTools.clearSandboxState "chat-1"
           (Ok (Some (SandboxTools.mkRow "chat-1" (Some "sb-1") (Some "http://sb-1/")
                                         (Some "tok-1") (Some 1000))))
           (Ok (mkOperationStatus "succeeded")) (Ok tt)) = Some s' /\
    AgentSession.hasSandbox s' = false.
Proof.
  apply (cleared_session_has_no_lease "chat-1"
           (Ok (Some (SandboxTools.mkRow "chat-1" (Some "sb-1") (Some "http://sb-1/")
                                         (Some "tok-1") (Some 1000))))
           (Ok (mkOperationStatus "succeeded")) (Ok tt)).
  reflexivity.
Defined.

(** X14: [getShellResult] reports success only for a row that some
    lookup found done with exit code 0; a row still running when the
    budget ends, or a missing row, is never reported as a success. *)
Theorem getShellResult_success_means_exit_zero :
  forall (streamId : string) (timeoutMs startTime : Z) (db : SandboxTools.reads)
         (r : SandboxTools.shellResult),
    SandboxTools.getShellResult streamId timeoutMs db startTime = Some (Ok r) ->
    SandboxTools.success r = true ->
    exists i stream,
      snd (db i) = Some stream /\
      ShellStream.done stream = true /\
      ShellStream.exitCode stream = Some 0.
Proof.
  intros streamId timeoutMs startTime db r Hres Hsuccess.
  destruct r as [sid|s sid c out err e|sid out err]; cbn in Hsuccess; try discriminate.
  subst s.
  destruct (getShellResult_finished _ _ _ _ _ _ _ _ _ _ Hres)
    as (Hzero & i & stream & Hfound & Hdone & Hcode & _).
  exists i, stream. repeat split; try assumption.
  rewrite <- Hcode. unfold SandboxTools.isZero in Hzero.
  destruct c as [n|]; [|discriminate].
  symmetry in Hzero. apply Z.eqb_eq in Hzero. subst n. reflexivity.
Qed.

Lemma getShellResult_success_means_exit_zero_witness :
  exists i stream,
    snd ((fun _ : nat => (0%N, Some doneWithErrorAndZero)) i) = Some stream /\
    ShellStream.done stream = true /\
    ShellStream.exitCode stream = Some 0.
Proof.
  apply (getShellResult_success_means_exit_zero "stream-1" 1000 0
           (fun _ => (0%N, Some doneWithErrorAndZero))
           (SandboxTools.doneResult "stream-1" doneWithErrorAndZero));
    reflexivity.
Defined.

(** X15: when every lookup finds the row and never finds it done,
    [getShellResult] ends when its budget does, with [success: false],
    the timeout error and the output of the row as a last lookup finds
    it. *)
Theorem getShellResult_times_out_on_running_row :
  forall (streamId : string) (timeoutMs startTime : Z) (db : SandboxTools.reads),
    (forall i, exists stream,
        snd (db i) = Some stream /\ ShellStream.done stream = false) ->
    exists n stream,
      snd (db n) = Some stream /\
      SandboxTools.getShellResult streamId timeoutMs db startTime =
        Some (Ok (SandboxTools.TimedOut streamId (ShellStream.stdout stream)
                                        (ShellStream.stderr stream))).
Proof.
  intros streamId timeoutMs startTime db Hrunning.
  unfold SandboxTools.getShellResult.
  destruct (run_total (SandboxTools.resultBody streamId db) startTime timeoutMs 500
                      O eq_refl) as [ex Hrun].
  pose proof (loop_invariant (SandboxTools.resultBody streamId db)
                startTime timeoutMs 500 (fun _ _ _ => True)
                (fun _ _ _ _ _ _ _ _ => I) _ _ _ _ _ I Hrun) as Hexit.
  rewrite Hrun. destruct ex as [polls now|r polls now|x polls now].
  - destruct (Hrunning polls) as (stream & Hfound & _).
    exists polls, stream. rewrite Hfound. auto.
  - exfalso. destruct Hexit as (i & now0 & s0 & took & _ & _ & Hbody & _).
    unfold SandboxTools.resultBody in Hbody.
    destruct (Hrunning i) as (stream & Hfound & Hnot).
    destruct (db i) as [took' found]. cbn in Hfound. subst found.
    rewrite Hnot in Hbody. discriminate.
  - exfalso. destruct Hexit as (i & now0 & s0 & took & _ & _ & Hbody & _).
    unfold SandboxTools.resultBody in Hbody.
    destruct (db i) as [took' [stream|]]; [destruct (ShellStream.done stream)|];
      discriminate.
Qed.

Lemma getShellResult_times_out_on_running_row_witness :
  exists n stream,
    snd (stillRunning n) = Some stream /\
    SandboxTools.getShellResult "stream-1" 1000 stillRunning 0 =
      Some (Ok (SandboxTools.TimedOut "stream-1" (ShellStream.stdout stream)
                                      (ShellStream.stderr stream))).
Proof.
  apply (getShellResult_times_out_on_running_row "stream-1" 1000 0 stillRunning).
  intros i. eexists. split; reflexivity.
Defined.

(** ** Pooled runner: what it writes *)

Lemma replay_stderrUntouched (ws : list ShellStream.patch) :
  forall r, stderrUntouched ws ->
    ShellStream.stderr (ShellStream.replay r ws) = ShellStream.stderr r.
Proof.
  induction ws as [|p ws IH]; intros r Hws; [reflexivity|].
  inversion Hws as [|p' ws' Hp Hrest]; subst.
  cbn [ShellStream.replay fold_left].
  change (ShellStream.stderr
            (ShellStream.replay (ShellStream.updateShellStream p r) ws) =
          ShellStream.stderr r).
  rewrite IH by assumption. cbn. rewrite Hp. reflexivity.
Qed.

Lemma stderrUntouched_snoc (ws : list ShellStream.patch) (p : ShellStream.patch) :
  stderrUntouched ws -> ShellStream.p_stderr p = None -> stderrUntouched (ws ++ [p]).
Proof.
  intros Hws Hp. apply Forall_app. split; [assumption|].
  constructor; [assumption|constructor].
Qed.

Lemma pollBody_stderrUntouched (w : SandboxTools.world) (i : nat) (now : Z)
  (v : SandboxTools.vars) :
  stderrUntouched (SandboxTools.written v) ->
  match SandboxTools.pollBody w i now v with
  | (_, Poll.Continue v') => stderrUntouched (SandboxTools.written v')
  | (_, Poll.Break _ v') => stderrUntouched (SandboxTools.written v')
  | (_, Poll.Raise _ v') => stderrUntouched (SandboxTools.written v')
  end.
Proof.
  intros Hv. unfold SandboxTools.pollBody.
  destruct (SandboxTools.w_logs w i (SandboxTools.v_offset v)) as [took [r|e]];
    [|assumption].
  assert (Hv1 : stderrUntouched
            (SandboxTools.written
               (if negb (String.eqb (logs r) (SandboxTools.lastStdout v))
                then SandboxTools.write (ShellStream.writeStdout (logs r))
                       (SandboxTools.mkVars (SandboxTools.v_offset v) (logs r)
                          (SandboxTools.written v))
                else v))).
  { destruct (negb _); [|assumption]. cbn. apply stderrUntouched_snoc; auto. }
  destruct (done r); cbn [SandboxTools.written SandboxTools.write].
  - apply stderrUntouched_snoc; auto.
  - assumption.
Qed.

(** X16: the pooled runner never writes [stderr]: whatever the backend
    answers and however the run ends, the row's [stderr] after the run is
    what it was before (empty on a fresh row); all output the backend
    reports goes to [stdout]. *)
Theorem pooled_runner_never_writes_stderr :
  forall (w : SandboxTools.world) (timeoutMs startTime : Z) (r0 : ShellStream.t),
    exists ran,
      SandboxTools.execute w timeoutMs startTime = Some ran /\
      Forall (fun p => ShellStream.p_stderr p = None) (SandboxTools.writes ran) /\
      ShellStream.stderr (recordAfter r0 ran) = ShellStream.stderr r0.
Proof.
  intros w timeoutMs startTime r0.
  destruct (execute_total w timeoutMs startTime) as [ran Hran].
  exists ran. split; [assumption|].
  assert (Hws : stderrUntouched (SandboxTools.writes ran)).
  { revert Hran. unfold SandboxTools.execute.
    destruct (SandboxTools.w_session w);
      [|intros [= <-]; cbn; repeat constructor].
    destruct (SandboxTools.w_exec w);
      [|intros [= <-]; cbn; repeat constructor].
    destruct (Poll.run _ _ _ _ _ _) as [ex|] eqn:Hrun; [|discriminate].
    assert (Hstep : forall i now v took v',
               stderrUntouched (SandboxTools.written v) ->
               now - startTime < timeoutMs ->
               SandboxTools.pollBody w i now v = (took, Poll.Continue v') ->
               stderrUntouched (SandboxTools.written v')).
    { intros i now v took v' Hv _ Hbody.
      pose proof (pollBody_stderrUntouched w i now v Hv) as Hone.
      rewrite Hbody in Hone. exact Hone. }
    assert (Hinit : stderrUntouched
              (SandboxTools.written (SandboxTools.mkVars (-1) "" []))) by constructor.
    pose proof (loop_invariant (SandboxTools.pollBody w) startTime timeoutMs 500
                  (fun _ _ v => stderrUntouched (SandboxTools.written v)) Hstep
                  _ _ _ _ _ Hinit Hrun) as Hexit.
    assert (Hcheck : forall now ws, stderrUntouched ws ->
               stderrUntouched
                 (SandboxTools.writes (SandboxTools.checkTimeout startTime timeoutMs now ws))).
    { intros now ws Hok. unfold SandboxTools.checkTimeout.
      destruct (_ >=? _); cbn; [apply stderrUntouched_snoc; auto|assumption]. }
    destruct ex as [v now|u v now|x v now]; intros [= <-].
    - destruct Hexit as (_ & Hv & _). apply Hcheck, Hv.
    - destruct Hexit as (i & now0 & v0 & took & Hv & _ & Hbody & _).
      pose proof (pollBody_stderrUntouched w i now0 v0 Hv) as Hone.
      rewrite Hbody in Hone. apply Hcheck, Hone.
    - destruct Hexit as (i & now0 & v0 & took & Hv & _ & Hbody & _).
      pose proof (pollBody_stderrUntouched w i now0 v0 Hv) as Hone.
      rewrite Hbody in Hone. cbn. apply stderrUntouched_snoc; auto. }
  split; [exact Hws|]. apply replay_stderrUntouched, Hws.
Qed.

Lemma pollBody_paced (w : SandboxTools.world) (startTime timeoutMs : Z)
  (i : nat) (now : Z) (v : SandboxTools.vars) :
  paced startTime timeoutMs i now v ->
  now - startTime < timeoutMs ->
  match SandboxTools.pollBody w i now v with
  | (took, Poll.Continue v') =>
      paced startTime timeoutMs (S i) (now + Z.of_N took + 500) v'
  | (_, Poll.Break _ v') => (List.length (SandboxTools.written v') <= i + 2)%nat
  | (_, Poll.Raise _ v') => (List.length (SandboxTools.written v') <= i)%nat
  end.
Proof.
  intros (Hlen & Hclock & Hprev) Hinside. unfold SandboxTools.pollBody.
  destruct (SandboxTools.w_logs w i (SandboxTools.v_offset v)) as [took [r|e]];
    [|assumption].
  assert (Hv1 : (List.length
            (SandboxTools.written
               (if negb (String.eqb (logs r) (SandboxTools.lastStdout v))
                then SandboxTools.write (ShellStream.writeStdout (logs r))
                       (SandboxTools.mkVars (SandboxTools.v_offset v) (logs r)
                          (SandboxTools.written v))
                else v)) <= S i)%nat).
  { destruct (negb _); cbn; rewrite ?length_app; cbn; lia. }
  destruct (done r); cbn [SandboxTools.written SandboxTools.write].
  - rewrite length_app. cbn. lia.
  - unfold paced. cbn [SandboxTools.written]. split; [assumption|]. split; lia.
Qed.

(** X17: a run of the pooled runner makes a bounded number of writes to
    its row: at most one per poll, and the polls being 500 ms apart
    inside the budget, never more than [timeoutMs / 500 + 3], however
    the backend behaves. *)
Theorem pooled_runner_writes_are_bounded :
  forall (w : SandboxTools.world) (timeoutMs startTime : Z),
    exists ran,
      SandboxTools.execute w timeoutMs startTime = Some ran /\
      (List.length (SandboxTools.writes ran) <= Z.to_nat (timeoutMs / 500) + 3)%nat.
Proof.
  intros w timeoutMs startTime.
  destruct (execute_total w timeoutMs startTime) as [ran Hran].
  exists ran. split; [assumption|].
  revert Hran. unfold SandboxTools.execute.
  destruct (SandboxTools.w_session w); [|intros [= <-]; cbn; lia].
  destruct (SandboxTools.w_exec w); [|intros [= <-]; cbn; lia].
  destruct (Poll.run _ _ _ _ _ _) as [ex|] eqn:Hrun; [|discriminate].
  assert (Hstep : forall i now v took v',
             paced startTime timeoutMs i now v ->
             now - startTime < timeoutMs ->
             SandboxTools.pollBody w i now v = (took, Poll.Continue v') ->
             paced startTime timeoutMs (S i) (now + Z.of_N took + 500) v').
  { intros i now v took v' Hv Hin Hbody.
    pose proof (pollBody_paced w startTime timeoutMs i now v Hv Hin) as Hone.
    rewrite Hbody in Hone. exact Hone. }
  assert (Hinit : paced startTime timeoutMs O startTime (SandboxTools.mkVars (-1) "" [])).
  { unfold paced. cbn. split; [lia|]. split; [lia|auto]. }
  pose proof (loop_invariant (SandboxTools.pollBody w) startTime timeoutMs 500
                (fun i now v => paced startTime timeoutMs i now v) Hstep
                _ _ _ _ _ Hinit Hrun) as Hexit.
  assert (Hcheck : forall now ws,
             (List.length (SandboxTools.writes
                             (SandboxTools.checkTimeout startTime timeoutMs now ws))
              <= List.length ws + 1)%nat).
  { intros now ws. unfold SandboxTools.checkTimeout.
    destruct (_ >=? _); cbn; rewrite ?length_app; cbn; lia. }
  assert (Hdiv : forall i : nat, 500 * Z.of_nat i < timeoutMs ->
                                 (i <= Z.to_nat (timeoutMs / 500))%nat).
  { intros i Hi.
    assert (Z.of_nat i <= timeoutMs / 500) by (apply Z.div_le_lower_bound; lia).
    lia. }
  destruct ex as [v now|u v now|x v now]; intros [= <-].
  - destruct Hexit as (i & (Hlen & _ & Hprev) & _).
    specialize (Hcheck now (SandboxTools.written v)).
    destruct i as [|i]; [lia|].
    destruct Hprev as [Hprev|Hprev]; [discriminate|].
    assert (Hi : (i <= Z.to_nat (timeoutMs / 500))%nat) by (apply Hdiv; lia).
    lia.
  - destruct Hexit as (i & now0 & v0 & took & Hv & Hin & Hbody & _).
    pose proof (pollBody_paced w startTime timeoutMs i now0 v0 Hv Hin) as Hone.
    rewrite Hbody in Hone. destruct Hv as (_ & Hclock & _).
    specialize (Hcheck now (SandboxTools.written v)).
    assert (Hi : (i <= Z.to_nat (timeoutMs / 500))%nat) by (apply Hdiv; lia).
    lia.
  - destruct Hexit as (i & now0 & v0 & took & Hv & Hin & Hbody & _).
    pose proof (pollBody_paced w startTime timeoutMs i now0 v0 Hv Hin) as Hone.
    rewrite Hbody in Hone. destruct Hv as (_ & Hclock & _).
    assert (Hi : (i <= Z.to_nat (timeoutMs / 500))%nat) by (apply Hdiv; lia).
    unfold SandboxTools.catchBlock. cbn [SandboxTools.writes].
    rewrite length_app. cbn. lia.
Qed.

(** X18: a completion the backend reports without an exit code is
    recorded with exit code 0: when the first poll answers inside the
    budget that the command is done and gives no [exitCode], the fresh
    row ends done with [exitCode = 0], no error and the reported output,
    and [getShellResult]'s result for that row is a success. *)
Theorem missing_exit_code_counts_as_success :
  forall (w : SandboxTools.world) (timeoutMs startTime : Z) (took : N) (r : LogsResponse)
         (id sessionId chatId command : string) (created : Z),
    SandboxTools.w_session w = Ok tt ->
    (exists started, SandboxTools.w_exec w = Ok started) ->
    SandboxTools.w_logs w O (-1) = (took, Ok r) ->
    done r = true ->
    lr_exitCode r = None ->
    Z.of_N took < timeoutMs ->
    exists ran,
      SandboxTools.execute w timeoutMs startTime = Some ran /\
      let row :=
        recordAfter (ShellStream.createShellStream id sessionId chatId command created)
                    ran in
      ShellStream.done row = true /\
      ShellStream.exitCode row = Some 0 /\
      ShellStream.error row = None /\
      ShellStream.stdout row = logs r /\
      SandboxTools.success (SandboxTools.doneResult id row) = true.
Proof.
  intros w timeoutMs startTime took r id sessionId chatId command created
         Hsession [started Hexec] Hfirst Hdone Hcode Hintime.
  unfold SandboxTools.execute. rewrite Hsession, Hexec.
  unfold Poll.run, Poll.fuelFor. cbn [Poll.loop]. rewrite Z.sub_diag.
  destruct (Z.ltb_spec 0 timeoutMs) as [_|Hle]; [|lia].
  unfold SandboxTools.pollBody. cbn [SandboxTools.v_offset].
  rewrite Hfirst, Hdone, Hcode. unfold SandboxTools.checkTimeout.
  destruct (Z.geb_spec (startTime + Z.of_N took - startTime) timeoutMs) as [Hlate|_];
    [lia|].
  eexists. split; [reflexivity|].
  unfold recordAfter. cbn [SandboxTools.writes SandboxTools.lastStdout].
  destruct (negb (String.eqb (logs r) "")); cbn; repeat split.
Qed.

Lemma missing_exit_code_counts_as_success_witness :
  exists ran,
    SandboxTools.execute doneWithoutCode 1000 0 = Some ran /\
    let row :=
      recordAfter (ShellStream.createShellStream "stream-1" "chat-1" "chat-1" "true" 0)
                  ran in
    ShellStream.done row = true /\
    ShellStream.exitCode row = Some 0 /\
    ShellStream.error row = None /\
    ShellStream.stdout row = logs (mkLogs "hi" 2 true None) /\
    SandboxTools.success (SandboxTools.doneResult "stream-1" row) = true.
Proof.
  apply (missing_exit_code_counts_as_success doneWithoutCode 1000 0 20%N
           (mkLogs "hi" 2 true None) "stream-1" "chat-1" "chat-1" "true" 0);
    try reflexivity.
  eexists; reflexivity.
Defined.

(** ** Container runner and its volumes *)

Lemma sanitize_char (c : ascii) :
  let c' := ObjectPoolSdk.lowerAscii (if ExecShell.isVolumeChar c then c else "-"%char) in
  isLowerVolumeChar c' = true /\
  ObjectPoolSdk.lowerAscii (if ExecShell.isVolumeChar c' then c' else "-"%char) = c'.
Proof.
  destruct c as [[|] [|] [|] [|] [|] [|] [|] [|]]; split; reflexivity.
Qed.

Lemma sanitizeVolumeName_cons (c : ascii) (rest : string) :
  ExecShell.sanitizeVolumeName (String c rest) =
  String (ObjectPoolSdk.lowerAscii (if ExecShell.isVolumeChar c then c else "-"%char))
         (ExecShell.sanitizeVolumeName rest).
Proof. reflexivity. Qed.

Lemma sanitizeVolumeName_safe (name : string) :
  allChars isLowerVolumeChar (ExecShell.sanitizeVolumeName name) = true /\
  String.length (ExecShell.sanitizeVolumeName name) = String.length name.
Proof.
  induction name as [|c rest [IHsafe IHlen]]; [split; reflexivity|].
  rewrite sanitizeVolumeName_cons. cbn [allChars String.length].
  destruct (sanitize_char c) as [Hc _]. cbn zeta in Hc. rewrite Hc, IHsafe, IHlen.
  split; reflexivity.
Qed.

(** X19: [sanitizeVolumeName] yields a name of the same length made only
    of lower-case letters, digits and hyphens, and sanitizing a sanitized
    name changes nothing. *)
Theorem sanitizeVolumeName_is_safe_and_idempotent :
  forall name : string,
    allChars isLowerVolumeChar (ExecShell.sanitizeVolumeName name) = true /\
    String.length (ExecShell.sanitizeVolumeName name) = String.length name /\
    ExecShell.sanitizeVolumeName (ExecShell.sanitizeVolumeName name) =
      ExecShell.sanitizeVolumeName name.
Proof.
  intros name. destruct (sanitizeVolumeName_safe name) as [Hsafe Hlen].
  split; [assumption|]. split; [assumption|].
  clear Hsafe Hlen. induction name as [|c rest IH]; [reflexivity|].
  rewrite !sanitizeVolumeName_cons, IH.
  destruct (sanitize_char c) as [_ Hc]. cbn zeta in Hc. rewrite Hc. reflexivity.
Qed.

(** X20: with a client at hand, the container [clearSandboxState] always
    reports success, whether the volume deletion resolves or rejects; the
    volume it names when the deletion resolved is [home-] and the session
    id, sanitized: made of lower-case letters, digits and hyphens only. *)
Theorem container_clear_always_succeeds :
  forall (sessionId : string) (deleted : result unit),
    let c := ExecShell.clearSandboxState sessionId (Ok tt) deleted in
    ExecShell.cv_success c = true /\
    ExecShell.cv_error c = None /\
    forall name,
      ExecShell.cv_clearedVolume c = Some name ->
      (exists u, deleted = Ok u) /\
      name = ExecShell.sanitizeVolumeName ("home-" ++ sessionId) /\
      allChars isLowerVolumeChar name = true.
Proof.
  intros sessionId [u|e]; cbn; repeat split; try discriminate.
  - exists u. reflexivity.
  - injection H as <-. reflexivity.
  - injection H as <-. apply sanitizeVolumeName_safe.
Qed.

Lemma string_append_assoc (a b c : string) :
  ((a ++ b) ++ c)%string = (a ++ (b ++ c))%string.
Proof. induction a as [|x a IH]; cbn; [reflexivity|]. rewrite IH. reflexivity. Qed.

Lemma string_append_nil_r (a : string) : (a ++ "")%string = a.
Proof. induction a as [|x a IH]; cbn; [reflexivity|]. rewrite IH. reflexivity. Qed.

Lemma readBoth_collects (chunks : list (ExecShell.streamKind * string)) :
  forall out err,
    snd (fst (ExecShell.readBoth out err chunks)) =
      (out ++ collect ExecShell.Stdout chunks)%string /\
    snd (ExecShell.readBoth out err chunks) =
      (err ++ collect ExecShell.Stderr chunks)%string.
Proof.
  induction chunks as [|[[|] value] rest IH]; intros out err; cbn [ExecShell.readBoth collect].
  - rewrite !string_append_nil_r. split; reflexivity.
  - specialize (IH (out ++ value)%string err).
    destruct (ExecShell.readBoth (out ++ value) err rest) as [[ws o] e].
    cbn [fst snd] in *. rewrite <- string_append_assoc. exact IH.
  - specialize (IH out (err ++ value)%string).
    destruct (ExecShell.readBoth out (err ++ value) rest) as [[ws o] e].
    cbn [fst snd] in *. rewrite <- string_append_assoc. exact IH.
Qed.

Lemma readBoth_writes_output_only (chunks : list (ExecShell.streamKind * string)) :
  forall out err,
    Forall (fun p => ShellStream.p_error p = None)
           (fst (fst (ExecShell.readBoth out err chunks))).
Proof.
  induction chunks as [|[[|] value] rest IH]; intros out err; cbn [ExecShell.readBoth].
  - constructor.
  - specialize (IH (out ++ value)%string err).
    destruct (ExecShell.readBoth (out ++ value) err rest) as [[ws o] e].
    constructor; [reflexivity|exact IH].
  - specialize (IH out (err ++ value)%string).
    destruct (ExecShell.readBoth out (err ++ value) rest) as [[ws o] e].
    constructor; [reflexivity|exact IH].
Qed.

Lemma replay_keeps_error (ws : list ShellStream.patch) :
  forall r, Forall (fun p => ShellStream.p_error p = None) ws ->
    ShellStream.error (ShellStream.replay r ws) = ShellStream.error r.
Proof.
  induction ws as [|p ws IH]; intros r Hws; [reflexivity|].
  inversion Hws as [|p' ws' Hp Hrest]; subst.
  cbn [ShellStream.replay fold_left].
  change (ShellStream.error
            (ShellStream.replay (ShellStream.updateShellStream p r) ws) =
          ShellStream.error r).
  rewrite IH by assumption. cbn. rewrite Hp. reflexivity.
Qed.

(** X21: when nothing fails, the container runner leaves the fresh row
    done, with the exit code of the command, no error, and in [stdout]
    and [stderr] the chunks of each stream put together in the order
    they were read: interleaved reads of the two streams do not mix
    them. *)
Theorem container_run_collects_output :
  forall (w : ExecShell.world) (code : Z) (r0 : ShellStream.t),
    ExecShell.w_setup w = Ok tt ->
    ExecShell.w_prepare w = Ok tt ->
    ExecShell.w_readFailure w = None ->
    ExecShell.w_wait w = Ok code ->
    ExecShell.w_terminate w = Ok tt ->
    let row := recordAfter r0 (ExecShell.execute w) in
    SandboxTools.caught (ExecShell.execute w) = None /\
    ShellStream.stdout row = collect ExecShell.Stdout (ExecShell.w_chunks w) /\
    ShellStream.stderr row = collect ExecShell.Stderr (ExecShell.w_chunks w) /\
    ShellStream.exitCode row = Some code /\
    ShellStream.done row = true /\
    ShellStream.error row = ShellStream.error r0.
Proof.
  intros w code r0 Hsetup Hprepare Hread Hwait Hterminate.
  unfold ExecShell.execute, ExecShell.execShellInSandboxStreaming, ExecShell.tryBlock,
    recordAfter.
  rewrite Hsetup, Hprepare, Hread, Hwait, Hterminate.
  pose proof (readBoth_collects (ExecShell.w_chunks w) "" "") as [Hout Herr].
  pose proof (readBoth_writes_output_only (ExecShell.w_chunks w) "" "") as Hquiet.
  destruct (ExecShell.readBoth "" "" (ExecShell.w_chunks w)) as [[ws out] err].
  cbn [fst snd append] in Hout, Herr, Hquiet. subst out err.
  cbn [SandboxTools.writes SandboxTools.caught]. rewrite replay_snoc.
  repeat split. cbn. apply replay_keeps_error, Hquiet.
Qed.

Lemma container_run_collects_output_witness :
  let row := recordAfter freshRow (ExecShell.execute containerRun) in
  SandboxTools.caught (ExecShell.execute containerRun) = None /\
  ShellStream.stdout row = collect ExecShell.Stdout (ExecShell.w_chunks containerRun) /\
  ShellStream.stderr row = collect ExecShell.Stderr (ExecShell.w_chunks containerRun) /\
  ShellStream.exitCode row = Some 0 /\
  ShellStream.done row = true /\
  ShellStream.error row = ShellStream.error freshRow.
Proof.
  apply (container_run_collects_output containerRun 0 freshRow); reflexivity.
Defined.

Lemma readLoop_prefixes (type : ExecShell.streamKind) (chunks : list string) :
  forall buffer,
    ExecShell.readLoop type buffer chunks =
    (List.map (fun k => ExecShell.writeBuffer type (buffer ++ firstChunks (S k) chunks))
              (List.seq 0 (List.length chunks)),
     (buffer ++ String.concat "" chunks)%string).
Proof.
  assert (Hconcat : forall (x : string) (l : list string),
             String.concat "" (x :: l) = (x ++ String.concat "" l)%string).
  { intros x [|y l]; cbn; [rewrite string_append_nil_r|]; reflexivity. }
  induction chunks as [|value rest IH]; intros buffer.
  - cbn. rewrite string_append_nil_r. reflexivity.
  - cbn [ExecShell.readLoop]. rewrite IH. cbn [List.length List.seq List.map].
    rewrite Hconcat, <- string_append_assoc. f_equal. f_equal.
    rewrite <- seq_shift, map_map. apply map_ext. intros k.
    unfold firstChunks. cbn [firstn]. rewrite Hconcat, string_append_assoc.
    reflexivity.
Qed.

(** X22: [readStream] writes once per chunk, the k-th write carrying the
    first k chunks put together, whether or not a later read rejects;
    when the stream ends normally it returns all chunks put together,
    which is also what its last write stored. *)
Theorem readStream_writes_growing_prefixes :
  forall (type : ExecShell.streamKind) (chunks : list string) (failure : option thrown),
    fst (ExecShell.readStream type chunks failure) =
      List.map (fun k => ExecShell.writeBuffer type (firstChunks (S k) chunks))
               (List.seq 0 (List.length chunks)) /\
    snd (ExecShell.readStream type chunks failure) =
      match failure with
      | Some e => Throw e
      | None => Ok (String.concat "" chunks)
      end.
Proof.
  intros type chunks failure. unfold ExecShell.readStream.
  rewrite readLoop_prefixes. cbn [fst snd append]. split; reflexivity.
Qed.

(** X23: when the command completes and [sb.terminate()] then rejects,
    the row keeps the exit code and the output and gains the error of the
    termination: it ends done with both [exitCode] and [error] set, and
    [getShellResult] reports it by its exit code alone. *)
Theorem failed_terminate_adds_error_to_completed_row :
  forall (w : ExecShell.world) (code : Z) (e : thrown) (r0 : ShellStream.t)
         (streamId : string),
    ExecShell.w_setup w = Ok tt ->
    ExecShell.w_prepare w = Ok tt ->
    ExecShell.w_readFailure w = None ->
    ExecShell.w_wait w = Ok code ->
    ExecShell.w_terminate w = Throw e ->
    let row := recordAfter r0 (ExecShell.execute w) in
    ShellStream.done row = true /\
    ShellStream.exitCode row = Some code /\
    ShellStream.error row = Some (messageOf "Unknown error" e) /\
    ShellStream.stdout row = collect ExecShell.Stdout (ExecShell.w_chunks w) /\
    SandboxTools.success (SandboxTools.doneResult streamId row) = (code =? 0).
Proof.
  intros w code e r0 streamId Hsetup Hprepare Hread Hwait Hterminate.
  unfold ExecShell.execute, ExecShell.execShellInSandboxStreaming, ExecShell.tryBlock,
    recordAfter.
  rewrite Hsetup, Hprepare, Hread, Hwait, Hterminate.
  pose proof (readBoth_collects (ExecShell.w_chunks w) "" "") as [Hout Herr].
  destruct (ExecShell.readBoth "" "" (ExecShell.w_chunks w)) as [[ws out] err].
  cbn [fst snd append] in Hout, Herr. subst out err.
  cbn [SandboxTools.writes]. rewrite !replay_snoc. repeat split.
Qed.

Lemma failed_terminate_adds_error_to_completed_row_witness :
  let row := recordAfter freshRow (ExecShell.execute terminateFails) in
  ShellStream.done row = true /\
  ShellStream.exitCode row = Some 0 /\
  ShellStream.error row = Some (messageOf "Unknown error" (Error "terminate failed")) /\
  ShellStream.stdout row = collect ExecShell.Stdout (ExecShell.w_chunks terminateFails) /\
  SandboxTools.success (SandboxTools.doneResult "stream-1" row) = (0 =? 0).
Proof.
  apply (failed_terminate_adds_error_to_completed_row terminateFails 0
           (Error "terminate failed") freshRow "stream-1"); reflexivity.
Defined.

(** ** Streaming bridge: how subscriptions end *)

Lemma sendEvent_grows (e : StreamRoute.event) (ch : StreamRoute.channel) :
  StreamRoute.closed (StreamRoute.sendEvent e ch) = StreamRoute.closed ch /\
  exists extra,
    StreamRoute.sent (StreamRoute.sendEvent e ch) = StreamRoute.sent ch ++ extra.
Proof.
  unfold StreamRoute.sendEvent.
  destruct (StreamRoute.isClientConnected ch), (StreamRoute.closed ch) eqn:Hc; cbn;
    (split; [auto|]); try (exists []; rewrite app_nil_r; reflexivity).
  exists [e]. reflexivity.
Qed.

Lemma sendEvent_disconnected (e : StreamRoute.event) (ch : StreamRoute.channel) :
  StreamRoute.isClientConnected ch = false -> StreamRoute.sendEvent e ch = ch.
Proof. intros H. unfold StreamRoute.sendEvent. rewrite H. reflexivity. Qed.

Lemma sendUpdates_grows (cur : ShellStream.t) (c : StreamRoute.cursor)
  (ch : StreamRoute.channel) :
  exists extra,
    StreamRoute.sent (snd (StreamRoute.sendUpdates cur c ch)) = StreamRoute.sent ch ++ extra.
Proof.
  unfold StreamRoute.sendUpdates.
  destruct (_ <? String.length (ShellStream.stdout cur))%nat;
    destruct (_ <? String.length (ShellStream.stderr cur))%nat; cbn [snd].
  - match goal with
    | |- context [StreamRoute.sendEvent ?e2 (StreamRoute.sendEvent ?e1 ch)] =>
        destruct (sendEvent_grows e1 ch) as (_ & x1 & H1);
        destruct (sendEvent_grows e2 (StreamRoute.sendEvent e1 ch)) as (_ & x2 & H2)
    end.
    exists (x1 ++ x2). rewrite H2, H1, app_assoc. reflexivity.
  - match goal with
    | |- context [StreamRoute.sendEvent ?e1 ch] =>
        destruct (sendEvent_grows e1 ch) as (_ & x1 & H1)
    end.
    exists x1. exact H1.
  - match goal with
    | |- context [StreamRoute.sendEvent ?e1 ch] =>
        destruct (sendEvent_grows e1 ch) as (_ & x1 & H1)
    end.
    exists x1. exact H1.
  - exists []. rewrite app_nil_r. reflexivity.
Qed.

Lemma pollOnce_grows (t : StreamRoute.tick) (c : StreamRoute.cursor)
  (ch : StreamRoute.channel) :
  let '(_, ch', again) := StreamRoute.pollOnce t c ch in
  (again = false -> StreamRoute.closed ch' = true) /\
  exists extra, StreamRoute.sent ch' = StreamRoute.sent ch ++ extra.
Proof.
  unfold StreamRoute.pollOnce.
  set (ch0 := if StreamRoute.cancelledDuring t then StreamRoute.cancel ch else ch).
  assert (H0 : StreamRoute.sent ch0 = StreamRoute.sent ch)
    by (subst ch0; destruct (StreamRoute.cancelledDuring t); reflexivity).
  destruct (StreamRoute.fetched t) as [[cur|]|e].
  - pose proof (sendUpdates_grows cur c ch0) as (x & Hx).
    destruct (StreamRoute.sendUpdates cur c ch0) as [c' ch1]. cbn [snd] in Hx.
    destruct (ShellStream.done cur).
    + split; [reflexivity|].
      match goal with
      | |- context [StreamRoute.sendEvent ?e2 (StreamRoute.sendEvent ?e1 ch1)] =>
          destruct (sendEvent_grows e1 ch1) as (_ & x1 & H1);
          destruct (sendEvent_grows e2 (StreamRoute.sendEvent e1 ch1)) as (_ & x2 & H2)
      end.
      exists (x ++ x1 ++ x2). cbn [StreamRoute.close StreamRoute.sent].
      rewrite H2, H1, Hx, H0, <- !app_assoc. reflexivity.
    + split; [discriminate|]. exists x. rewrite Hx, H0. reflexivity.
  - split; [reflexivity|].
    match goal with
    | |- context [StreamRoute.sendEvent ?e1 ch0] =>
        destruct (sendEvent_grows e1 ch0) as (_ & x1 & H1)
    end.
    exists x1. cbn [StreamRoute.close StreamRoute.sent]. rewrite H1, H0. reflexivity.
  - split; [reflexivity|].
    match goal with
    | |- context [StreamRoute.sendEvent ?e1 ch0] =>
        destruct (sendEvent_grows e1 ch0) as (_ & x1 & H1)
    end.
    exists x1. cbn [StreamRoute.close StreamRoute.sent]. rewrite H1, H0. reflexivity.
Qed.

Lemma poll_closes (remaining : nat) :
  forall pollCount ticks c ch,
    StreamRoute.closed (StreamRoute.poll remaining pollCount ticks c ch) = true /\
    exists extra,
      StreamRoute.sent (StreamRoute.poll remaining pollCount ticks c ch)
      = StreamRoute.sent ch ++ extra.
Proof.
  induction remaining as [|remaining IH]; intros pollCount ticks c ch;
    cbn [StreamRoute.poll].
  - split; [reflexivity|]. exists [].
    destruct (StreamRoute.cancelledBefore (ticks pollCount)); cbn;
      rewrite app_nil_r; reflexivity.
  - set (ch0 := if StreamRoute.cancelledBefore (ticks pollCount)
                then StreamRoute.cancel ch else ch).
    assert (H0 : StreamRoute.sent ch0 = StreamRoute.sent ch)
      by (subst ch0; destruct (StreamRoute.cancelledBefore (ticks pollCount)); reflexivity).
    destruct (StreamRoute.isClientConnected ch0); cbn [negb].
    + pose proof (pollOnce_grows (ticks pollCount) c ch0) as Hone.
      destruct (StreamRoute.pollOnce (ticks pollCount) c ch0) as [[c' ch1] again].
      destruct Hone as (Hclosed & x & Hx). destruct again.
      * destruct (IH (S pollCount) ticks c' ch1) as (Hc & y & Hy).
        split; [exact Hc|]. exists (x ++ y). rewrite Hy, Hx, H0, app_assoc. reflexivity.
      * split; [auto|]. exists x. rewrite Hx, H0. reflexivity.
    + split; [reflexivity|]. exists []. cbn. rewrite app_nil_r. exact H0.
Qed.

Lemma sendEvent_length (e : StreamRoute.event) (ch : StreamRoute.channel) :
  (List.length (StreamRoute.sent (StreamRoute.sendEvent e ch))
   <= S (List.length (StreamRoute.sent ch)))%nat.
Proof.
  unfold StreamRoute.sendEvent.
  destruct (StreamRoute.isClientConnected ch), (StreamRoute.closed ch); cbn;
    rewrite ?length_app; cbn; lia.
Qed.

Lemma sendUpdates_length (cur : ShellStream.t) (c : StreamRoute.cursor)
  (ch : StreamRoute.channel) :
  (List.length (StreamRoute.sent (snd (StreamRoute.sendUpdates cur c ch)))
   <= List.length (StreamRoute.sent ch) + 2)%nat.
Proof.
  unfold StreamRoute.sendUpdates.
  destruct (_ <? String.length (ShellStream.stdout cur))%nat;
    destruct (_ <? String.length (ShellStream.stderr cur))%nat; cbn [snd].
  - match goal with
    | |- context [StreamRoute.sendEvent ?e2 (StreamRoute.sendEvent ?e1 ch)] =>
        pose proof (sendEvent_length e1 ch);
        pose proof (sendEvent_length e2 (StreamRoute.sendEvent e1 ch))
    end.
    lia.
  - match goal with
    | |- context [StreamRoute.sendEvent ?e1 ch] => pose proof (sendEvent_length e1 ch)
    end.
    lia.
  - match goal with
    | |- context [StreamRoute.sendEvent ?e1 ch] => pose proof (sendEvent_length e1 ch)
    end.
    lia.
  - lia.
Qed.

(** One poll sends at most two events when the next is scheduled, and at
    most four when it is the last. *)
Lemma pollOnce_length (t : StreamRoute.tick) (c : StreamRoute.cursor)
  (ch : StreamRoute.channel) :
  let '(_, ch', again) := StreamRoute.pollOnce t c ch in
  (List.length (StreamRoute.sent ch')
   <= List.length (StreamRoute.sent ch) + (if again then 2 else 4))%nat.
Proof.
  unfold StreamRoute.pollOnce.
  set (ch0 := if StreamRoute.cancelledDuring t then StreamRoute.cancel ch else ch).
  assert (H0 : StreamRoute.sent ch0 = StreamRoute.sent ch)
    by (subst ch0; destruct (StreamRoute.cancelledDuring t); reflexivity).
  rewrite <- H0.
  destruct (StreamRoute.fetched t) as [[cur|]|e].
  - pose proof (sendUpdates_length cur c ch0) as Hx.
    destruct (StreamRoute.sendUpdates cur c ch0) as [c' ch1]. cbn [snd] in Hx.
    destruct (ShellStream.done cur); [|lia].
    cbn [StreamRoute.close StreamRoute.sent].
    match goal with
    | |- context [StreamRoute.sendEvent ?e2 (StreamRoute.sendEvent ?e1 ch1)] =>
        pose proof (sendEvent_length e1 ch1);
        pose proof (sendEvent_length e2 (StreamRoute.sendEvent e1 ch1))
    end.
    lia.
  - cbn [StreamRoute.close StreamRoute.sent].
    match goal with
    | |- context [StreamRoute.sendEvent ?e1 ch0] => pose proof (sendEvent_length e1 ch0)
    end.
    lia.
  - cbn [StreamRoute.close StreamRoute.sent].
    match goal with
    | |- context [StreamRoute.sendEvent ?e1 ch0] => pose proof (sendEvent_length e1 ch0)
    end.
    lia.
Qed.

Lemma poll_length (remaining : nat) :
  forall pollCount ticks c ch,
    (List.length (StreamRoute.sent (StreamRoute.poll remaining pollCount ticks c ch))
     <= List.length (StreamRoute.sent ch) + 2 * remaining + 2)%nat.
Proof.
  induction remaining as [|remaining IH]; intros pollCount ticks c ch;
    cbn [StreamRoute.poll].
  - destruct (StreamRoute.cancelledBefore (ticks pollCount)); cbn; lia.
  - set (ch0 := if StreamRoute.cancelledBefore (ticks pollCount)
                then StreamRoute.cancel ch else ch).
    assert (H0 : StreamRoute.sent ch0 = StreamRoute.sent ch)
      by (subst ch0; destruct (StreamRoute.cancelledBefore (ticks pollCount)); reflexivity).
    rewrite <- H0.
    destruct (StreamRoute.isClientConnected ch0); cbn [negb].
    + pose proof (pollOnce_length (ticks pollCount) c ch0) as Hone.
      destruct (StreamRoute.pollOnce (ticks pollCount) c ch0) as [[c' ch1] again].
      destruct again; [|lia].
      specialize (IH (S pollCount) ticks c' ch1). lia.
    + cbn. lia.
Qed.

(** What is sent depends on the first [remaining] ticks only: [poll]
    makes no lookup after them. *)
Lemma poll_looks_up_at_most (remaining : nat) :
  forall pollCount ticks ticks' c ch,
    (forall i, (pollCount <= i < pollCount + remaining)%nat -> ticks' i = ticks i) ->
    StreamRoute.sent (StreamRoute.poll remaining pollCount ticks' c ch) =
    StreamRoute.sent (StreamRoute.poll remaining pollCount ticks c ch).
Proof.
  induction remaining as [|remaining IH]; intros pollCount ticks ticks' c ch Hsame;
    cbn [StreamRoute.poll].
  - destruct (StreamRoute.cancelledBefore (ticks pollCount)),
             (StreamRoute.cancelledBefore (ticks' pollCount)); reflexivity.
  - rewrite (Hsame pollCount) by lia.
    destruct (negb _); [reflexivity|].
    destruct (StreamRoute.pollOnce _ _ _) as [[c' ch1] again].
    destruct again; [|reflexivity].
    apply IH. intros i Hi. apply Hsame. lia.
Qed.

(** X24: every subscription ends with the stream closed, whatever the
    lookups answer and whenever the subscriber leaves, after at most 600
    polls: what is sent is decided by the first 600 ticks, and is the
    [initial] event, carrying the fields of the row as it was found at
    subscribe time, followed by at most 1202 events (two for each poll
    and two more for the last). *)
Theorem subscription_always_closes :
  forall (row : ShellStream.t) (ticks : nat -> StreamRoute.tick),
    StreamRoute.closed (StreamRoute.start row ticks) = true /\
    (exists rest,
        StreamRoute.sent (StreamRoute.start row ticks) =
        StreamRoute.Initial
          (StreamRoute.mkSnapshot
             (ShellStream.id row) (ShellStream.sessionId row) (ShellStream.command row)
             (ShellStream.stdout row) (ShellStream.stderr row)
             (ShellStream.exitCode row) (ShellStream.error row) (ShellStream.done row))
        :: rest /\
        (List.length rest <= 1202)%nat) /\
    (forall ticks' : nat -> StreamRoute.tick,
        (forall i, (i < 600)%nat -> ticks' i = ticks i) ->
        StreamRoute.sent (StreamRoute.start row ticks') =
        StreamRoute.sent (StreamRoute.start row ticks)).
Proof.
  intros row ticks. unfold StreamRoute.start, StreamRoute.snapshotOf.
  destruct (ShellStream.done row).
  - split; [reflexivity|]. split; [|reflexivity].
    eexists. split; [reflexivity|]. cbn. lia.
  - match goal with
    | |- context [StreamRoute.poll ?n ?i ticks ?c ?ch] =>
        destruct (poll_closes n i ticks c ch) as (Hc & x & Hx);
        pose proof (poll_length n i ticks c ch) as Hlen
    end.
    split; [exact Hc|]. split.
    + exists x. split; [rewrite Hx; reflexivity|].
      rewrite Hx, length_app in Hlen. unfold StreamRoute.maxPolls in Hlen.
      cbn [StreamRoute.sent StreamRoute.sendEvent StreamRoute.fresh
           StreamRoute.isClientConnected StreamRoute.closed negb app List.length] in Hlen.
      lia.
    + intros ticks' Hsame. apply poll_looks_up_at_most.
      intros i Hi. apply Hsame. unfold StreamRoute.maxPolls in Hi. lia.
Qed.

Lemma poll_disconnected (remaining : nat) :
  forall pollCount ticks c ch,
    StreamRoute.isClientConnected ch = false ->
    StreamRoute.sent (StreamRoute.poll remaining pollCount ticks c ch) = StreamRoute.sent ch.
Proof.
  destruct remaining as [|remaining]; intros pollCount ticks c ch Hgone;
    cbn [StreamRoute.poll];
    destruct (StreamRoute.cancelledBefore (ticks pollCount)); cbn;
    rewrite ?Hgone; reflexivity.
Qed.

Lemma sendUpdates_disconnected (cur : ShellStream.t) (c : StreamRoute.cursor)
  (ch : StreamRoute.channel) :
  StreamRoute.isClientConnected ch = false ->
  snd (StreamRoute.sendUpdates cur c ch) = ch.
Proof.
  intros Hgone. unfold StreamRoute.sendUpdates.
  destruct (_ <? String.length (ShellStream.stdout cur))%nat;
    destruct (_ <? String.length (ShellStream.stderr cur))%nat; cbn [snd];
    rewrite ?(fun e => sendEvent_disconnected e ch Hgone); reflexivity.
Qed.

(** X25: once the subscriber has cancelled, nothing more is enqueued: if
    the subscriber is already disconnected, or leaves while the timer is
    pending or during the lookup of a poll, the events sent are those
    sent before, whatever the row has become. *)
Theorem nothing_sent_after_cancel :
  forall (remaining pollCount : nat) (ticks : nat -> StreamRoute.tick)
         (c : StreamRoute.cursor) (ch : StreamRoute.channel),
    StreamRoute.isClientConnected ch = false \/
    StreamRoute.cancelledBefore (ticks pollCount) = true \/
    StreamRoute.cancelledDuring (ticks pollCount) = true ->
    StreamRoute.sent (StreamRoute.poll remaining pollCount ticks c ch) = StreamRoute.sent ch.
Proof.
  intros remaining pollCount ticks c ch [Hgone|[Hbefore|Hduring]].
  - apply poll_disconnected, Hgone.
  - destruct remaining; cbn [StreamRoute.poll]; rewrite Hbefore; reflexivity.
  - destruct remaining as [|remaining]; cbn [StreamRoute.poll].
    + destruct (StreamRoute.cancelledBefore (ticks pollCount)); reflexivity.
    + set (ch0 := if StreamRoute.cancelledBefore (ticks pollCount)
                  then StreamRoute.cancel ch else ch).
      assert (H0 : StreamRoute.sent ch0 = StreamRoute.sent ch)
        by (subst ch0; destruct (StreamRoute.cancelledBefore (ticks pollCount));
            reflexivity).
      destruct (StreamRoute.isClientConnected ch0); cbn [negb]; [|exact H0].
      unfold StreamRoute.pollOnce. rewrite Hduring.
      assert (Hgone : StreamRoute.isClientConnected (StreamRoute.cancel ch0) = false)
        by reflexivity.
      assert (Hno : forall e, StreamRoute.sendEvent e (StreamRoute.cancel ch0)
                              = StreamRoute.cancel ch0)
        by (intros e; apply sendEvent_disconnected, Hgone).
      destruct (StreamRoute.fetched (ticks pollCount)) as [[cur|]|e].
      * pose proof (sendUpdates_disconnected cur c _ Hgone) as Hsame.
        destruct (StreamRoute.sendUpdates cur c (StreamRoute.cancel ch0)) as [c' ch1].
        cbn [snd] in Hsame. subst ch1.
        destruct (ShellStream.done cur).
        -- rewrite !Hno. exact H0.
        -- rewrite poll_disconnected by exact Hgone. exact H0.
      * rewrite Hno. exact H0.
      * rewrite Hno. exact H0.
Qed.

Lemma nothing_sent_after_cancel_witness :
  StreamRoute.sent (StreamRoute.poll StreamRoute.maxPolls O leavesDuringLookup
                                     cursorAbc afterInitial)
  = StreamRoute.sent afterInitial.
Proof.
  apply (nothing_sent_after_cancel StreamRoute.maxPolls O leavesDuringLookup
           cursorAbc afterInitial).
  right. right. reflexivity.
Defined.

Lemma poll_running_is_quiet (remaining : nat) :
  forall pollCount ticks c ch,
    StreamRoute.isClientConnected ch = true ->
    StreamRoute.closed ch = false ->
    quiet (StreamRoute.sent ch) = true ->
    (forall k,
        StreamRoute.cancelledBefore (ticks k) = false /\
        StreamRoute.cancelledDuring (ticks k) = false /\
        exists r, StreamRoute.fetched (ticks k) = Ok (Some r) /\
                  ShellStream.done r = false) ->
    quiet (StreamRoute.sent (StreamRoute.poll remaining pollCount ticks c ch)) = true /\
    StreamRoute.closed (StreamRoute.poll remaining pollCount ticks c ch) = true /\
    StreamRoute.isClientConnected (StreamRoute.poll remaining pollCount ticks c ch) = true.
Proof.
  induction remaining as [|remaining IH];
    intros pollCount ticks c ch Hconn Hopen Hquiet Hrunning;
    destruct (Hrunning pollCount) as (Hbefore & Hduring & r & Hfetch & Hnot);
    cbn [StreamRoute.poll]; rewrite Hbefore.
  - cbn. auto.
  - rewrite Hconn. cbn [negb].
    pose proof (pollOnce_found (ticks pollCount) c ch r r Hconn Hopen Hduring Hfetch)
      as Hfound.
    destruct (StreamRoute.pollOnce (ticks pollCount) c ch) as [[c' ch'] again].
    destruct Hfound as (Hsent & -> & _ & Hlive).
    rewrite Hnot in *. cbn [negb]. destruct (Hlive eq_refl) as [Hconn' Hopen'].
    apply IH; try assumption.
    rewrite Hsent. unfold quiet in *. rewrite !forallb_app, Hquiet.
    destruct (_ <? String.length (ShellStream.stdout r))%nat;
      destruct (_ <? String.length (ShellStream.stderr r))%nat; reflexivity.
Qed.

(** X26: when the poll budget runs out on a row that every lookup finds
    still running, with the subscriber connected throughout, the stream
    is closed without any [complete], [error] or [done] event: the
    subscriber is sent the snapshot and output events only. *)
Theorem exhausted_budget_closes_silently :
  forall (row : ShellStream.t) (ticks : nat -> StreamRoute.tick),
    ShellStream.done row = false ->
    (forall k,
        StreamRoute.cancelledBefore (ticks k) = false /\
        StreamRoute.cancelledDuring (ticks k) = false /\
        exists r, StreamRoute.fetched (ticks k) = Ok (Some r) /\
                  ShellStream.done r = false) ->
    quiet (StreamRoute.sent (StreamRoute.start row ticks)) = true /\
    StreamRoute.closed (StreamRoute.start row ticks) = true /\
    StreamRoute.isClientConnected (StreamRoute.start row ticks) = true.
Proof.
  intros row ticks Hnot Hrunning. unfold StreamRoute.start. rewrite Hnot.
  apply poll_running_is_quiet; try assumption; reflexivity.
Qed.

Lemma exhausted_budget_closes_silently_witness :
  quiet (StreamRoute.sent (StreamRoute.start rowAbc neverEnding)) = true /\
  StreamRoute.closed (StreamRoute.start rowAbc neverEnding) = true /\
  StreamRoute.isClientConnected (StreamRoute.start rowAbc neverEnding) = true.
Proof.
  apply (exhausted_budget_closes_silently rowAbc neverEnding).
  - reflexivity.
  - intros k. repeat split. eexists. split; reflexivity.
Defined.

Lemma receive_complete (events : list StreamRoute.event) (c : option Z)
  (e : option string) :
  ShellTerminal.receive (events ++ [StreamRoute.Complete c e; StreamRoute.Done]) =
  ShellTerminal.mkState (ShellTerminal.stdout (ShellTerminal.receive events))
                        (ShellTerminal.stderr (ShellTerminal.receive events))
                        c e true.
Proof. unfold ShellTerminal.receive. rewrite fold_left_app. reflexivity. Qed.

Lemma poll_delivers_final_record (remaining : nat) :
  forall pollCount ticks c ch prev,
    appendOnly remaining pollCount ticks prev = true ->
    StreamRoute.isClientConnected ch = true ->
    StreamRoute.closed ch = false ->
    synced c ch prev ->
    ShellStream.done prev = false ->
    ShellStream.done (lastFetched remaining pollCount ticks prev) = true ->
    ShellTerminal.receive
      (StreamRoute.sent (StreamRoute.poll remaining pollCount ticks c ch)) =
    ShellTerminal.mkState
      (ShellStream.stdout (lastFetched remaining pollCount ticks prev))
      (ShellStream.stderr (lastFetched remaining pollCount ticks prev))
      (ShellStream.exitCode (lastFetched remaining pollCount ticks prev))
      (ShellStream.error (lastFetched remaining pollCount ticks prev))
      true.
Proof.
  induction remaining as [|remaining IH];
    intros pollCount ticks c ch prev Hwell Hconn Hopen Hsync Hprev Hlast;
    cbn [StreamRoute.poll lastFetched appendOnly] in *.
  - congruence.
  - apply andb_prop in Hwell as [Hstay Hrows].
    apply andb_prop in Hstay as [Hbefore Hduring].
    apply negb_true_iff in Hbefore, Hduring. rewrite Hbefore, Hconn. cbn [negb].
    destruct (StreamRoute.fetched (ticks pollCount)) as [[row|]|e] eqn:Hfetch;
      try discriminate.
    apply andb_prop in Hrows as [Hext Hrest].
    pose proof (pollOnce_found (ticks pollCount) c ch prev row
                  Hconn Hopen Hduring Hfetch) as Hfound.
    destruct (StreamRoute.pollOnce (ticks pollCount) c ch) as [[c' ch'] again].
    destruct Hfound as (Hsent & -> & Hstep & Hlive).
    specialize (Hstep Hsync Hext).
    destruct (ShellStream.done row) eqn:Hdone; cbn [negb].
    + destruct Hstep as (_ & _ & Hout & Herr).
      rewrite Hsent, !app_assoc in Hout, Herr |- *.
      rewrite receive_complete in Hout, Herr |- *.
      cbn [ShellTerminal.stdout ShellTerminal.stderr] in Hout, Herr.
      rewrite Hout, Herr. reflexivity.
    + destruct (Hlive eq_refl) as [Hconn' Hopen'].
      cbn [orb] in Hrest. apply IH; assumption.
Qed.

(** X27: over a subscription to a row that only has text appended and
    that a poll finds done inside the budget, with the subscriber
    connected, the subscriber's state after the last event is the final
    row: its full [stdout] and [stderr], its [exitCode] and [error], and
    [done]. *)
Theorem subscription_delivers_final_record :
  forall (streamId : string) (row : ShellStream.t) (ticks : nat -> StreamRoute.tick),
    truthy (Some streamId) = true ->
    ShellStream.done row = false ->
    appendOnly StreamRoute.maxPolls O ticks row = true ->
    ShellStream.done (lastFetched StreamRoute.maxPolls O ticks row) = true ->
    exists ch,
      StreamRoute.GET (Some streamId) true (Some row) ticks = StreamRoute.EventStream ch /\
      ShellTerminal.receive (StreamRoute.sent ch) =
      ShellTerminal.mkState
        (ShellStream.stdout (lastFetched StreamRoute.maxPolls O ticks row))
        (ShellStream.stderr (lastFetched StreamRoute.maxPolls O ticks row))
        (ShellStream.exitCode (lastFetched StreamRoute.maxPolls O ticks row))
        (ShellStream.error (lastFetched StreamRoute.maxPolls O ticks row))
        true.
Proof.
  intros streamId row ticks Hid Hrunning Hwell Hlast.
  unfold StreamRoute.GET, StreamRoute.start. rewrite Hid, Hrunning. cbn [negb].
  eexists. split; [reflexivity|].
  apply poll_delivers_final_record; try assumption; try reflexivity.
  apply initial_synced.
Qed.

Lemma subscription_delivers_final_record_witness :
  exists ch,
    StreamRoute.GET (Some "stream-1") true (Some rowAbc) growsThenCompletes
      = StreamRoute.EventStream ch /\
    ShellTerminal.receive (StreamRoute.sent ch) =
    ShellTerminal.mkState
      (ShellStream.stdout (lastFetched StreamRoute.maxPolls O growsThenCompletes rowAbc))
      (ShellStream.stderr (lastFetched StreamRoute.maxPolls O growsThenCompletes rowAbc))
      (ShellStream.exitCode (lastFetched StreamRoute.maxPolls O growsThenCompletes rowAbc))
      (ShellStream.error (lastFetched StreamRoute.maxPolls O growsThenCompletes rowAbc))
      true.
Proof.
  apply (subscription_delivers_final_record "stream-1" rowAbc growsThenCompletes);
    reflexivity.
Defined.

Lemma subscription_replays_appended_output_witness :
  exists ch,
    StreamRoute.GET (Some "stream-1") true (Some rowAbc) growsThenCompletes
      = StreamRoute.EventStream ch /\
    ShellTerminal.stdout (ShellTerminal.receive (StreamRoute.sent ch)) =
      ShellStream.stdout (lastFetched StreamRoute.maxPolls O growsThenCompletes rowAbc) /\
    ShellTerminal.stderr (ShellTerminal.receive (StreamRoute.sent ch)) =
      ShellStream.stderr (lastFetched StreamRoute.maxPolls O growsThenCompletes rowAbc).
Proof.
  apply (subscription_replays_appended_output "stream-1" rowAbc growsThenCompletes);
    reflexivity.
Defined.

Lemma exec_contacts_only_leased_sandbox_witness :
  In (AgentSession.Fetch "http://sb-1//exec")
     (snd (AgentSession.exec (Throw NonError) (Ok tt) 2000 (Throw NonError) leasedSession)) /\
  AgentSession.hasSandbox leasedSession = true /\
  exists it,
    item (AgentSession.data leasedSession) = Some it /\
    "http://sb-1//exec" = (execUrl it ++ "/exec")%string.
Proof.
  split; [left; reflexivity|].
  apply (exec_contacts_only_leased_sandbox (Throw NonError) (Ok tt) 2000 (Throw NonError)
           leasedSession "http://sb-1//exec").
  left. reflexivity.
Defined.
